(** * SRTLangDetect: a shallow embedding of [src/srtlangdetect.py]

    The development follows the Python module function by function.

    Definitions:
    - [Py]      the Python built-ins the module relies on ([str.lower],
                [str.split], [str.join], [str(int)], [list.remove],
                [int(float)], [round(float, 2)], [int / int], comparison of
                a float with an int), floats being binary64;
    - [OsPath]  [posixpath.basename], [dirname] and [join];
    - [Re]      the fragment of [re] used by the four patterns of the module,
                as a backtracking matcher with Python's greedy priorities;
    - the external services ([iso639], [langid]) as type classes, with the
      two ways a look-up of [iso639] fails, and the
      world a run acts on: the paths on disk, the messages printed, the
      calls that change the disk;
    - the module itself: [check_valid_percentage], [get_filename_language],
      [get_new_filename], [percent_sdh] and [lang_detect_srt], the latter
      three in a small monad of results, exceptions and world;
    - [Sample]  a five-language table and fixed classifiers for concrete
                runs;
    - the vocabulary the statements are written in.

    Facts, module by module, then the properties of the specification, each
    under the lines of the source it is about.

    A character is a code point below 256 (Rocq's [ascii]); [str.lower],
    [\d] and [\s] are Python's restricted to that range.  The disk is the
    finite list of the paths that exist; a file that cannot be read is a
    case of the input, failures of [os.remove] and [os.rename] (permissions,
    races) are not modelled. *)

From Stdlib Require Import Bool Arith ZArith Lia List String Ascii.
From Stdlib Require Import DecimalString DecimalNat Finite.
From Stdlib Require Import Floats.
Import ListNotations.

Open Scope string_scope.

(* ===================================================================== *)
(** * Python built-ins *)
(* ===================================================================== *)

Module Py.

(** The exceptions the modelled code can raise. *)
Inductive exn : Type :=
| TypeError          (* [".".join] over a list that holds a non-string *)
| ValueError         (* [list.remove] of an absent value, [int(nan)],
                        [iso639.find] of an empty key *)
| OverflowError      (* [int(inf)] *)
| ZeroDivisionError  (* [a / 0] *)
| OSError            (* [open] of a file that cannot be read *)
| ArgumentTypeError (value : Z).   (* [argparse.ArgumentTypeError] *)

(** What running a piece of code produces.  [OutOfFuel] is the model's
    only artefact: a [while True] loop is unrolled a bounded number of
    times, and the bound is proved sufficient. *)
Inductive outcome (A : Type) : Type :=
| Ok (a : A)
| Raise (e : exn)
| OutOfFuel.

Arguments Ok {A} a.
Arguments Raise {A} e.
Arguments OutOfFuel {A}.

(** A value that is either a string or [False]: the result of the
    [to_*] wrappers around [iso639]. *)
Inductive value : Type :=
| VFalse
| VStr (s : string).

Definition value_eqb (a b : value) : bool :=
  match a, b with
  | VFalse, VFalse => true
  | VStr x, VStr y => String.eqb x y
  | _, _ => false
  end.

(** Truthiness: [False] and [""] are falsy. *)
Definition truthy (v : value) : bool :=
  match v with
  | VFalse => false
  | VStr s => negb (String.eqb s "")
  end.

(** [x in l] for a list of values. *)
Definition value_in (x : value) (l : list value) : bool :=
  existsb (value_eqb x) l.

(** ** Characters *)

Definition code (c : ascii) : nat := nat_of_ascii c.

Definition LF : ascii := "010"%char.

(** [c.lower()] for a code point below 256: A-Z and the Latin-1 capitals
    (U+00C0..U+00DE except the multiplication sign U+00D7) move up by 32. *)
Definition lower_char (c : ascii) : ascii :=
  let n := code c in
  if (((65 <=? n) && (n <=? 90)) || ((192 <=? n) && (n <=? 222) && negb (n =? 215)))%nat
  then ascii_of_nat (n + 32)
  else c.

(** [\d]: the decimal digits below 256 are 0-9. *)
Definition is_digit (c : ascii) : bool :=
  let n := code c in ((48 <=? n) && (n <=? 57))%nat.

(** [\s]: the white space below 256 ([str.isspace]). *)
Definition is_space (c : ascii) : bool :=
  let n := code c in
  (((9 <=? n) && (n <=? 13)) || ((28 <=? n) && (n <=? 32)) || (n =? 133) || (n =? 160))%nat.

(** [.] without DOTALL: anything but a line feed. *)
Definition is_dot (c : ascii) : bool := negb (Ascii.eqb c LF).

(** ** Strings *)

Fixpoint lower (s : string) : string :=
  match s with
  | EmptyString => EmptyString
  | String c s' => String (lower_char c) (lower s')
  end.

Definition len (s : string) : nat := String.length s.

(** [s.split(sep)] for a one-character separator: never the empty list. *)
Fixpoint split (sep : ascii) (s : string) : list string :=
  match s with
  | EmptyString => [EmptyString]
  | String c s' =>
      if Ascii.eqb c sep then EmptyString :: split sep s'
      else match split sep s' with
           | h :: t => String c h :: t
           | [] => [String c EmptyString]
           end
  end.

(** [sep.join(l)] over strings. *)
Definition join (sep : string) (l : list string) : string := String.concat sep l.

(** [str(i)] for a natural number. *)
Definition str (i : nat) : string := NilZero.string_of_uint (Nat.to_uint i).

(** ** Lists *)

(** [l.remove(x)]: drops the first element equal to [x]; [ValueError] when
    there is none. *)
Fixpoint list_remove (x : string) (l : list string) : outcome (list string) :=
  match l with
  | [] => Raise ValueError
  | y :: l' =>
      if String.eqb y x then Ok l'
      else match list_remove x l' with
           | Ok r => Ok (y :: r)
           | Raise e => Raise e
           | OutOfFuel => OutOfFuel
           end
  end.

(** ** Floats

    Python's [float] is IEEE binary64, Rocq's primitive [float].  The exact
    value of a finite float is [m * 2^e]. *)

Definition float_exact (x : float) : option (Z * Z) :=
  match Prim2SF x with
  | S754_zero _ => Some (0%Z, 0%Z)
  | S754_finite s m e => Some (if s then Zneg m else Zpos m, e)
  | S754_infinity _ | S754_nan => None
  end.

(** An int below 2^63 in absolute value as the nearest float (exact below
    2^53, which covers every count and percentage of this program). *)
Definition float_of_Z (n : Z) : float :=
  if (n <? 0)%Z then PrimFloat.opp (PrimFloat.of_uint63 (Uint63.of_Z (- n)))
  else PrimFloat.of_uint63 (Uint63.of_Z n).

(** [a / b] on ints (true division). *)
Definition truediv (a b : Z) : outcome float :=
  if (b =? 0)%Z then Raise ZeroDivisionError
  else Ok (PrimFloat.div (float_of_Z a) (float_of_Z b)).

(** The integer nearest to [n / d] ([d > 0]), ties to the even one. *)
Definition round_half_even (n d : Z) : Z :=
  let q := (n / d)%Z in
  let r := (n mod d)%Z in
  match (2 * r ?= d)%Z with
  | Lt => q
  | Gt => (q + 1)%Z
  | Eq => if Z.even q then q else (q + 1)%Z
  end.

(** [round(x, 2)]: the exact value of [x] is rounded to two decimals,
    half to even, and the decimal [k / 100] is read back as the nearest
    float; [nan] and the infinities are returned as they are. *)
Definition round2 (x : float) : float :=
  match float_exact x with
  | None => x
  | Some (m, e) =>
      let k := if (0 <=? e)%Z then (100 * m * 2 ^ e)%Z
               else round_half_even (100 * m) (2 ^ (- e)) in
      PrimFloat.div (float_of_Z k) (float_of_Z 100)
  end.

(** [x ? n] for a float and an int: Python compares the exact values;
    [None] when [x] is [nan] (every comparison is then false). *)
Definition float_compare_Z (x : float) (n : Z) : option comparison :=
  match Prim2SF x with
  | S754_nan => None
  | S754_infinity s => Some (if s then Lt else Gt)
  | S754_zero _ => Some (0 ?= n)%Z
  | S754_finite s m e =>
      let v := if s then Zneg m else Zpos m in
      Some (if (0 <=? e)%Z then (v * 2 ^ e ?= n)%Z else (v ?= n * 2 ^ (- e))%Z)
  end.

(** [x >= n] *)
Definition float_ge (x : float) (n : Z) : bool :=
  match float_compare_Z x n with
  | Some Gt | Some Eq => true
  | Some Lt | None => false
  end.

(** [x <= n] *)
Definition float_le (x : float) (n : Z) : bool :=
  match float_compare_Z x n with
  | Some Lt | Some Eq => true
  | Some Gt | None => false
  end.

(** [int(x)]: truncation toward zero. *)
Definition int_of_float (x : float) : outcome Z :=
  match Prim2SF x with
  | S754_nan => Raise ValueError
  | S754_infinity _ => Raise OverflowError
  | S754_zero _ => Ok 0%Z
  | S754_finite s m e =>
      let v := if s then Zneg m else Zpos m in
      Ok (if (0 <=? e)%Z then (v * 2 ^ e)%Z else Z.quot v (2 ^ (- e)))
  end.

End Py.

(* ===================================================================== *)
(** * [os.path] (posixpath) *)
(* ===================================================================== *)

Module OsPath.

Definition sep : ascii := "/"%char.

(** [(p[:i], p[i:])] for [i = p.rfind("/") + 1]. *)
Fixpoint rsplit (p : string) : string * string :=
  match p with
  | EmptyString => (EmptyString, EmptyString)
  | String c p' =>
      let (head, tail) := rsplit p' in
      match head with
      | EmptyString =>
          if Ascii.eqb c sep then (String c EmptyString, tail)
          else (EmptyString, String c tail)
      | String _ _ => (String c head, tail)
      end
  end.

(** [head == "/" * len(head)] *)
Fixpoint all_sep (s : string) : bool :=
  match s with
  | EmptyString => true
  | String c s' => Ascii.eqb c sep && all_sep s'
  end.

(** [head.rstrip("/")] *)
Fixpoint rstrip_sep (s : string) : string :=
  match s with
  | EmptyString => EmptyString
  | String c s' =>
      match rstrip_sep s' with
      | EmptyString => if Ascii.eqb c sep then EmptyString else String c EmptyString
      | String _ _ as r => String c r
      end
  end.

Definition basename (p : string) : string := snd (rsplit p).

Definition dirname (p : string) : string :=
  let head := fst (rsplit p) in
  if negb (String.eqb head "") && negb (all_sep head) then rstrip_sep head else head.

Definition startswith_sep (s : string) : bool :=
  match s with
  | String c _ => Ascii.eqb c sep
  | EmptyString => false
  end.

Fixpoint endswith_sep (s : string) : bool :=
  match s with
  | EmptyString => false
  | String c EmptyString => Ascii.eqb c sep
  | String _ s' => endswith_sep s'
  end.

(** [os.path.join(a, b)] *)
Definition join (a b : string) : string :=
  if startswith_sep b then b
  else if String.eqb a "" || endswith_sep a then a ++ b
  else a ++ String sep b.

End OsPath.

(* ===================================================================== *)
(** * The fragment of [re] the module uses *)
(* ===================================================================== *)

Module Re.

(** Patterns.  Repetition is only ever applied to a character class in
    this program ([.*], [\s*], [\d+]), so [Star] takes a class. *)
Inductive regex : Type :=
| Chr (c : ascii)               (* a literal character *)
| Cls (p : ascii -> bool)       (* one character of a class *)
| Star (p : ascii -> bool)      (* greedy [p*] *)
| Seq (r1 r2 : regex)
| Alt (r1 r2 : regex)           (* [r1|r2], [r1] tried first *)
| Eps                           (* the empty pattern *)
| Bol                           (* [^] *)
| Eol.                          (* [$]: the end, or before a final line feed *)

(** Greedy repetition with backtracking: as many characters of the class
    as the continuation [k] accepts.  [k] receives what is left of the
    subject. *)
Fixpoint star (p : ascii -> bool) (k : string -> option string) (s : string)
  : option string :=
  match s with
  | String c s' =>
      if p c then
        match star p k s' with
        | Some rest => Some rest
        | None => k s
        end
      else k s
  | EmptyString => k s
  end.

(** [exec r bol s k]: match [r] at the head of [s], then [k] on the rest;
    [bol] says whether [s] is the whole subject (for [^]).  The result is
    what is left of the subject after the whole match. *)
Fixpoint exec (r : regex) (bol : bool) (s : string)
  (k : bool -> string -> option string) : option string :=
  match r with
  | Chr c =>
      match s with
      | String c' s' => if Ascii.eqb c' c then k false s' else None
      | EmptyString => None
      end
  | Cls p =>
      match s with
      | String c' s' => if p c' then k false s' else None
      | EmptyString => None
      end
  | Star p =>
      match s with
      | String c' s' =>
          if p c' then
            match star p (k false) s' with
            | Some rest => Some rest
            | None => k bol s
            end
          else k bol s
      | EmptyString => k bol s
      end
  | Seq r1 r2 => exec r1 bol s (fun bol' s' => exec r2 bol' s' k)
  | Alt r1 r2 =>
      match exec r1 bol s k with
      | Some rest => Some rest
      | None => exec r2 bol s k
      end
  | Eps => k bol s
  | Bol => if bol then k bol s else None
  | Eol =>
      match s with
      | EmptyString => k bol s
      | String c EmptyString => if Ascii.eqb c Py.LF then k bol s else None
      | String _ _ => None
      end
  end.

(** [pattern.match(s)]: a match anchored at the start of [s]; the result is
    what follows the match. *)
Definition match_ (r : regex) (s : string) : option string :=
  exec r true s (fun _ rest => Some rest).

(** The truth value of [re.match(r, s)]. *)
Definition matches (r : regex) (s : string) : bool :=
  match match_ r s with
  | Some _ => true
  | None => false
  end.

(** [re.sub(r, repl, s)] for a pattern that matches no empty string and a
    replacement without group references: at each position, left to right,
    a match is replaced and the scan resumes after it; [skip] counts the
    characters of the current match still to be passed over. *)
Fixpoint sub_from (r : regex) (repl : string) (bol : bool) (skip : nat) (s : string)
  : string :=
  match s with
  | EmptyString => EmptyString
  | String c s' =>
      match skip with
      | S n => sub_from r repl false n s'
      | O =>
          match exec r bol s (fun _ rest => Some rest) with
          | Some rest =>
              match String.length s - String.length rest with
              | S n => repl ++ sub_from r repl false n s'
              | O => String c (sub_from r repl false 0 s')
              end
          | None => String c (sub_from r repl false 0 s')
          end
      end
  end.

Definition sub (r : regex) (repl : string) (s : string) : string :=
  sub_from r repl true 0 s.

(** r"\d+" *)
Definition digits : regex := Seq (Cls Py.is_digit) (Star Py.is_digit).

(** r"^\d{1,2}$" *)
Definition one_or_two_digits : regex :=
  Seq Bol (Seq (Seq (Cls Py.is_digit) (Alt (Cls Py.is_digit) Eps)) Eol).

(** r"(\[.*\]|<.*>|\(.*\))" *)
Definition sdh_regex : regex :=
  Alt (Seq (Chr "[") (Seq (Star Py.is_dot) (Chr "]")))
 (Alt (Seq (Chr "<") (Seq (Star Py.is_dot) (Chr ">")))
      (Seq (Chr "(") (Seq (Star Py.is_dot) (Chr ")")))).

(** r"\n\s*\n" *)
Definition blank_lines : regex :=
  Seq (Chr Py.LF) (Seq (Star Py.is_space) (Chr Py.LF)).

End Re.

(* ===================================================================== *)
(** * The external services *)
(* ===================================================================== *)

(** The [iso639] package: the two validity tests, and the tables of the
    three look-ups ([None] for a key a table does not hold). *)
Class Iso639 : Type := {
  is_valid639_1 : string -> bool;
  is_valid639_2 : string -> bool;
  to_iso639_1 : string -> option string;
  to_iso639_2 : string -> option string;
  to_name : string -> option string
}.

(** How a look-up of the package ends.  [iso639.find] first rejects a key
    that is false, which for a string is the empty one
    ([ValueError('Invalid search criteria.')]); [to_iso639_1], [to_iso639_2]
    and [to_name] then raise [NonExistentLanguageError] when nothing was
    found. *)
Inductive lookup : Type :=
| Found (value : string)
| NonExistentLanguage
| InvalidCriteria.

Definition look_up (table : string -> option string) (key : string) : lookup :=
  if key =? "" then InvalidCriteria
  else match table key with
       | Some value => Found value
       | None => NonExistentLanguage
       end.

(** [langid.classify(text)]: a language code and a probability. *)
Class LangId : Type := {
  classify : string -> string * float
}.

(* ===================================================================== *)
(** * The world: the files on disk, what was printed, what was done *)
(* ===================================================================== *)

(** One constructor per [print] of the module, with the values it
    formats. *)
Inductive message : Type :=
| Blank
| Parsing (file : string)
| CouldNotOpen (file : string)
| TroubleParsing (file : string)
| NoSubtitlesFound (file : string)
| FilenameIdentifiedAs (lang : Py.value) (special : string) (forced : bool)
| SubtitlesIdentifiedAs
| DetectedLanguage (lang_name : Py.value) (confidence : float)
| SdhConfidence (confidence : float)
| CannotDetectLanguage (file : string)
| MarkingAsSdh
| RemovingSdhFlag
| DoesNotExistOnDisk (name : string)
| AlreadyExists (name : string)
| ConfidenceToDelete (confidence required : Z)
| WouldDelete (file : string)
| Deleted (file : string)
| NoChangesNecessary (file : string)
| ConfidenceToRename (confidence required : Z)
| WouldRename (file new_filename : string)
| Renamed (file new_filename : string)
| WouldNotRenameUnknown (file : string).

(** The calls that change the disk. *)
Inductive syscall : Type :=
| Remove (file : string)
| Rename (file new_filename : string).

Record world : Type := {
  disk : list string;        (* the paths that exist *)
  stdout : list message;     (* oldest first *)
  syscalls : list syscall    (* oldest first *)
}.

(** Code that runs in a world: a result, or an exception, and the world
    it leaves. *)
Definition M (A : Type) : Type := world -> Py.outcome A * world.

Definition ret {A} (a : A) : M A := fun w => (Py.Ok a, w).

Definition bind {A B} (c : M A) (k : A -> M B) : M B :=
  fun w =>
    match c w with
    | (Py.Ok a, w') => k a w'
    | (Py.Raise e, w') => (Py.Raise e, w')
    | (Py.OutOfFuel, w') => (Py.OutOfFuel, w')
    end.

Definition lift {A} (o : Py.outcome A) : M A := fun w => (o, w).

Declare Scope py_scope.
Delimit Scope py_scope with py.
Notation "x <- c ;; k" := (bind c (fun x => k))
  (at level 61, c at next level, right associativity) : py_scope.
Notation "c ;; k" := (bind c (fun _ => k))
  (at level 61, right associativity) : py_scope.
Open Scope py_scope.

Definition print (m : message) : M unit :=
  fun w => (Py.Ok tt, {| disk := disk w; stdout := (stdout w ++ [m])%list; syscalls := syscalls w |}).

(** [if b: c] *)
Definition when (b : bool) (c : M unit) : M unit := if b then c else ret tt.

Definition on_disk (d : list string) (path : string) : bool :=
  existsb (String.eqb path) d.

(** [os.path.exists(path)] *)
Definition os_path_exists (path : string) : M bool :=
  fun w => (Py.Ok (on_disk (disk w) path), w).

(** [os.remove(file)] *)
Definition os_remove (file : string) : M unit :=
  fun w =>
    (Py.Ok tt,
     {| disk := filter (fun p => negb (String.eqb p file)) (disk w);
        stdout := stdout w;
        syscalls := (syscalls w ++ [Remove file])%list |}).

(** [os.rename(file, new_filename)] *)
Definition os_rename (file new_filename : string) : M unit :=
  fun w =>
    (Py.Ok tt,
     {| disk := new_filename ::
                filter (fun p => negb (String.eqb p file) && negb (String.eqb p new_filename))
                       (disk w);
        stdout := stdout w;
        syscalls := (syscalls w ++ [Rename file new_filename])%list |}).

(* ===================================================================== *)
(** * The module *)
(* ===================================================================== *)

(** ** [check_valid_percentage] (lines 279-283)

    [value] is the integer [int(value)] yields. *)
Definition check_valid_percentage (value : Z) : Py.outcome Z :=
  let ivalue := value in
  if ((0 <=? ivalue) && (ivalue <=? 100))%Z
  then Py.Raise (Py.ArgumentTypeError value)
  else Py.Ok ivalue.

(** ** [get_filename_language] (lines 286-323) *)

Record scan_state : Type := {
  forced : bool;
  special : string;
  sub_lang : string
}.

Definition scan_init : scan_state :=
  {| forced := false; special := ""; sub_lang := "Unknown" |}.

(** The body of the [for] loop: [Some] state to go on with ([continue]),
    [None] for [break]. *)
Definition scan_part (st : scan_state) (part : string) : option scan_state :=
  if Py.lower part =? "srt" then Some st
  else if Py.lower part =? "forced" then
    Some {| forced := true; special := special st; sub_lang := sub_lang st |}
  else if Py.lower part =? "cc" then
    Some {| forced := forced st; special := "cc"; sub_lang := sub_lang st |}
  else if Py.lower part =? "sdh" then
    Some {| forced := forced st; special := "sdh"; sub_lang := sub_lang st |}
  else if (Py.len part =? 2)%nat || (Py.len part =? 3)%nat then
    Some {| forced := forced st; special := special st; sub_lang := Py.lower part |}
  else if Re.matches Re.digits part then Some st
  else None.

(** The [for] loop over the reversed parts: the state it ends in, and the
    parts it did not go past (the one it broke at first). *)
Fixpoint scan_loop (st : scan_state) (parts : list string)
  : scan_state * list string :=
  match parts with
  | [] => (st, [])
  | part :: rest =>
      match scan_part st part with
      | Some st' => scan_loop st' rest
      | None => (st, parts)
      end
  end.

(** [os.path.basename(full_path).split(".")[::-1]] *)
Definition reversed_parts (full_path : string) : list string :=
  rev (Py.split "." (OsPath.basename full_path)).

(** The parts left of the point where the scan stopped, in the order of
    the file name: what the specification calls the title tokens.  The
    Python function does not return them. *)
Definition title_tokens (full_path : string) : list string :=
  rev (snd (scan_loop scan_init (reversed_parts full_path))).

Section WithIso639.

Context {iso : Iso639}.

(** Lines 317-321. *)
Definition validate_sub_lang (sub_lang : string) : string :=
  if (Py.len sub_lang =? 2)%nat || (Py.len sub_lang =? 3)%nat then
    if negb (is_valid639_1 sub_lang) && negb (is_valid639_2 sub_lang)
    then "Unknown"
    else sub_lang
  else "Unknown".

Definition get_filename_language (full_path : string) : string * string * bool :=
  let filename := reversed_parts full_path in
  let st := fst (scan_loop scan_init filename) in
  (validate_sub_lang (sub_lang st), special st, forced st).

(** ** The [to_*] wrappers (lines 413-431) *)

(** [try: return look-up; except iso639.NonExistentLanguageError: return
    False]: the [ValueError] of an empty key is not caught. *)
Definition to_2_letter_lang (lang : string) : Py.outcome Py.value :=
  match look_up to_iso639_1 lang with
  | Found l => Py.Ok (Py.VStr l)
  | NonExistentLanguage => Py.Ok Py.VFalse
  | InvalidCriteria => Py.Raise Py.ValueError
  end.

Definition to_3_letter_lang (lang : string) : Py.outcome Py.value :=
  match look_up to_iso639_2 lang with
  | Found l => Py.Ok (Py.VStr l)
  | NonExistentLanguage => Py.Ok Py.VFalse
  | InvalidCriteria => Py.Raise Py.ValueError
  end.

Definition to_lang_name (lang : string) : Py.outcome Py.value :=
  match look_up to_name lang with
  | Found l => Py.Ok (Py.VStr l)
  | NonExistentLanguage => Py.Ok Py.VFalse
  | InvalidCriteria => Py.Raise Py.ValueError
  end.

End WithIso639.

(** ** [get_new_filename] (lines 326-395) *)

(** The tests of the stripping loop that end in [filename.remove(part)]. *)
Definition removable (language : Py.value) (file_language : string) (part : string)
  : bool :=
  if Py.lower part =? "srt" then true
  else if Py.lower part =? "forced" then true
  else if Re.matches Re.one_or_two_digits part then true
  else if Py.lower part =? "sdh" then true
  else if Py.lower part =? "cc" then true
  else if part =? file_language then true
  else if Py.value_eqb (Py.VStr part) language then true
  else false.

(** [for part in filename[:]]: [parts] is what is left of the copy,
    [filename] the list being emptied. *)
Fixpoint strip_loop (language : Py.value) (file_language : string)
  (parts filename : list string) : Py.outcome (list string) :=
  match parts with
  | [] => Py.Ok filename
  | part :: more =>
      if removable language file_language part then
        match Py.list_remove part filename with
        | Py.Ok filename' => strip_loop language file_language more filename'
        | Py.Raise e => Py.Raise e
        | Py.OutOfFuel => Py.OutOfFuel
        end
      else Py.Ok filename
  end.

(** [".".join(l)] over a list that may hold a non-string. *)
Fixpoint join_values (l : list Py.value) : Py.outcome (list string) :=
  match l with
  | [] => Py.Ok []
  | Py.VFalse :: _ => Py.Raise Py.TypeError
  | Py.VStr s :: l' =>
      match join_values l' with
      | Py.Ok r => Py.Ok (s :: r)
      | Py.Raise e => Py.Raise e
      | Py.OutOfFuel => Py.OutOfFuel
      end
  end.

(** Lines 364-379: the name proposed at ordinal [i]. *)
Definition assemble (directory : string) (filename : list string) (i : nat)
  (language : Py.value) (special : string) (forced : bool) : Py.outcome string :=
  let new_filename := map Py.VStr filename in
  let new_filename :=
    if (1 <=? i)%nat then (new_filename ++ [Py.VStr (Py.str i)])%list else new_filename in
  let new_filename := (new_filename ++ [language])%list in
  let new_filename :=
    if Py.truthy (Py.VStr special) then (new_filename ++ [Py.VStr special])%list
    else new_filename in
  let new_filename :=
    if forced then (new_filename ++ [Py.VStr "forced"])%list else new_filename in
  let new_filename := (new_filename ++ [Py.VStr "srt"])%list in
  match join_values new_filename with
  | Py.Ok parts => Py.Ok (OsPath.join directory (Py.join "." parts))
  | Py.Raise e => Py.Raise e
  | Py.OutOfFuel => Py.OutOfFuel
  end.

(** The [while True] loop, from ordinal [i], unrolled at most [fuel]
    times. *)
Fixpoint probe_loop (fuel : nat) (full_path directory : string)
  (filename : list string) (language : Py.value) (special : string)
  (forced verbose : bool) (i : nat) : M string :=
  match fuel with
  | O => lift Py.OutOfFuel
  | S fuel' =>
      new_filename <- lift (assemble directory filename i language special forced) ;;
      if full_path =? new_filename then ret new_filename
      else
        found <- os_path_exists new_filename ;;
        if negb found then
          when verbose (print (DoesNotExistOnDisk (OsPath.basename new_filename))) ;;
          ret new_filename
        else
          when verbose (print (AlreadyExists (OsPath.basename new_filename))) ;;
          probe_loop fuel' full_path directory filename language special forced
                     verbose (S i)
  end.

(** The parts that survive the stripping loop, reversed back (line 357). *)
Definition kept_parts (full_path : string) (language : Py.value)
  (file_language : string) : Py.outcome (list string) :=
  let filename := rev (Py.split "." (OsPath.basename full_path)) in
  match strip_loop language file_language filename filename with
  | Py.Ok filename' => Py.Ok (rev filename')
  | Py.Raise e => Py.Raise e
  | Py.OutOfFuel => Py.OutOfFuel
  end.

(** The loop is given one round more than there are paths on disk. *)
Definition get_new_filename (full_path : string) (language : Py.value)
  (file_language special : string) (forced verbose : bool) : M string :=
  let directory := OsPath.dirname full_path in
  filename <- lift (kept_parts full_path language file_language) ;;
  fun w =>
    probe_loop (S (List.length (disk w))) full_path directory filename language
               special forced verbose 0 w.

(** ** [percent_sdh] (lines 397-411) *)

(** The [for] loop over the lines, with its two counters. *)
Fixpoint count_lines (lines : list string) (sdh_count total_count : nat)
  : nat * nat :=
  match lines with
  | [] => (sdh_count, total_count)
  | line :: rest =>
      let total_count := total_count + 1 in
      let sdh_count :=
        if Re.matches Re.sdh_regex line then sdh_count + 1 else sdh_count in
      count_lines rest sdh_count total_count
  end.

(** The text after [re.sub(r"\n\s*\n", "\n", input_text)]. *)
Definition remove_empty_lines (input_text : string) : string :=
  Re.sub Re.blank_lines (String Py.LF EmptyString) input_text.

Definition sdh_counts (input_text : string) : nat * nat :=
  count_lines (Py.split Py.LF (remove_empty_lines input_text)) 0 0.

Definition percent_sdh (input_text : string) : Py.outcome float :=
  let (sdh_count, total_count) := sdh_counts input_text in
  match Py.truediv (Z.of_nat sdh_count) (Z.of_nat total_count) with
  | Py.Ok q => Py.Ok (Py.round2 q)
  | Py.Raise e => Py.Raise e
  | Py.OutOfFuel => Py.OutOfFuel
  end.

(** ** [lang_detect_srt] (lines 49-201) *)

(** The command line, as [parse_args] returns it. *)
Record args : Type := {
  dry_run : bool;
  keep_only : list string;            (* [None] is the empty list *)
  require_lang_confidence : Z;
  min_sdh_confidence : Z;
  max_sdh_confidence : Z;
  reject_sdh_confidence : Z;
  two_letter : bool;
  three_letter : bool;
  summary : bool;
  quiet : bool;
  verbose : bool
}.

(** What lines 53-78 obtain from the file.  It cannot be read at all: after
    the attempt in UTF-8 has failed, [open(file, "rb")] at line 61, which
    stands outside any [try], raises [OSError].  Or its bytes are read and
    cannot be decoded; or [srt.parse] fails on the text; or the text is
    parsed and these are the contents of its subtitles. *)
Inductive read_result : Type :=
| Unreadable
| CannotOpen
| CannotParse
| Parsed (contents : list string).

Section WithServices.

Context {iso : Iso639} {lid : LangId}.

(** Lines 132-135. *)
Definition mark_sdh (verbose : bool) (a : args) (sdh_confidence : float)
  (special_subs : string) : M string :=
  if Py.float_ge sdh_confidence (min_sdh_confidence a)
     && Py.float_le sdh_confidence (max_sdh_confidence a)
     && negb (special_subs =? "sdh")
  then
    if verbose then print MarkingAsSdh ;; ret "sdh"
    else ret special_subs
  else ret special_subs.

(** Lines 137-140. *)
Definition unmark_sdh (verbose : bool) (a : args) (sdh_confidence : float)
  (special_subs : string) : M string :=
  if Py.float_le sdh_confidence (reject_sdh_confidence a)
     && (special_subs =? "sdh")
  then
    if verbose then print RemovingSdhFlag ;; ret ""
    else ret special_subs
  else ret special_subs.

(** Lines 132-140: the special marker after both tests. *)
Definition sdh_hysteresis (verbose : bool) (a : args) (sdh_confidence : float)
  (special_subs : string) : M string :=
  special_subs <- mark_sdh verbose a sdh_confidence special_subs ;;
  unmark_sdh verbose a sdh_confidence special_subs.

(** Lines 147-155. *)
Fixpoint keep_langs_loop (a : args) (langs : list string) (keep_langs : list Py.value)
  : Py.outcome (list Py.value) :=
  match langs with
  | [] => Py.Ok keep_langs
  | lang :: rest =>
      match (if three_letter a then to_3_letter_lang (Py.lower lang)
             else to_2_letter_lang (Py.lower lang)) with
      | Py.Ok l =>
          keep_langs_loop a rest
            (if Py.truthy l then (keep_langs ++ [l])%list else keep_langs)
      | Py.Raise e => Py.Raise e
      | Py.OutOfFuel => Py.OutOfFuel
      end
  end.

Definition unknown : Py.value := Py.VStr "Unknown".

(** Lines 174-201. *)
Definition rename_stage (file : string) (summary dry_run verbose : bool) (a : args)
  (new_lang_name : Py.value) (new_language_confidence : float)
  (new_filename : string) : M bool :=
  if new_filename =? file then
    when (verbose || summary) (print (NoChangesNecessary file)) ;;
    ret true
  else
    confidence <- lift (Py.int_of_float new_language_confidence) ;;
    (if (require_lang_confidence a <=? confidence)%Z then
       when dry_run
         (when verbose
            (print (ConfidenceToRename confidence (require_lang_confidence a))) ;;
          print (WouldRename file new_filename)) ;;
       when (negb dry_run)
         (if negb (Py.value_eqb new_lang_name unknown) then
            os_rename file new_filename ;;
            when (verbose || summary) (print (Renamed file new_filename))
          else
            when (verbose || summary) (print (WouldNotRenameUnknown file)))
     else ret tt) ;;
    ret true.

(** Lines 146-201. *)
Definition keep_only_stage (file : string) (summary dry_run verbose : bool) (a : args)
  (new_language new_lang_name : Py.value) (new_language_confidence : float)
  (new_filename : string) : M bool :=
  let continue :=
    rename_stage file summary dry_run verbose a new_lang_name
                 new_language_confidence new_filename in
  match keep_only a with
  | [] => continue
  | _ :: _ =>
      keep_langs <- lift (keep_langs_loop a (keep_only a) []) ;;
      if negb (Py.value_in new_language keep_langs) then
        confidence <- lift (Py.int_of_float new_language_confidence) ;;
        if (require_lang_confidence a <=? confidence)%Z then
          when dry_run
            (when verbose
               (print (ConfidenceToDelete confidence (require_lang_confidence a))) ;;
             print (WouldDelete new_filename)) ;;
          when (negb dry_run)
            (os_remove file ;;
             when (verbose || summary) (print (Deleted file))) ;;
          ret true
        else continue
      else continue
  end.

(** Lines 117-130: the code the file name will carry. *)
Definition resolve_language (file : string) (summary verbose : bool) (a : args)
  (new_lang_code : string) (new_lang_name : Py.value) : M Py.value :=
  if Py.value_eqb new_lang_name unknown then
    when (verbose || summary) (print (CannotDetectLanguage file)) ;;
    ret (if three_letter a then Py.VStr "unk" else Py.VStr "un")
  else
    lift (if three_letter a then to_3_letter_lang new_lang_code
          else to_2_letter_lang new_lang_code).

(** Lines 434-436. *)
Fixpoint detect_langs_pretty (results : list (Py.value * float)) : M unit :=
  match results with
  | [] => ret tt
  | (lang_name, confidence) :: rest =>
      print (DetectedLanguage lang_name confidence) ;;
      detect_langs_pretty rest
  end.

Definition lang_detect_srt (file : string) (summary dry_run quiet verbose : bool)
  (a : args) (input : read_result) : M bool :=
  when (dry_run || verbose) (print (Parsing file)) ;;
  match input with
  | Unreadable => lift (Py.Raise Py.OSError)
  | CannotOpen => print Blank ;; print (CouldNotOpen file) ;; ret false
  | CannotParse => print Blank ;; print (TroubleParsing file) ;; ret false
  | Parsed subtitles =>
      if (List.length subtitles =? 0)%nat then
        when (verbose || summary) (print (NoSubtitlesFound file)) ;;
        ret true
      else
        let subtitles_text :=
          Py.join (String Py.LF (String Py.LF EmptyString)) subtitles in
        let '(file_language, special_subs, forced_subs) := get_filename_language file in
        percent <- lift (percent_sdh subtitles_text) ;;
        let sdh_confidence := PrimFloat.mul percent 100 in
        let classification := classify subtitles_text in
        let new_lang_code := fst classification in
        new_lang_name <- lift (to_lang_name (fst classification)) ;;
        let new_language_confidence := PrimFloat.mul (snd classification) 100 in
        when (verbose || summary)
          (file_language_long <- lift (to_lang_name file_language) ;;
           let file_language_long :=
             if negb (Py.truthy file_language_long) then Py.VStr file_language
             else file_language_long in
           when verbose
             (print (FilenameIdentifiedAs file_language_long special_subs forced_subs) ;;
              print SubtitlesIdentifiedAs ;;
              detect_langs_pretty [(new_lang_name, new_language_confidence)] ;;
              print (SdhConfidence sdh_confidence))) ;;
        new_language <- resolve_language file summary verbose a new_lang_code new_lang_name ;;
        special_subs <- sdh_hysteresis verbose a sdh_confidence special_subs ;;
        new_filename <- get_new_filename file new_language file_language special_subs
                                         forced_subs verbose ;;
        keep_only_stage file summary dry_run verbose a new_language new_lang_name
                        new_language_confidence new_filename
  end.

End WithServices.

(** ** Sample services

    A five-language excerpt of the ISO-639 table and a classifier with a
    fixed answer, for the concrete runs below. *)

Module Sample.

Definition table : list (string * string * string) :=
  [("en", "eng", "English"); ("fr", "fre", "French"); ("it", "ita", "Italian");
   ("es", "spa", "Spanish"); ("de", "ger", "German")].

Definition find (key : string) : option (string * string * string) :=
  List.find (fun '(a, b, n) => (a =? key) || (b =? key) || (n =? key)) table.

#[export] Instance iso639 : Iso639 := {|
  is_valid639_1 := fun s => existsb (fun '(a, _, _) => a =? s) table;
  is_valid639_2 := fun s => existsb (fun '(_, b, _) => b =? s) table;
  to_iso639_1 := fun key => option_map (fun '(a, _, _) => a) (find key);
  to_iso639_2 := fun key => option_map (fun '(_, b, _) => b) (find key);
  to_name := fun key => option_map (fun '(_, _, n) => n) (find key)
|}.

(** A classifier that answers [(code, probability)] whatever the text. *)
Definition langid (code : string) (probability : float) : LangId :=
  {| classify := fun _ => (code, probability) |}.

(** The defaults of [parse_args]: a dry run, nothing to keep only. *)
Definition default_args : args := {|
  dry_run := true;
  keep_only := [];
  require_lang_confidence := 50;
  min_sdh_confidence := 5;
  max_sdh_confidence := 85;
  reject_sdh_confidence := 1;
  two_letter := false;
  three_letter := false;
  summary := false;
  quiet := false;
  verbose := false
|}.

Definition empty_world (files : list string) : world :=
  {| disk := files; stdout := []; syscalls := [] |}.

(** [--rename-files --keep-only en] *)
Definition keep_english : args := {|
  dry_run := false;
  keep_only := ["en"];
  require_lang_confidence := 50;
  min_sdh_confidence := 5;
  max_sdh_confidence := 85;
  reject_sdh_confidence := 1;
  two_letter := false;
  three_letter := false;
  summary := false;
  quiet := false;
  verbose := false
|}.


(** [--rename-files] *)
Definition rename_files : args := {|
  dry_run := false;
  keep_only := [];
  require_lang_confidence := 50;
  min_sdh_confidence := 5;
  max_sdh_confidence := 85;
  reject_sdh_confidence := 1;
  two_letter := false;
  three_letter := false;
  summary := false;
  quiet := false;
  verbose := false
|}.

End Sample.

(* ===================================================================== *)
(** * Vocabulary of the statements *)
(* ===================================================================== *)

(** Each part followed by a dot: the text a list of parts contributes to
    a dotted name that goes on after it. *)
Fixpoint dotted (l : list string) : string :=
  match l with
  | [] => ""
  | x :: l' => x ++ "." ++ dotted l'
  end.

(** The part begins with a decimal digit. *)
Definition starts_with_digit (s : string) : bool :=
  match s with
  | String c _ => Py.is_digit c
  | EmptyString => false
  end.

(** One or two decimal digits, possibly followed by a single line feed. *)
Definition short_number (s : string) : bool :=
  match s with
  | String a r =>
      Py.is_digit a &&
      match r with
      | EmptyString => true
      | String b EmptyString => Py.is_digit b || Ascii.eqb b Py.LF
      | String b (String c EmptyString) => Py.is_digit b && Ascii.eqb c Py.LF
      | String _ (String _ (String _ _)) => false
      end
  | EmptyString => false
  end.

(** [close] occurs in [s] before any line feed. *)
Fixpoint first_line_has (close : ascii) (s : string) : bool :=
  match s with
  | EmptyString => false
  | String c r =>
      if Ascii.eqb c Py.LF then false
      else Ascii.eqb c close || first_line_has close r
  end.

(** The line opens with a bracket that is closed later on the line:
    [[...]], [<...>] or [(...)]. *)
Definition bracketed (line : string) : bool :=
  match line with
  | String c r =>
      if Ascii.eqb c "[" then first_line_has "]" r
      else if Ascii.eqb c "<" then first_line_has ">" r
      else if Ascii.eqb c "(" then first_line_has ")" r
      else false
  | EmptyString => false
  end.

(** The part is one of the four keywords of a file name, in any case. *)
Definition keyword (part : string) : bool :=
  (Py.lower part =? "srt") || (Py.lower part =? "forced")
  || (Py.lower part =? "cc") || (Py.lower part =? "sdh").

(** The part is taken for a language code: two or three characters that
    are not a keyword. *)
Definition lang_shaped (part : string) : bool :=
  negb (keyword part) && ((Py.len part =? 2)%nat || (Py.len part =? 3)%nat).

(** The scan of [get_filename_language] goes past the part. *)
Definition recognized (part : string) : bool :=
  keyword part || (Py.len part =? 2)%nat || (Py.len part =? 3)%nat
  || starts_with_digit part.

(** The state after a part, a part the scan breaks at leaving it as it is. *)
Definition scan_step (st : scan_state) (part : string) : scan_state :=
  match scan_part st part with
  | Some st' => st'
  | None => st
  end.

(** What is left of the reversed parts once the leading removable ones are
    gone. *)
Fixpoint skip_removable (language : Py.value) (file_language : string)
  (parts : list string) : list string :=
  match parts with
  | [] => []
  | part :: more =>
      if removable language file_language part
      then skip_removable language file_language more
      else parts
  end.

(** The ordinal of a proposed name: none at 0, then [1], [2], ... *)
Definition ordinal_token (i : nat) : list string :=
  if (1 <=? i)%nat then [Py.str i] else [].

(** The parts a proposed name ends with. *)
Definition suffix_tokens (language special : string) (forced : bool) : list string :=
  ([language] ++ (if Py.truthy (Py.VStr special) then [special] else [])
   ++ (if forced then ["forced"] else []) ++ ["srt"])%list.

(** The name proposed at ordinal [i] for a language that is a string. *)
Definition proposal (directory : string) (title : list string) (i : nat)
  (language special : string) (forced : bool) : string :=
  OsPath.join directory
    (Py.join "." (title ++ ordinal_token i ++ suffix_tokens language special forced)%list).

(** The probing loop stops at a proposed name: it is the path of the file
    itself, or no such path exists. *)
Definition stops (d : list string) (full_path new_filename : string) : bool :=
  (full_path =? new_filename) || negb (on_disk d new_filename).

(** The number of occurrences of a character. *)
Fixpoint count_char (c : ascii) (s : string) : nat :=
  match s with
  | EmptyString => 0
  | String c' s' => (if Ascii.eqb c' c then 1 else 0) + count_char c s'
  end.

(** The lines [percent_sdh] counts. *)
Definition counted_lines (input_text : string) : list string :=
  Py.split Py.LF (remove_empty_lines input_text).

(** The special marker lines 132-135 leave. *)
Definition marked (verbose : bool) (a : args) (sdh_confidence : float)
  (special_subs : string) : string :=
  if Py.float_ge sdh_confidence (min_sdh_confidence a)
     && Py.float_le sdh_confidence (max_sdh_confidence a)
     && negb (special_subs =? "sdh")
     && verbose
  then "sdh" else special_subs.

(** The special marker lines 137-140 leave. *)
Definition unmarked (verbose : bool) (a : args) (sdh_confidence : float)
  (special_subs : string) : string :=
  if Py.float_le sdh_confidence (reject_sdh_confidence a)
     && (special_subs =? "sdh")
     && verbose
  then "" else special_subs.

(** The special marker the specification asks for: set inside
    [[min, max]] when not yet [sdh], else cleared at or below [reject]
    when [sdh], else as parsed. *)
Definition hysteresis_spec (a : args) (sdh_confidence : float) (special_subs : string)
  : string :=
  if Py.float_ge sdh_confidence (min_sdh_confidence a)
     && Py.float_le sdh_confidence (max_sdh_confidence a)
     && negb (special_subs =? "sdh")
  then "sdh"
  else if Py.float_le sdh_confidence (reject_sdh_confidence a)
          && (special_subs =? "sdh")
  then ""
  else special_subs.

(** The code lines 94 and 117-130 resolve from the classifier's code. *)
Definition resolved_language {iso : Iso639} (a : args) (new_lang_code : string)
  : Py.outcome Py.value :=
  match to_lang_name new_lang_code with
  | Py.Ok new_lang_name =>
      if Py.value_eqb new_lang_name unknown then
        Py.Ok (if three_letter a then Py.VStr "unk" else Py.VStr "un")
      else if three_letter a then to_3_letter_lang new_lang_code
      else to_2_letter_lang new_lang_code
  | Py.Raise e => Py.Raise e
  | Py.OutOfFuel => Py.OutOfFuel
  end.

(** The text handed to the classifier and to [percent_sdh] (line 86). *)
Definition subtitles_text (subtitles : list string) : string :=
  Py.join (String Py.LF (String Py.LF EmptyString)) subtitles.

(** A run that returns [v] and changes neither the disk nor the calls
    made so far: at most it prints. *)
Definition quiet_run {A} (c : M A) (v : A) : Prop :=
  forall w, exists w',
    c w = (Py.Ok v, w') /\ disk w' = disk w /\ syscalls w' = syscalls w.

(** What was printed before [c] is still there after it. *)
Definition keeps_output {A} (c : M A) : Prop :=
  forall w m, In m (stdout w) -> In m (stdout (snd (c w))).

(** The same arguments with another confidence threshold. *)
Definition with_require (a : args) (r : Z) : args := {|
  dry_run := dry_run a;
  keep_only := keep_only a;
  require_lang_confidence := r;
  min_sdh_confidence := min_sdh_confidence a;
  max_sdh_confidence := max_sdh_confidence a;
  reject_sdh_confidence := reject_sdh_confidence a;
  two_letter := two_letter a;
  three_letter := three_letter a;
  summary := summary a;
  quiet := quiet a;
  verbose := verbose a
|}.


(** The keep-only filter lets the file through. *)
Definition passes_keep_only {iso : Iso639} (a : args) (new_language : Py.value)
  (confidence : Z) : bool :=
  match keep_only a with
  | [] => true
  | _ :: _ =>
      match keep_langs_loop a (keep_only a) [] with
      | Py.Ok keep_langs =>
          Py.value_in new_language keep_langs
          || (confidence <? require_lang_confidence a)%Z
      | _ => false
      end
  end.

(** The part is made of decimal digits, at least one. *)
Definition purely_numeric (part : string) : bool :=
  negb (part =? "") && forallb Py.is_digit (list_ascii_of_string part).

(** The title is empty, or ends with a part the scan of
    [get_filename_language] stops at. *)
Definition title_ends (title : list string) : bool :=
  match rev title with
  | [] => true
  | t :: _ => negb (recognized t)
  end.

(** The scan, going on into the title with the language, the marker and the
    flag it has read to the right of it, ends with the same three: the title
    parts it goes past (if any) set none of them to another value. *)
Definition title_reads_through (title : list string) (lang marker : string)
  (is_forced : bool) : bool :=
  let st := fst (scan_loop {| forced := is_forced; special := marker; sub_lang := lang |}
                           (rev title)) in
  (sub_lang st =? lang) && (special st =? marker) && Bool.eqb (forced st) is_forced.

(** The title is empty, or ends with a part the stripping loop of
    [get_new_filename] stops at, for [lang] as both languages. *)
Definition title_is_kept (title : list string) (lang : string) : bool :=
  match rev title with
  | [] => true
  | t :: _ => negb (removable (Py.VStr lang) lang t)
  end.

(** The white space at the head of [s] holds a line feed. *)
Fixpoint blank_ahead (s : string) : bool :=
  match s with
  | String c r => Py.is_space c && (Ascii.eqb c Py.LF || blank_ahead r)
  | EmptyString => false
  end.

(** No line feed of [s] is followed by white space that holds a line feed:
    [r"\n\s*\n"] matches nowhere in [s]. *)
Fixpoint no_blank_line (s : string) : bool :=
  match s with
  | EmptyString => true
  | String c r => (negb (Ascii.eqb c Py.LF) || negb (blank_ahead r)) && no_blank_line r
  end.

(** What follows the last line feed of the white space at the head of [s],
    when it holds one. *)
Fixpoint after_blank (s : string) : option string :=
  match s with
  | String c r =>
      if Py.is_space c then
        match after_blank r with
        | Some t => Some t
        | None => if Ascii.eqb c Py.LF then Some r else None
        end
      else None
  | EmptyString => None
  end.

(** The line is made of white space only (it may be empty). *)
Definition blank (line : string) : bool :=
  forallb Py.is_space (list_ascii_of_string line).

(** Of the lines that follow the first: the last one, and those before it
    that are not blank. *)
Fixpoint drop_blank (rest : list string) : list string :=
  match rest with
  | [] => []
  | line :: more =>
      match more with
      | [] => [line]
      | _ :: _ => if blank line then drop_blank more else line :: drop_blank more
      end
  end.

(** The lines that are left when runs of blank lines collapse to single
    line breaks: all of them but the blank ones that are neither the first
    nor the last line of the text. *)
Definition kept_lines (lines : list string) : list string :=
  match lines with
  | [] => []
  | first :: rest => first :: drop_blank rest
  end.

(** The text with its runs of blank lines collapsed, as the specification
    describes the first step of [percent_sdh]. *)
Definition collapse_blank_lines (text : string) : string :=
  Py.join (String Py.LF "") (kept_lines (Py.split Py.LF text)).

(** The characters that are not white space. *)
Fixpoint visible (s : string) : string :=
  match s with
  | EmptyString => EmptyString
  | String c r => if Py.is_space c then visible r else String c (visible r)
  end.

(** [c] leaves [f] of the world as it finds it, whatever it returns or
    raises. *)
Definition preserves {A B} (f : world -> B) (c : M A) : Prop :=
  forall w, f (snd (c w)) = f w.

(** What a run can change outside itself: the disk, and the calls made. *)
Definition effects (w : world) : list string * list syscall := (disk w, syscalls w).

(** What a run on [file] started in [w] has done when it ends with [r]:
    nothing; or it returned [True] after one [os.remove] of the file; or it
    returned [True] after one [os.rename] of the file to another path, one
    that did not exist. *)
Definition footprint (file : string) (w : world) (r : Py.outcome bool * world) : Prop :=
  (disk (snd r) = disk w /\ syscalls (snd r) = syscalls w)
  \/ (fst r = Py.Ok true
      /\ syscalls (snd r) = (syscalls w ++ [Remove file])%list
      /\ disk (snd r) = filter (fun p => negb (p =? file)) (disk w))
  \/ (exists new_filename,
        fst r = Py.Ok true
        /\ syscalls (snd r) = (syscalls w ++ [Rename file new_filename])%list
        /\ new_filename <> file
        /\ on_disk (disk w) new_filename = false
        /\ disk (snd r)
           = new_filename
             :: filter (fun p => negb (p =? file) && negb (p =? new_filename)) (disk w)).

(** The part sets the [forced] flag. *)
Definition forced_token (part : string) : bool := Py.lower part =? "forced".

(** The part sets the special marker. *)
Definition marker_token (part : string) : bool :=
  (Py.lower part =? "cc") || (Py.lower part =? "sdh").

(** The first part of [parts] that [test] accepts, lowered; [default] when
    there is none. *)
Definition first_lowered (test : string -> bool) (default : string)
  (parts : list string) : string :=
  match find test parts with
  | Some part => Py.lower part
  | None => default
  end.

(** The title is empty, or its last part is neither of the two codes. *)
Definition title_is_neither (title : list string) (language file_language : string)
  : bool :=
  match rev title with
  | [] => true
  | t :: _ => negb (t =? language) && negb (t =? file_language)
  end.

(** The substitution of [remove_empty_lines] from a position of the text
    on; [bol] tells whether it is the first. *)
Definition removed (bol : bool) (s : string) : string :=
  Re.sub_from Re.blank_lines (String Py.LF "") bol 0 s.

(** What [os.path.join] puts before the name. *)
Definition glue (a : string) : string :=
  if String.eqb a "" || OsPath.endswith_sep a then a else a ++ String OsPath.sep "".

(* ===================================================================== *)
(** * Facts about strings and lists *)
(* ===================================================================== *)

Module StringFacts.

Lemma append_nil_r (s : string) : s ++ "" = s.
Proof. induction s as [|c s IH]; simpl; [reflexivity | now rewrite IH]. Qed.

Lemma append_assoc (a b c : string) : (a ++ b) ++ c = a ++ (b ++ c).
Proof. induction a as [|x a IH]; simpl; [reflexivity | now rewrite IH]. Qed.

Lemma length_append (a b : string) :
  String.length (a ++ b) = String.length a + String.length b.
Proof. induction a as [|x a IH]; simpl; [reflexivity | now rewrite IH]. Qed.

Lemma append_inv_head (a b c : string) : a ++ b = a ++ c -> b = c.
Proof.
  induction a as [|x a IH]; simpl; intros H; [exact H | ].
  injection H as H. now apply IH.
Qed.

Lemma chars_append (a b : string) :
  list_ascii_of_string (a ++ b)
  = (list_ascii_of_string a ++ list_ascii_of_string b)%list.
Proof. induction a as [|x a IH]; simpl; [reflexivity | now rewrite IH]. Qed.

Lemma chars_inj (a b : string) :
  list_ascii_of_string a = list_ascii_of_string b -> a = b.
Proof.
  intros H.
  rewrite <- (string_of_list_ascii_of_string a), <- (string_of_list_ascii_of_string b).
  now rewrite H.
Qed.

Lemma append_inv_tail (a b c : string) : a ++ c = b ++ c -> a = b.
Proof.
  intros H. apply chars_inj.
  apply (f_equal list_ascii_of_string) in H.
  rewrite !chars_append in H.
  now apply app_inv_tail in H.
Qed.

Lemma length_zero (s : string) : String.length s = 0 -> s = "".
Proof. destruct s; simpl; [reflexivity | discriminate]. Qed.

(** ** [split] and [join] *)

Lemma split_nonempty (sep : ascii) (s : string) : Py.split sep s <> [].
Proof.
  destruct s as [|c s]; simpl; [discriminate | ].
  destruct (Ascii.eqb c sep); [discriminate | ].
  destruct (Py.split sep s); discriminate.
Qed.

Lemma join_cons (sep x : string) (l : list string) :
  l <> [] -> Py.join sep (x :: l) = x ++ sep ++ Py.join sep l.
Proof. destruct l; [congruence | reflexivity]. Qed.

(** Joining what was split gives the string back. *)
Lemma join_split (sep : ascii) (s : string) :
  Py.join (String sep "") (Py.split sep s) = s.
Proof.
  induction s as [|c s IH]; [reflexivity | ].
  simpl. destruct (Ascii.eqb_spec c sep) as [->|Hne].
  - rewrite join_cons by apply split_nonempty. simpl. now rewrite IH.
  - pose proof (split_nonempty sep s) as Hn.
    destruct (Py.split sep s) as [|h t]; [congruence | ].
    destruct t as [|h' t].
    + simpl in *. now rewrite IH.
    + unfold Py.join in *. simpl in *. now rewrite IH.
Qed.

(** A join over an append whose right part is not empty. *)
Lemma join_app (l r : list string) :
  r <> [] -> Py.join "." (l ++ r) = dotted l ++ Py.join "." r.
Proof.
  intros Hr. induction l as [|x l IH]; [reflexivity | ].
  change ((x :: l) ++ r)%list with (x :: (l ++ r))%list.
  rewrite join_cons by (destruct l; simpl; [exact Hr | discriminate]).
  rewrite IH. simpl. now rewrite !append_assoc.
Qed.

End StringFacts.

(* ===================================================================== *)
(** * Facts about the patterns *)
(* ===================================================================== *)

Module ReFacts.

(** A repetition followed by a continuation that always succeeds,
    succeeds. *)
Lemma star_total (p : ascii -> bool) (k : string -> option string) (s : string) :
  (forall t, k t <> None) -> Re.star p k s <> None.
Proof.
  intros Hk. induction s as [|c s IH]; simpl; [apply Hk | ].
  destruct (p c); [ | apply Hk].
  destruct (Re.star p k s); [discriminate | apply Hk].
Qed.

(** [re.match(r"\d+", part)] looks at the first character only. *)
Lemma digits_spec (part : string) :
  Re.matches Re.digits part = starts_with_digit part.
Proof.
  unfold Re.matches, Re.match_, Re.digits. simpl.
  destruct part as [|c r]; simpl; [reflexivity | ].
  destruct (Py.is_digit c); [ | reflexivity].
  destruct r as [|c' r']; simpl; [reflexivity | ].
  destruct (Py.is_digit c'); [ | reflexivity].
  pose proof (star_total Py.is_digit (fun rest => Some rest) r') as H.
  destruct (Re.star Py.is_digit (fun rest => Some rest) r'); [reflexivity | ].
  exfalso. apply H; [discriminate | reflexivity].
Qed.

(** [re.match(r"^\d{1,2}$", part)] *)
Lemma one_or_two_digits_spec (part : string) :
  Re.matches Re.one_or_two_digits part = short_number part.
Proof.
  unfold Re.matches, Re.match_, Re.one_or_two_digits. simpl.
  destruct part as [|a r]; simpl; [reflexivity | ].
  destruct (Py.is_digit a); simpl; [ | reflexivity].
  destruct r as [|b r]; simpl; [reflexivity | ].
  destruct (Py.is_digit b) eqn:Hb; simpl.
  - destruct r as [|c r]; simpl; [reflexivity | ].
    destruct r as [|d r]; simpl.
    + destruct (Ascii.eqb c Py.LF); reflexivity.
    + reflexivity.
  - destruct r as [|c r]; simpl.
    + destruct (Ascii.eqb b Py.LF); reflexivity.
    + destruct r; reflexivity.
Qed.

(** [.*] followed by a closing bracket. *)
Lemma not_close (close c : ascii) :
  Ascii.eqb close Py.LF = false -> Ascii.eqb c Py.LF = true ->
  Ascii.eqb c close = false.
Proof.
  intros Hclose Hc. apply Ascii.eqb_eq in Hc. subst c.
  now rewrite Ascii.eqb_sym.
Qed.

Lemma star_dots_then_close (close : ascii) (s : string) :
  Ascii.eqb close Py.LF = false ->
  Re.star Py.is_dot
    (fun s0 => match s0 with
               | String c' s' => if Ascii.eqb c' close then Some s' else None
               | EmptyString => None
               end) s = None
  <-> first_line_has close s = false.
Proof.
  intros Hclose. induction s as [|c t IH]; simpl; [tauto | ].
  unfold Py.is_dot at 1.
  destruct (Ascii.eqb c Py.LF) eqn:Hc; simpl.
  - rewrite (not_close close c Hclose Hc). tauto.
  - destruct (Re.star Py.is_dot _ t) eqn:E.
    + split; [discriminate | ].
      intros H. apply orb_false_elim in H as [_ H]. apply IH in H. discriminate.
    + destruct (Ascii.eqb c close); simpl; [split; discriminate | ].
      split; intros _; [now apply IH | reflexivity].
Qed.

Lemma dots_then_close (close : ascii) (s : string) :
  Ascii.eqb close Py.LF = false ->
  Re.exec (Re.Seq (Re.Star Py.is_dot) (Re.Chr close)) false s (fun _ rest => Some rest)
  = None <-> first_line_has close s = false.
Proof.
  intros Hclose.
  simpl. destruct s as [|c s]; simpl; [tauto | ].
  unfold Py.is_dot at 1.
  destruct (Ascii.eqb c Py.LF) eqn:Hc; simpl.
  - rewrite (not_close close c Hclose Hc). tauto.
  - pose proof (star_dots_then_close close s Hclose) as Hstar.
    destruct (Re.star Py.is_dot _ s) eqn:E.
    + split; [discriminate | ].
      intros H. apply orb_false_elim in H as [_ H]. apply Hstar in H. discriminate.
    + destruct (Ascii.eqb c close); simpl; [split; discriminate | ].
      split; intros _; [now apply Hstar | reflexivity].
Qed.

(** [sdh_regex.match(line)] *)
Lemma sdh_regex_spec (line : string) :
  Re.matches Re.sdh_regex line = bracketed line.
Proof.
  assert (H : forall close s,
             Ascii.eqb close Py.LF = false ->
             match Re.exec (Re.Seq (Re.Star Py.is_dot) (Re.Chr close)) false s
                           (fun _ rest => Some rest) with
             | Some _ => true
             | None => false
             end = first_line_has close s).
  { intros close s Hclose. pose proof (dots_then_close close s Hclose) as [H1 H2].
    destruct (Re.exec _ false s _).
    - destruct (first_line_has close s); [reflexivity | ].
      now specialize (H2 eq_refl).
    - now rewrite H1. }
  unfold Re.matches, Re.match_, Re.sdh_regex, bracketed.
  destruct line as [|c r]; [reflexivity | ].
  cbn [Re.exec].
  destruct (Ascii.eqb c "[") eqn:E1.
  { rewrite <- (H "]"%char r eq_refl). cbn [Re.exec].
    destruct (match r with String _ _ => _ | EmptyString => _ end) eqn:E; [reflexivity | ].
    apply Ascii.eqb_eq in E1. subst c. reflexivity. }
  destruct (Ascii.eqb c "<") eqn:E2.
  { rewrite <- (H ">"%char r eq_refl). cbn [Re.exec].
    destruct (match r with String _ _ => _ | EmptyString => _ end) eqn:E; [reflexivity | ].
    apply Ascii.eqb_eq in E2. subst c. reflexivity. }
  destruct (Ascii.eqb c "(") eqn:E3.
  { rewrite <- (H ")"%char r eq_refl). cbn [Re.exec]. reflexivity. }
  reflexivity.
Qed.

End ReFacts.

(* ===================================================================== *)
(** * Facts about characters *)
(* ===================================================================== *)

Module CharFacts.

Ltac by_cases c := destruct c as [[] [] [] [] [] [] [] []]; vm_compute; congruence.

Lemma lower_char_idem (c : ascii) : Py.lower_char (Py.lower_char c) = Py.lower_char c.
Proof. by_cases c. Qed.

Lemma is_digit_lower_char (c : ascii) : Py.is_digit (Py.lower_char c) = Py.is_digit c.
Proof. by_cases c. Qed.

Lemma digit_is_lower (c : ascii) : Py.is_digit c = true -> Py.lower_char c = c.
Proof. by_cases c. Qed.

Lemma linefeed_is_lower (c : ascii) : Ascii.eqb c Py.LF = true -> Py.lower_char c = c.
Proof. by_cases c. Qed.

Lemma lower_char_is_sep (c a : ascii) :
  a = "/"%char \/ a = "."%char ->
  Ascii.eqb (Py.lower_char c) a = Ascii.eqb c a.
Proof. intros [-> | ->]; by_cases c. Qed.

Lemma digit_is_not_sep (c : ascii) : Py.is_digit c = true -> Ascii.eqb c OsPath.sep = false.
Proof. by_cases c. Qed.

Lemma lower_idem (s : string) : Py.lower (Py.lower s) = Py.lower s.
Proof.
  induction s as [|c s IH]; simpl; [reflexivity | ].
  now rewrite lower_char_idem, IH.
Qed.

Lemma len_lower (s : string) : Py.len (Py.lower s) = Py.len s.
Proof.
  unfold Py.len. induction s as [|c s IH]; simpl; [reflexivity | now rewrite IH].
Qed.

Lemma starts_with_digit_lower (s : string) :
  starts_with_digit (Py.lower s) = starts_with_digit s.
Proof. destruct s as [|c s]; simpl; [reflexivity | apply is_digit_lower_char]. Qed.

(** A short number has no letter to lower. *)
Lemma short_number_is_lower (s : string) : short_number s = true -> Py.lower s = s.
Proof.
  destruct s as [|a [|b [|c [|d r]]]]; simpl; try discriminate;
    intros H; repeat (apply andb_prop in H as [? H]).
  - now rewrite digit_is_lower.
  - rewrite (digit_is_lower a) by assumption.
    apply orb_prop in H as [H | H].
    + now rewrite digit_is_lower.
    + now rewrite linefeed_is_lower.
  - rewrite (digit_is_lower a), (digit_is_lower b), (linefeed_is_lower c) by assumption.
    reflexivity.
  - discriminate.
Qed.

End CharFacts.

(* ===================================================================== *)
(** * Facts about [get_filename_language] *)
(* ===================================================================== *)

Module TokenizerFacts.

Lemma scan_part_break (st : scan_state) (part : string) :
  scan_part st part = None <-> recognized part = false.
Proof.
  unfold scan_part, recognized, keyword.
  rewrite ReFacts.digits_spec.
  destruct (Py.lower part =? "srt"); simpl; [split; discriminate | ].
  destruct (Py.lower part =? "forced"); simpl; [split; discriminate | ].
  destruct (Py.lower part =? "cc"); simpl; [split; discriminate | ].
  destruct (Py.lower part =? "sdh"); simpl; [split; discriminate | ].
  destruct ((Py.len part =? 2)%nat); simpl; [split; discriminate | ].
  destruct ((Py.len part =? 3)%nat); simpl; [split; discriminate | ].
  destruct (starts_with_digit part); split; congruence.
Qed.

Lemma scan_part_continue (st : scan_state) (part : string) :
  recognized part = true -> scan_part st part = Some (scan_step st part).
Proof.
  intros H. unfold scan_step.
  destruct (scan_part st part) eqn:E; [reflexivity | ].
  apply scan_part_break in E. congruence.
Qed.

(** Rule 5: the part is recorded, lowered. *)
Lemma scan_part_lang (st : scan_state) (part : string) :
  lang_shaped part = true ->
  scan_part st part
  = Some {| forced := forced st; special := special st; sub_lang := Py.lower part |}.
Proof.
  unfold lang_shaped, keyword, scan_part. intros H.
  apply andb_prop in H as [H1 H2]. apply negb_true_iff in H1.
  repeat (apply orb_false_elim in H1 as [H1 ?]).
  rewrite H1, H, H0, H3, H2. reflexivity.
Qed.

(** Any other rule leaves the recorded code alone. *)
Lemma scan_step_sub_lang (st : scan_state) (part : string) :
  sub_lang (scan_step st part)
  = if lang_shaped part then Py.lower part else sub_lang st.
Proof.
  destruct (lang_shaped part) eqn:L.
  - unfold scan_step. now rewrite scan_part_lang.
  - unfold scan_step, scan_part, lang_shaped, keyword in *.
    destruct (Py.lower part =? "srt"); [reflexivity | ].
    destruct (Py.lower part =? "forced"); [reflexivity | ].
    destruct (Py.lower part =? "cc"); [reflexivity | ].
    destruct (Py.lower part =? "sdh"); [reflexivity | ].
    simpl in L. rewrite L.
    destruct (Re.matches Re.digits part); reflexivity.
Qed.

(** The loop goes through a run of recognized parts. *)
Lemma scan_loop_app (st : scan_state) (visited rest : list string) :
  Forall (fun p => recognized p = true) visited ->
  scan_loop st (visited ++ rest) = scan_loop (fold_left scan_step visited st) rest.
Proof.
  intros H. revert st. induction H as [|p visited Hp _ IH]; intros st; [reflexivity | ].
  simpl. rewrite (scan_part_continue st p Hp). apply IH.
Qed.

(** The loop stops at the first part no rule applies to. *)
Lemma scan_loop_stop (st : scan_state) (p : string) (rest : list string) :
  recognized p = false -> scan_loop st (p :: rest) = (st, p :: rest).
Proof.
  intros H. simpl. apply (scan_part_break st) in H. now rewrite H.
Qed.

(** What the loop returns: the parts split into those it went past, all
    recognized, and the rest, which is empty or starts with a part no rule
    applies to. *)
Lemma scan_loop_spec (st : scan_state) (parts : list string) :
  exists visited,
    parts = (visited ++ snd (scan_loop st parts))%list
    /\ Forall (fun p => recognized p = true) visited
    /\ fst (scan_loop st parts) = fold_left scan_step visited st
    /\ match snd (scan_loop st parts) with
       | [] => True
       | p :: _ => recognized p = false
       end.
Proof.
  revert st. induction parts as [|p parts IH]; intros st.
  - exists []. simpl. auto.
  - simpl. destruct (scan_part st p) as [st'|] eqn:E.
    + destruct (IH st') as (visited & H1 & H2 & H3 & H4).
      exists (p :: visited). simpl. repeat split.
      * now rewrite <- H1.
      * constructor; [ | exact H2].
        destruct (recognized p) eqn:R; [reflexivity | ].
        apply (scan_part_break st) in R. congruence.
      * unfold scan_step at 2. now rewrite E.
      * exact H4.
    + exists []. simpl. repeat split; auto.
      now apply (scan_part_break st).
Qed.

(** The code recorded at the end is the initial one, or a part the loop
    went past, lowered. *)
Lemma fold_sub_lang (visited : list string) (st : scan_state) :
  sub_lang (fold_left scan_step visited st) = sub_lang st
  \/ exists t, In t visited /\ lang_shaped t = true
               /\ sub_lang (fold_left scan_step visited st) = Py.lower t.
Proof.
  revert st. induction visited as [|p visited IH]; intros st; [now left | ].
  simpl. destruct (IH (scan_step st p)) as [H | (t & Ht & Hs & H)].
  - rewrite H, scan_step_sub_lang.
    destruct (lang_shaped p) eqn:L; [ | now left].
    right. exists p. auto.
  - right. exists t. auto.
Qed.

(** Parts that are not language-shaped leave the recorded code alone. *)
Lemma fold_sub_lang_kept (visited : list string) (st : scan_state) :
  Forall (fun p => lang_shaped p = false) visited ->
  sub_lang (fold_left scan_step visited st) = sub_lang st.
Proof.
  intros H. revert st. induction H as [|p visited Hp _ IH]; intros st; [reflexivity | ].
  simpl. rewrite IH, scan_step_sub_lang, Hp. reflexivity.
Qed.

End TokenizerFacts.

(* ===================================================================== *)
(** * Facts about [get_new_filename] *)
(* ===================================================================== *)

Module BuilderFacts.

Import StringFacts.

(** ** [str] *)

Lemma to_uint_nonnil (i : nat) : Nat.to_uint i <> Decimal.Nil.
Proof.
  rewrite <- (Unsigned.of_to i) at 1. rewrite Unsigned.to_of.
  apply DecimalFacts.unorm_nonnil.
Qed.

Lemma str_inj (i j : nat) : Py.str i = Py.str j -> i = j.
Proof.
  unfold Py.str. intros H. apply Unsigned.to_uint_inj.
  apply (f_equal NilZero.uint_of_string) in H.
  rewrite !NilZero.usu in H by apply to_uint_nonnil.
  now injection H.
Qed.

(** [str(i)] begins with a digit. *)
Lemma str_head (i : nat) :
  exists c r, Py.str i = String c r /\ Py.is_digit c = true.
Proof.
  unfold Py.str, NilZero.string_of_uint.
  destruct (Nat.to_uint i); simpl; eauto.
Qed.

(** ** The stripping loop *)

Lemma list_remove_head (x : string) (l : list string) : Py.list_remove x (x :: l) = Py.Ok l.
Proof. simpl. now rewrite String.eqb_refl. Qed.

(** [filename.remove(part)] always finds [part] at the head, and the loop
    leaves what follows the leading removable parts. *)
Lemma strip_loop_spec (language : Py.value) (file_language : string) (parts : list string) :
  strip_loop language file_language parts parts
  = Py.Ok (skip_removable language file_language parts).
Proof.
  induction parts as [|p parts IH]; [reflexivity | ].
  simpl strip_loop. simpl skip_removable.
  destruct (removable language file_language p); [ | reflexivity].
  rewrite String.eqb_refl. exact IH.
Qed.

Lemma kept_parts_spec (full_path : string) (language : Py.value) (file_language : string) :
  kept_parts full_path language file_language
  = Py.Ok (rev (skip_removable language file_language (reversed_parts full_path))).
Proof. unfold kept_parts. fold (reversed_parts full_path). now rewrite strip_loop_spec. Qed.

(** The loop stops at a part that is not removable, at the latest. *)
Lemma skip_removable_app (language : Py.value) (file_language : string)
  (a : list string) (t : string) (b : list string) :
  removable language file_language t = false ->
  exists a', skip_removable language file_language (a ++ t :: b) = (a' ++ t :: b)%list.
Proof.
  intros Ht. induction a as [|x a IH].
  - exists []. simpl. now rewrite Ht.
  - simpl. destruct (removable language file_language x).
    + exact IH.
    + exists (x :: a). reflexivity.
Qed.

(** It goes through a run of removable parts. *)
Lemma skip_removable_run (language : Py.value) (file_language : string)
  (a b : list string) :
  Forall (fun p => removable language file_language p = true) a ->
  skip_removable language file_language (a ++ b)
  = skip_removable language file_language b.
Proof.
  induction 1 as [|x a Hx _ IH]; [reflexivity | ].
  simpl. now rewrite Hx.
Qed.

(** ** The proposed names *)

Lemma join_values_strs (l : list string) (r : list Py.value) :
  join_values (map Py.VStr l ++ r)
  = match join_values r with
    | Py.Ok r' => Py.Ok (l ++ r')%list
    | Py.Raise e => Py.Raise e
    | Py.OutOfFuel => Py.OutOfFuel
    end.
Proof.
  induction l as [|x l IH]; simpl.
  - destruct (join_values r); reflexivity.
  - rewrite IH. destruct (join_values r); reflexivity.
Qed.

(** With a language that is a string, [join] raises nothing. *)
Lemma assemble_str (directory : string) (title : list string) (i : nat)
  (language special : string) (forced : bool) :
  assemble directory title i (Py.VStr language) special forced
  = Py.Ok (proposal directory title i language special forced).
Proof.
  unfold assemble, proposal, ordinal_token, suffix_tokens.
  destruct (1 <=? i)%nat, (Py.truthy (Py.VStr special)), forced;
    repeat rewrite <- app_assoc; rewrite join_values_strs; reflexivity.
Qed.

(** With [False] for a language, [join] raises [TypeError]. *)
Lemma assemble_false (directory : string) (title : list string) (i : nat)
  (special : string) (forced : bool) :
  assemble directory title i Py.VFalse special forced = Py.Raise Py.TypeError.
Proof.
  unfold assemble.
  destruct (1 <=? i)%nat, (Py.truthy (Py.VStr special)), forced;
    repeat rewrite <- app_assoc; rewrite join_values_strs; reflexivity.
Qed.

(** ** Two ordinals never propose the same name *)

Lemma dotted_ordinal (i : nat) :
  dotted (ordinal_token i) = if (1 <=? i)%nat then Py.str i ++ "." else "".
Proof. unfold ordinal_token. destruct (1 <=? i)%nat; reflexivity. Qed.

Lemma dotted_ordinal_inj (i j : nat) :
  dotted (ordinal_token i) = dotted (ordinal_token j) -> i = j.
Proof.
  rewrite !dotted_ordinal.
  destruct (Nat.leb_spec 1 i) as [Hi|Hi], (Nat.leb_spec 1 j) as [Hj|Hj]; intros E.
  - apply append_inv_tail in E. now apply str_inj.
  - apply (f_equal String.length) in E. rewrite length_append in E. simpl in E. lia.
  - apply (f_equal String.length) in E. rewrite length_append in E. simpl in E. lia.
  - lia.
Qed.

Lemma suffix_tokens_nonempty (language special : string) (forced : bool) :
  suffix_tokens language special forced <> [].
Proof. unfold suffix_tokens. discriminate. Qed.

(** The base name proposed at ordinal [i]. *)
Lemma proposed_name (title : list string) (i : nat) (language special : string)
  (forced : bool) :
  Py.join "." (title ++ ordinal_token i ++ suffix_tokens language special forced)
  = dotted title ++ dotted (ordinal_token i)
    ++ Py.join "." (suffix_tokens language special forced).
Proof.
  rewrite join_app.
  - rewrite join_app by apply suffix_tokens_nonempty. reflexivity.
  - intros H. apply app_eq_nil in H as [_ H]. now apply suffix_tokens_nonempty in H.
Qed.

Lemma proposed_name_inj (title : list string) (i j : nat) (language special : string)
  (forced : bool) :
  Py.join "." (title ++ ordinal_token i ++ suffix_tokens language special forced)
  = Py.join "." (title ++ ordinal_token j ++ suffix_tokens language special forced) ->
  i = j.
Proof.
  rewrite !proposed_name. intros H.
  apply append_inv_head in H. apply append_inv_tail in H.
  now apply dotted_ordinal_inj.
Qed.

Lemma os_path_join_spec (a b : string) :
  OsPath.join a b = if OsPath.startswith_sep b then b else glue a ++ b.
Proof.
  unfold OsPath.join, glue. destruct (OsPath.startswith_sep b); [reflexivity | ].
  destruct (String.eqb a "" || OsPath.endswith_sep a); [reflexivity | ].
  rewrite append_assoc. reflexivity.
Qed.

Lemma os_path_join_inj (a b1 b2 : string) :
  OsPath.startswith_sep b1 = OsPath.startswith_sep b2 ->
  OsPath.join a b1 = OsPath.join a b2 -> b1 = b2.
Proof.
  rewrite !os_path_join_spec. intros ->.
  destruct (OsPath.startswith_sep b2); [auto | apply append_inv_head].
Qed.

Lemma startswith_sep_append (a b : string) :
  a <> "" -> OsPath.startswith_sep (a ++ b) = OsPath.startswith_sep a.
Proof. destruct a; [congruence | reflexivity]. Qed.

Lemma dotted_cons_nonempty (t : string) (l : list string) : dotted (t :: l) <> "".
Proof. simpl. destruct t; discriminate. Qed.

Lemma ordinal_not_sep (i : nat) (rest : string) :
  (1 <= i)%nat -> OsPath.startswith_sep (dotted (ordinal_token i) ++ rest) = false.
Proof.
  intros Hi. rewrite dotted_ordinal.
  destruct (Nat.leb_spec 1 i); [ | lia].
  destruct (str_head i) as (c & r & -> & Hc). simpl.
  now apply CharFacts.digit_is_not_sep.
Qed.

Lemma ordinal_longer (i : nat) :
  (1 <= i)%nat -> (1 <= String.length (dotted (ordinal_token i)))%nat.
Proof.
  intros Hi. rewrite dotted_ordinal. destruct (Nat.leb_spec 1 i); [ | lia].
  rewrite length_append. simpl. lia.
Qed.

(** Without a title, ordinal 0 and a positive ordinal differ in length. *)
Lemma proposal_zero_positive (directory rest : string) (j : nat) :
  (1 <= j)%nat ->
  OsPath.join directory rest
  <> OsPath.join directory (dotted (ordinal_token j) ++ rest).
Proof.
  intros Hj H. rewrite !os_path_join_spec in H.
  rewrite (ordinal_not_sep j) in H by exact Hj.
  apply (f_equal String.length) in H.
  pose proof (ordinal_longer j Hj).
  destruct (OsPath.startswith_sep rest);
    repeat (rewrite ?length_append in H; simpl in H); lia.
Qed.

Lemma proposal_inj (directory : string) (title : list string) (language special : string)
  (forced : bool) (i j : nat) :
  proposal directory title i language special forced
  = proposal directory title j language special forced ->
  i = j.
Proof.
  unfold proposal. intros H.
  destruct title as [|t title].
  - (* no title: the ordinal, if any, opens the name *)
    rewrite !proposed_name in H. cbn [dotted append] in H.
    destruct (Nat.eq_dec i 0) as [-> | Hi], (Nat.eq_dec j 0) as [-> | Hj];
      [reflexivity | | | ].
    + exfalso. change (dotted (ordinal_token 0)) with "" in H. cbn [append] in H.
      revert H. apply proposal_zero_positive. lia.
    + exfalso. change (dotted (ordinal_token 0)) with "" in H. cbn [append] in H.
      symmetry in H. revert H. apply proposal_zero_positive. lia.
    + apply os_path_join_inj in H.
      * apply append_inv_tail in H. now apply dotted_ordinal_inj.
      * rewrite !ordinal_not_sep by lia. reflexivity.
  - apply (proposed_name_inj (t :: title) i j language special forced).
    apply (os_path_join_inj directory); [ | exact H].
    rewrite !proposed_name.
    rewrite !startswith_sep_append by apply dotted_cons_nonempty. reflexivity.
Qed.

(** ** The probing loop *)

Lemma on_disk_In (d : list string) (path : string) :
  on_disk d path = true <-> In path d.
Proof.
  unfold on_disk. rewrite existsb_exists. split.
  - intros (x & Hx & E). apply String.eqb_eq in E. now subst.
  - intros H. exists path. split; [exact H | apply String.eqb_refl].
Qed.

Lemma forallb_false {A} (f : A -> bool) (l : list A) :
  forallb f l = false -> exists x, In x l /\ f x = false.
Proof.
  induction l as [|a l IH]; simpl; [discriminate | ].
  destruct (f a) eqn:E; simpl.
  - intros H. destruct (IH H) as (x & Hx & Hf). eauto.
  - intros _. eauto.
Qed.

Section Probe.

Variables (full_path directory : string) (title : list string).
Variables (language special : string) (forced verbose : bool).

Let cand (i : nat) : string := proposal directory title i language special forced.

(** Given enough rounds to reach an ordinal at which it stops, the loop
    returns the name proposed at the first such ordinal, and leaves the
    disk as it was. *)
Lemma probe_loop_spec (fuel i : nat) (w : world) :
  (exists j, (i <= j < i + fuel)%nat /\ stops (disk w) full_path (cand j) = true) ->
  exists j w',
    probe_loop fuel full_path directory title (Py.VStr language) special forced
               verbose i w = (Py.Ok (cand j), w')
    /\ (i <= j)%nat
    /\ stops (disk w) full_path (cand j) = true
    /\ (forall k, (i <= k < j)%nat -> stops (disk w) full_path (cand k) = false)
    /\ disk w' = disk w /\ syscalls w' = syscalls w.
Proof.
  revert i w. induction fuel as [|fuel IH]; intros i w (j & Hj & Hstop); [lia | ].
  cbn [probe_loop]. unfold bind at 1, lift. rewrite assemble_str. fold (cand i).
  destruct (full_path =? cand i) eqn:Esame.
  { exists i, w. unfold ret, stops. rewrite Esame. repeat split; auto; intros; lia. }
  unfold bind at 1, os_path_exists.
  destruct (on_disk (disk w) (cand i)) eqn:Edisk; cbn [negb].
  - (* taken: the next ordinal *)
    assert (Hi : stops (disk w) full_path (cand i) = false)
      by (unfold stops; now rewrite Esame, Edisk).
    assert (Hne : j <> i) by (intros ->; congruence).
    set (w1 := if verbose
               then {| disk := disk w;
                       stdout := (stdout w ++ [AlreadyExists (OsPath.basename (cand i))])%list;
                       syscalls := syscalls w |}
               else w).
    assert (Hd : disk w1 = disk w) by (unfold w1; destruct verbose; reflexivity).
    assert (Hs : syscalls w1 = syscalls w) by (unfold w1; destruct verbose; reflexivity).
    destruct (IH (S i) w1) as (j' & w' & Hrun & Hle & Hstop' & Hleast & Hd' & Hs').
    { exists j. rewrite Hd. split; [lia | exact Hstop]. }
    exists j', w'. rewrite Hd in *. repeat split.
    + unfold bind, when, print, ret. unfold w1 in Hrun.
      destruct verbose; exact Hrun.
    + lia.
    + exact Hstop'.
    + intros k Hk. destruct (Nat.eq_dec k i) as [-> | Hki]; [exact Hi | ].
      apply Hleast. lia.
    + congruence.
    + congruence.
  - (* free *)
    exists i.
    exists (if verbose
            then {| disk := disk w;
                    stdout := (stdout w ++ [DoesNotExistOnDisk (OsPath.basename (cand i))])%list;
                    syscalls := syscalls w |}
            else w).
    unfold bind, when, print, ret, stops. rewrite Esame, Edisk.
    destruct verbose; repeat split; auto; intros; lia.
Qed.

(** Some ordinal up to the number of paths on disk proposes a name that is
    not on disk: the proposed names are pairwise distinct. *)
Lemma free_ordinal (d : list string) :
  exists j, (j <= List.length d)%nat /\ on_disk d (cand j) = false.
Proof.
  set (l := map cand (seq 0 (S (List.length d)))).
  destruct (forallb (on_disk d) l) eqn:E.
  - exfalso.
    assert (Hincl : incl l d).
    { intros x Hx. apply on_disk_In. rewrite forallb_forall in E. now apply E. }
    assert (Hnodup : NoDup l).
    { apply Finite.Injective_map_NoDup; [ | apply seq_NoDup].
      intros a b. apply proposal_inj. }
    pose proof (NoDup_incl_length Hnodup Hincl) as Hlen.
    unfold l in Hlen. rewrite length_map, length_seq in Hlen. lia.
  - apply forallb_false in E as (x & Hx & Hfree).
    apply in_map_iff in Hx as (j & <- & Hj). apply in_seq in Hj.
    exists j. split; [lia | exact Hfree].
Qed.

End Probe.

(** [get_new_filename] returns, for a language that is a string: the name
    proposed at the first ordinal at which the loop stops. *)
Lemma get_new_filename_spec (full_path language file_language special : string)
  (forced verbose : bool) (w : world) :
  let directory := OsPath.dirname full_path in
  let title := rev (skip_removable (Py.VStr language) file_language
                                   (reversed_parts full_path)) in
  exists i w',
    get_new_filename full_path (Py.VStr language) file_language special forced verbose w
    = (Py.Ok (proposal directory title i language special forced), w')
    /\ stops (disk w) full_path (proposal directory title i language special forced) = true
    /\ (forall k, (k < i)%nat ->
          stops (disk w) full_path (proposal directory title k language special forced)
          = false)
    /\ disk w' = disk w /\ syscalls w' = syscalls w.
Proof.
  intros directory title.
  unfold get_new_filename, bind, lift. rewrite kept_parts_spec. fold title directory.
  destruct (free_ordinal directory title language special forced (disk w))
    as (j & Hj & Hfree).
  destruct (probe_loop_spec full_path directory title language special forced verbose
                            (S (List.length (disk w))) 0 w)
    as (i & w' & Hrun & _ & Hstop & Hleast & Hd & Hs).
  { exists j. split; [lia | ]. unfold stops. rewrite Hfree. apply orb_true_r. }
  exists i, w'. repeat split; auto.
  intros k Hk. apply Hleast. lia.
Qed.

(** One round of the loop. *)
Lemma probe_loop_step (fuel : nat) (full_path directory : string)
  (filename : list string) (language : Py.value) (special : string)
  (forced verbose : bool) (i : nat) (w : world) :
  probe_loop (S fuel) full_path directory filename language special forced verbose i w
  = match assemble directory filename i language special forced with
    | Py.Ok name =>
        if full_path =? name then (Py.Ok name, w)
        else if on_disk (disk w) name then
          bind (when verbose (print (AlreadyExists (OsPath.basename name))))
               (fun _ => probe_loop fuel full_path directory filename language special
                                    forced verbose (S i)) w
        else
          bind (when verbose (print (DoesNotExistOnDisk (OsPath.basename name))))
               (fun _ => ret name) w
    | Py.Raise e => (Py.Raise e, w)
    | Py.OutOfFuel => (Py.OutOfFuel, w)
    end.
Proof.
  cbn [probe_loop]. unfold bind at 1, lift.
  destruct (assemble directory filename i language special forced) as [name | e | ];
    try reflexivity.
  destruct (full_path =? name); [reflexivity | ].
  unfold bind at 1, os_path_exists.
  destruct (on_disk (disk w) name); reflexivity.
Qed.

(** Once the loop has returned, further rounds change nothing: the bound on
    the rounds does not show in the result. *)
Lemma probe_loop_more_fuel (fuel extra : nat) (full_path directory : string)
  (filename : list string) (language : Py.value) (special : string)
  (forced verbose : bool) (i : nat) (w w' : world) (new_filename : string) :
  probe_loop fuel full_path directory filename language special forced verbose i w
  = (Py.Ok new_filename, w') ->
  probe_loop (fuel + extra) full_path directory filename language special forced
             verbose i w
  = (Py.Ok new_filename, w').
Proof.
  revert i w. induction fuel as [|fuel IH]; intros i w; [discriminate | ].
  cbn [Nat.add]. rewrite !probe_loop_step.
  destruct (assemble directory filename i language special forced) as [name | e | ];
    try (intros H; exact H).
  destruct (full_path =? name); [intros H; exact H | ].
  destruct (on_disk (disk w) name); [ | intros H; exact H].
  unfold bind. destruct (when verbose _ w) as [[[] | e | ] w1];
    try (intros H; exact H).
  apply IH.
Qed.

(** With [False] for a language it raises [TypeError] before it probes. *)
Lemma get_new_filename_false (full_path file_language special : string)
  (forced verbose : bool) (w : world) :
  get_new_filename full_path Py.VFalse file_language special forced verbose w
  = (Py.Raise Py.TypeError, w).
Proof.
  unfold get_new_filename, bind, lift. rewrite kept_parts_spec.
  cbn [probe_loop]. unfold bind, lift. now rewrite assemble_false.
Qed.

End BuilderFacts.

(* ===================================================================== *)
(** * Facts about [percent_sdh] *)
(* ===================================================================== *)

Module SdhFacts.

Lemma count_lines_spec (lines : list string) (sdh_count total_count : nat) :
  count_lines lines sdh_count total_count
  = (sdh_count + List.length (filter bracketed lines), total_count + List.length lines).
Proof.
  revert sdh_count total_count.
  induction lines as [|line lines IH]; intros sdh_count total_count; simpl.
  - f_equal; lia.
  - rewrite IH, ReFacts.sdh_regex_spec.
    destruct (bracketed line); simpl; f_equal; lia.
Qed.

Lemma sdh_counts_spec (input_text : string) :
  sdh_counts input_text
  = (List.length (filter bracketed (counted_lines input_text)),
     List.length (counted_lines input_text)).
Proof. unfold sdh_counts. rewrite count_lines_spec. reflexivity. Qed.

(** A split yields one part more than there are separators. *)
Lemma length_split (sep : ascii) (s : string) :
  List.length (Py.split sep s) = S (count_char sep s).
Proof.
  induction s as [|c s IH]; [reflexivity | ].
  simpl. destruct (Ascii.eqb c sep); simpl.
  - now rewrite IH.
  - destruct (Py.split sep s); simpl in *; lia.
Qed.

(** A final separator yields a final empty part. *)
Lemma split_final_sep (sep : ascii) (s : string) :
  Py.split sep (s ++ String sep "") = (Py.split sep s ++ [""])%list.
Proof.
  induction s as [|c s IH]; simpl.
  - now rewrite Ascii.eqb_refl.
  - rewrite IH. destruct (Ascii.eqb c sep); [reflexivity | ].
    pose proof (StringFacts.split_nonempty sep s) as Hn.
    destruct (Py.split sep s); [congruence | reflexivity].
Qed.

Lemma total_count_positive (input_text : string) :
  (1 <= snd (sdh_counts input_text))%nat.
Proof.
  rewrite sdh_counts_spec. unfold counted_lines. cbn [snd].
  rewrite length_split. lia.
Qed.

(** The division is defined: [percent_sdh] raises nothing. *)
Lemma percent_sdh_spec (input_text : string) :
  percent_sdh input_text
  = Py.Ok (Py.round2
             (PrimFloat.div (Py.float_of_Z (Z.of_nat (fst (sdh_counts input_text))))
                            (Py.float_of_Z (Z.of_nat (snd (sdh_counts input_text)))))).
Proof.
  unfold percent_sdh. pose proof (total_count_positive input_text) as H.
  destruct (sdh_counts input_text) as [sdh_count total_count]. cbn [fst snd] in *.
  unfold Py.truediv.
  destruct (Z.eqb_spec (Z.of_nat total_count) 0); [lia | reflexivity].
Qed.

End SdhFacts.

(* ===================================================================== *)
(** * Facts about [lang_detect_srt] *)
(* ===================================================================== *)

Module PipelineFacts.

Lemma quiet_ret {A} (v : A) : quiet_run (ret v) v.
Proof. intros w. exists w. auto. Qed.

Lemma quiet_print (m : message) : quiet_run (print m) tt.
Proof. intros w. eexists. unfold print. split; [reflexivity | auto]. Qed.

Lemma quiet_bind {A B} (c : M A) (k : A -> M B) (v : A) (u : B) :
  quiet_run c v -> quiet_run (k v) u -> quiet_run (bind c k) u.
Proof.
  intros Hc Hk w. destruct (Hc w) as (w1 & E1 & Hd1 & Hs1).
  destruct (Hk w1) as (w2 & E2 & Hd2 & Hs2).
  exists w2. unfold bind. rewrite E1, E2. split; [reflexivity | split; congruence].
Qed.

Lemma quiet_when (b : bool) (c : M unit) : quiet_run c tt -> quiet_run (when b c) tt.
Proof. intros H. destruct b; [exact H | apply quiet_ret]. Qed.

(** ** Nothing printed is taken back *)

Lemma keeps_ret {A} (v : A) : keeps_output (ret v).
Proof. intros w m H. exact H. Qed.

Lemma keeps_lift {A} (o : Py.outcome A) : keeps_output (lift o).
Proof. intros w m H. exact H. Qed.

Lemma keeps_print (m : message) : keeps_output (print m).
Proof. intros w m' H. cbn. apply in_or_app. now left. Qed.

Lemma keeps_exists (path : string) : keeps_output (os_path_exists path).
Proof. intros w m H. exact H. Qed.

Lemma keeps_remove (file : string) : keeps_output (os_remove file).
Proof. intros w m H. exact H. Qed.

Lemma keeps_rename (file new_filename : string) :
  keeps_output (os_rename file new_filename).
Proof. intros w m H. exact H. Qed.

Lemma keeps_bind {A B} (c : M A) (k : A -> M B) :
  keeps_output c -> (forall v, keeps_output (k v)) -> keeps_output (bind c k).
Proof.
  intros Hc Hk w m H. unfold bind. specialize (Hc w m H).
  destruct (c w) as [[v | e | ] w1]; cbn [snd] in *; [ | exact Hc | exact Hc].
  now apply Hk.
Qed.

Lemma keeps_when (b : bool) (c : M unit) : keeps_output c -> keeps_output (when b c).
Proof. intros H. destruct b; [exact H | apply keeps_ret]. Qed.

(** Breaks a run into its steps. *)
Ltac outputs :=
  repeat first
    [ apply keeps_ret
    | apply keeps_lift
    | apply keeps_print
    | apply keeps_exists
    | apply keeps_remove
    | apply keeps_rename
    | apply keeps_when
    | apply keeps_bind; [ | intros ? ]
    | match goal with
      | |- keeps_output (if ?b then _ else _) => destruct b
      | |- keeps_output (match ?x with _ => _ end) => destruct x
      end ].

Lemma probe_loop_keeps (fuel : nat) (full_path directory : string)
  (filename : list string) (language : Py.value) (special : string)
  (forced verbose : bool) (i : nat) :
  keeps_output
    (probe_loop fuel full_path directory filename language special forced verbose i).
Proof.
  revert i. induction fuel as [|fuel IH]; intros i; cbn [probe_loop]; outputs.
  apply IH.
Qed.

Lemma get_new_filename_keeps (full_path : string) (language : Py.value)
  (file_language special : string) (forced verbose : bool) :
  keeps_output (get_new_filename full_path language file_language special forced verbose).
Proof.
  unfold get_new_filename. apply keeps_bind; [apply keeps_lift | intros filename].
  intros w. apply probe_loop_keeps.
Qed.

Section WithServices.

Context {iso : Iso639} {lid : LangId}.

Lemma mark_sdh_quiet (verbose : bool) (a : args) (score : float) (special_subs : string) :
  quiet_run (mark_sdh verbose a score special_subs) (marked verbose a score special_subs).
Proof.
  unfold mark_sdh, marked.
  destruct (Py.float_ge score (min_sdh_confidence a)
            && Py.float_le score (max_sdh_confidence a)
            && negb (special_subs =? "sdh")); cbn [andb].
  - destruct verbose.
    + apply (quiet_bind _ _ tt); [apply quiet_print | apply quiet_ret].
    + apply quiet_ret.
  - apply quiet_ret.
Qed.

Lemma unmark_sdh_quiet (verbose : bool) (a : args) (score : float) (special_subs : string) :
  quiet_run (unmark_sdh verbose a score special_subs)
            (unmarked verbose a score special_subs).
Proof.
  unfold unmark_sdh, unmarked.
  destruct (Py.float_le score (reject_sdh_confidence a) && (special_subs =? "sdh"));
    cbn [andb].
  - destruct verbose.
    + apply (quiet_bind _ _ tt); [apply quiet_print | apply quiet_ret].
    + apply quiet_ret.
  - apply quiet_ret.
Qed.

(** The marker after lines 132-140. *)
Lemma sdh_hysteresis_quiet (verbose : bool) (a : args) (score : float)
  (special_subs : string) :
  quiet_run (sdh_hysteresis verbose a score special_subs)
            (unmarked verbose a score (marked verbose a score special_subs)).
Proof.
  unfold sdh_hysteresis.
  eapply quiet_bind; [apply mark_sdh_quiet | apply unmark_sdh_quiet].
Qed.

(** Without [--verbose] the marker is the one parsed from the name. *)
Lemma hysteresis_not_verbose (a : args) (score : float) (special_subs : string) :
  unmarked false a score (marked false a score special_subs) = special_subs.
Proof. unfold unmarked, marked. now rewrite !andb_false_r. Qed.

(** ** The look-ups *)

Lemma look_up_nonempty (table : string -> option string) (key : string) :
  key <> "" ->
  look_up table key
  = match table key with
    | Some value => Found value
    | None => NonExistentLanguage
    end.
Proof. unfold look_up. intros H. apply String.eqb_neq in H. now rewrite H. Qed.

Lemma to_lang_name_ok (lang : string) :
  lang <> "" -> exists name, to_lang_name lang = Py.Ok name.
Proof.
  intros H. unfold to_lang_name. rewrite look_up_nonempty by exact H.
  destruct (to_name lang); eauto.
Qed.

Lemma to_2_letter_lang_ok (lang : string) :
  lang <> "" -> exists l, to_2_letter_lang lang = Py.Ok l.
Proof.
  intros H. unfold to_2_letter_lang. rewrite look_up_nonempty by exact H.
  destruct (to_iso639_1 lang); eauto.
Qed.

Lemma to_3_letter_lang_ok (lang : string) :
  lang <> "" -> exists l, to_3_letter_lang lang = Py.Ok l.
Proof.
  intros H. unfold to_3_letter_lang. rewrite look_up_nonempty by exact H.
  destruct (to_iso639_2 lang); eauto.
Qed.

(** The language read from a name is never the empty string. *)
Lemma validate_sub_lang_nonempty (sub_lang : string) : validate_sub_lang sub_lang <> "".
Proof.
  unfold validate_sub_lang.
  destruct ((Py.len sub_lang =? 2)%nat || (Py.len sub_lang =? 3)%nat) eqn:E;
    [ | discriminate].
  destruct (negb (is_valid639_1 sub_lang) && negb (is_valid639_2 sub_lang));
    [discriminate | ].
  intros ->. discriminate.
Qed.

(** A code that is not empty resolves; the empty one raises at line 94. *)
Lemma resolved_language_ok (a : args) (new_lang_code : string) :
  new_lang_code <> "" ->
  exists new_lang_name new_language,
    to_lang_name new_lang_code = Py.Ok new_lang_name
    /\ resolved_language a new_lang_code = Py.Ok new_language.
Proof.
  intros H. destruct (to_lang_name_ok _ H) as (name & Hname).
  unfold resolved_language. rewrite Hname. exists name.
  destruct (Py.value_eqb name unknown); [eauto | ].
  destruct (three_letter a).
  - destruct (to_3_letter_lang_ok _ H) as (l & Hl). eauto.
  - destruct (to_2_letter_lang_ok _ H) as (l & Hl). eauto.
Qed.

Lemma resolved_language_empty (a : args) :
  resolved_language a "" = Py.Raise Py.ValueError.
Proof. reflexivity. Qed.

Lemma resolved_language_name (a : args) (new_lang_code : string) (new_language : Py.value) :
  resolved_language a new_lang_code = Py.Ok new_language ->
  new_lang_code <> ""
  /\ exists new_lang_name, to_lang_name new_lang_code = Py.Ok new_lang_name.
Proof.
  intros H.
  assert (Hcode : new_lang_code <> "").
  { intros ->. rewrite resolved_language_empty in H. discriminate. }
  split; [exact Hcode | now apply to_lang_name_ok].
Qed.

Lemma sdh_hysteresis_not_verbose (a : args) (score : float) (special_subs : string)
  (w : world) :
  sdh_hysteresis false a score special_subs w = (Py.Ok special_subs, w).
Proof.
  unfold sdh_hysteresis, mark_sdh, unmark_sdh, bind, ret.
  destruct (_ && negb (special_subs =? "sdh"));
    destruct (_ && (special_subs =? "sdh")); reflexivity.
Qed.

Lemma sdh_hysteresis_keeps (verbose : bool) (a : args) (score : float)
  (special_subs : string) :
  keeps_output (sdh_hysteresis verbose a score special_subs).
Proof. unfold sdh_hysteresis, mark_sdh, unmark_sdh. outputs. Qed.

Lemma resolve_language_keeps (file : string) (summary verbose : bool) (a : args)
  (new_lang_code : string) (new_lang_name : Py.value) :
  keeps_output (resolve_language file summary verbose a new_lang_code new_lang_name).
Proof. unfold resolve_language. outputs. Qed.

Lemma resolve_language_quiet (file : string) (summary verbose : bool) (a : args)
  (new_lang_code : string) (new_lang_name new_language : Py.value) :
  to_lang_name new_lang_code = Py.Ok new_lang_name ->
  resolved_language a new_lang_code = Py.Ok new_language ->
  quiet_run (resolve_language file summary verbose a new_lang_code new_lang_name)
            new_language.
Proof.
  intros Hname. unfold resolve_language, resolved_language. rewrite Hname.
  destruct (Py.value_eqb new_lang_name unknown).
  - intros [= <-].
    apply (quiet_bind _ _ tt); [apply quiet_when, quiet_print | apply quiet_ret].
  - intros ->. apply quiet_ret.
Qed.


Lemma keep_only_stage_keeps (file : string) (summary dry_run verbose : bool) (a : args)
  (new_language new_lang_name : Py.value) (conf : float) (new_filename : string) :
  keeps_output
    (keep_only_stage file summary dry_run verbose a new_language new_lang_name conf
                     new_filename).
Proof. unfold keep_only_stage, rename_stage. outputs. Qed.

(** What the loop of lines 147-155 returns. *)
Lemma keep_langs_loop_eq (a : args) (langs : list string) (keep_langs : list Py.value) :
  keep_langs_loop a langs keep_langs
  = if existsb (fun lang => lang =? "") langs then Py.Raise Py.ValueError
    else Py.Ok (keep_langs
                ++ filter Py.truthy
                     (map (fun lang =>
                             match (if three_letter a then to_iso639_2 (Py.lower lang)
                                    else to_iso639_1 (Py.lower lang)) with
                             | Some l => Py.VStr l
                             | None => Py.VFalse
                             end) langs))%list.
Proof.
  revert keep_langs. induction langs as [|lang langs IH]; intros keep_langs.
  - cbn. now rewrite app_nil_r.
  - cbn [keep_langs_loop existsb map filter].
    destruct (String.eqb_spec lang "") as [-> | Hlang]; cbn [orb].
    + now destruct (three_letter a).
    + assert (Hlow : Py.lower lang <> "") by (destruct lang; [congruence | discriminate]).
      unfold to_3_letter_lang, to_2_letter_lang.
      rewrite !(look_up_nonempty _ _ Hlow).
      destruct (three_letter a).
      * destruct (to_iso639_2 (Py.lower lang)) as [l | ]; rewrite IH;
          destruct (existsb _ langs); try reflexivity;
          destruct (Py.truthy _); now rewrite <- ?app_assoc.
      * destruct (to_iso639_1 (Py.lower lang)) as [l | ]; rewrite IH;
          destruct (existsb _ langs); try reflexivity;
          destruct (Py.truthy _); now rewrite <- ?app_assoc.
Qed.

(** A file with subtitles whose classifier code resolves reaches
    [get_new_filename] with the disk untouched; under [--verbose] the SDH
    confidence printed is the result of [percent_sdh] times 100
    (line 90). *)
Lemma lang_detect_srt_builds (file : string) (summary dry_run quiet verbose : bool)
  (a : args) (subtitles : list string) (new_language : Py.value) (w : world) :
  subtitles <> [] ->
  let text := subtitles_text subtitles in
  let st := fst (scan_loop scan_init (reversed_parts file)) in
  let score :=
    PrimFloat.mul
      (Py.round2 (PrimFloat.div (Py.float_of_Z (Z.of_nat (fst (sdh_counts text))))
                                (Py.float_of_Z (Z.of_nat (snd (sdh_counts text))))))
      100 in
  resolved_language a (fst (classify text)) = Py.Ok new_language ->
  exists new_lang_name w1,
    to_lang_name (fst (classify text)) = Py.Ok new_lang_name
    /\ lang_detect_srt file summary dry_run quiet verbose a (Parsed subtitles) w
       = bind (get_new_filename file new_language (validate_sub_lang (sub_lang st))
                 (unmarked verbose a score (marked verbose a score (special st)))
                 (forced st) verbose)
              (fun new_filename =>
                 keep_only_stage file summary dry_run verbose a new_language
                   new_lang_name (PrimFloat.mul (snd (classify text)) 100)
                   new_filename) w1
    /\ disk w1 = disk w /\ syscalls w1 = syscalls w
    /\ (verbose || dry_run || summary = false -> stdout w1 = stdout w)
    /\ (verbose = true -> In (SdhConfidence score) (stdout w1)).
Proof.
  intros Hsubs text st score Hlang.
  destruct (resolved_language_name _ _ _ Hlang) as (_ & new_lang_name & Hname).
  exists new_lang_name.
  unfold lang_detect_srt. fold (subtitles_text subtitles). fold text.
  assert (E0 : exists w0,
             when (dry_run || verbose) (print (Parsing file)) w = (Py.Ok tt, w0)
             /\ disk w0 = disk w /\ syscalls w0 = syscalls w
             /\ (verbose || dry_run || summary = false -> stdout w0 = stdout w)).
  { destruct dry_run, verbose; cbn [orb when]; unfold print, ret; eexists;
      (split; [reflexivity | ]); cbn [disk syscalls stdout orb]; repeat split; auto;
      discriminate. }
  destruct E0 as (w0 & E0 & Hd0 & Hs0 & Ho0).
  unfold bind at 1. rewrite E0.
  destruct subtitles as [|sub subtitles]; [congruence | ]. cbn [List.length Nat.eqb].
  unfold get_filename_language. cbv zeta. fold st.
  rewrite SdhFacts.percent_sdh_spec. unfold bind at 1. unfold lift at 1. fold score.
  rewrite Hname. unfold bind at 1. unfold lift at 1.
  destruct (to_lang_name_ok _ (validate_sub_lang_nonempty (sub_lang st)))
    as (file_language_long & Hlong).
  rewrite Hlong.
  match goal with
  | |- context [bind (when (verbose || summary) ?c) _] =>
      assert (E1 : exists w1,
                 when (verbose || summary) c w0 = (Py.Ok tt, w1)
                 /\ disk w1 = disk w0 /\ syscalls w1 = syscalls w0
                 /\ (verbose || dry_run || summary = false -> stdout w1 = stdout w0)
                 /\ (verbose = true -> In (SdhConfidence score) (stdout w1)))
  end.
  { destruct verbose, summary; cbn [orb when];
      unfold detect_langs_pretty, bind, lift, print, ret; eexists;
      (split; [reflexivity | ]); cbn [disk syscalls stdout]; repeat split; auto;
      try discriminate.
    all: intros _; apply in_or_app; right; left; reflexivity. }
  destruct E1 as (w1 & E1 & Hd1 & Hs1 & Ho1 & Hp1).
  unfold bind at 1. rewrite E1.
  destruct (resolve_language_quiet file summary verbose a (fst (classify text))
              new_lang_name new_language Hname Hlang w1) as (w2 & E2 & Hd2 & Hs2).
  assert (Ho2 : (verbose || dry_run || summary = false -> stdout w2 = stdout w1)
                /\ forall m, In m (stdout w1) -> In m (stdout w2)).
  { split.
    - revert E2. unfold resolve_language.
      destruct (Py.value_eqb new_lang_name unknown); unfold bind, when, print, ret, lift;
        destruct verbose, summary; cbn [orb]; intros [= _ <-]; cbn [stdout]; auto;
        destruct dry_run; discriminate.
    - intros m Hm.
      pose proof (resolve_language_keeps file summary verbose a (fst (classify text))
                    new_lang_name w1 m Hm) as K.
      now rewrite E2 in K. }
  destruct Ho2 as (Hq2 & Hk2).
  unfold bind at 1. rewrite E2.
  destruct (sdh_hysteresis_quiet verbose a score (special st) w2)
    as (w3 & E3 & Hd3 & Hs3).
  assert (Ho3 : (verbose = false -> stdout w3 = stdout w2)
                /\ forall m, In m (stdout w2) -> In m (stdout w3)).
  { split.
    - intros ->. rewrite sdh_hysteresis_not_verbose in E3. now injection E3 as _ <-.
    - intros m Hm.
      pose proof (sdh_hysteresis_keeps verbose a score (special st) w2 m Hm) as K.
      now rewrite E3 in K. }
  destruct Ho3 as (Hq3 & Hk3).
  unfold bind at 1. rewrite E3.
  exists w3. split; [reflexivity | ]. split; [reflexivity | ].
  split; [congruence | ]. split; [congruence | ]. split.
  - intros H. rewrite Hq3, (Hq2 H), Ho1, Ho0; auto.
    destruct verbose; [discriminate | reflexivity].
  - intros H. auto.
Qed.


End WithServices.

End PipelineFacts.

(* ===================================================================== *)
(** * The SDH marker (lines 132-140) *)
(* ===================================================================== *)

(** C1 (a defect of the code).  With the default thresholds
    (5, 85, 1), an SDH score of 80 and no marker in the file name, the
    specification asks for the marker [sdh]; the code sets it only under
    [--verbose], because the assignment sits inside [if verbose:], and
    leaves the marker empty in every other verbosity. *)
Theorem C1_sdh_marker_needs_verbose :
  hysteresis_spec Sample.default_args 80 "" = "sdh"
  /\ fst (sdh_hysteresis true Sample.default_args 80 "" (Sample.empty_world []))
     = Py.Ok "sdh"
  /\ sdh_hysteresis false Sample.default_args 80 "" (Sample.empty_world [])
     = (Py.Ok "", Sample.empty_world []).
Proof. repeat split; vm_compute; reflexivity. Qed.

(** Without [--verbose] lines 132-140 never change the marker, whatever
    the score and the thresholds. *)
Lemma sdh_marker_kept_unless_verbose (a : args) (score : float) (special_subs : string)
  (w : world) :
  sdh_hysteresis false a score special_subs w = (Py.Ok special_subs, w).
Proof.
  unfold sdh_hysteresis, mark_sdh, unmark_sdh, bind, ret.
  destruct (Py.float_ge score (min_sdh_confidence a)
            && Py.float_le score (max_sdh_confidence a)
            && negb (special_subs =? "sdh")); cbn;
    destruct (Py.float_le score (reject_sdh_confidence a) && (special_subs =? "sdh"));
    reflexivity.
Qed.

(** The two tests are two [if]s, not [if]/[elif]: under [--verbose], a score
    inside [[min, max]] that is also at or below [reject] sets the marker and
    clears it again. *)
Lemma sdh_marker_set_then_cleared :
  let a := {| dry_run := true; keep_only := []; require_lang_confidence := 50;
              min_sdh_confidence := 0; max_sdh_confidence := 85;
              reject_sdh_confidence := 1; two_letter := false; three_letter := false;
              summary := false; quiet := false; verbose := true |} in
  hysteresis_spec a 1 "" = "sdh"
  /\ sdh_hysteresis true a 1 "" (Sample.empty_world [])
     = (Py.Ok "",
        {| disk := []; stdout := [MarkingAsSdh; RemovingSdhFlag]; syscalls := [] |}).
Proof. split; vm_compute; reflexivity. Qed.

(* ===================================================================== *)
(** * [check_valid_percentage] (lines 279-283) *)
(* ===================================================================== *)

(** C2 (a defect of the code).  The range test is inverted: the
    values 0..100 raise [ArgumentTypeError], the values outside are
    returned. *)
Theorem C2_check_valid_percentage_is_inverted :
  check_valid_percentage 0 = Py.Raise (Py.ArgumentTypeError 0)
  /\ check_valid_percentage 50 = Py.Raise (Py.ArgumentTypeError 50)
  /\ check_valid_percentage 100 = Py.Raise (Py.ArgumentTypeError 100)
  /\ check_valid_percentage 150 = Py.Ok 150%Z
  /\ check_valid_percentage (-1) = Py.Ok (-1)%Z.
Proof. repeat split. Qed.

Lemma check_valid_percentage_in_range (value : Z) :
  (0 <= value <= 100)%Z ->
  check_valid_percentage value = Py.Raise (Py.ArgumentTypeError value).
Proof.
  intros H. unfold check_valid_percentage.
  destruct (Z.leb_spec 0 value), (Z.leb_spec value 100); try lia. reflexivity.
Qed.

Lemma check_valid_percentage_out_of_range (value : Z) :
  (value < 0 \/ 100 < value)%Z -> check_valid_percentage value = Py.Ok value.
Proof.
  intros H. unfold check_valid_percentage.
  destruct (Z.leb_spec 0 value), (Z.leb_spec value 100); try lia; reflexivity.
Qed.

(* ===================================================================== *)
(** * The decision (lines 146-201) *)
(* ===================================================================== *)

Section Decision.

Context {iso : Iso639} {lid : LangId}.

(** X5.  The keep-only list, normalized.  An empty code makes the conversion
    raise [ValueError], which the wrappers do not catch: the loop raises it.
    Otherwise the list holds each code lowered and converted to the
    configured length, those the table does not know, or knows with an
    empty code of that length, dropped. *)
Lemma keep_langs_loop_spec (a : args) (langs : list string) (keep_langs : list Py.value) :
  keep_langs_loop a langs keep_langs
  = if existsb (fun lang => lang =? "") langs then Py.Raise Py.ValueError
    else Py.Ok (keep_langs
                ++ filter Py.truthy
                     (map (fun lang =>
                             match (if three_letter a then to_iso639_2 (Py.lower lang)
                                    else to_iso639_1 (Py.lower lang)) with
                             | Some l => Py.VStr l
                             | None => Py.VFalse
                             end) langs))%list.
Proof. apply PipelineFacts.keep_langs_loop_eq. Qed.

(** The threshold plays no part in the normalization. *)
Lemma keep_langs_loop_with_require (a : args) (r : Z) (langs : list string)
  (keep_langs : list Py.value) :
  keep_langs_loop (with_require a r) langs keep_langs = keep_langs_loop a langs keep_langs.
Proof.
  revert keep_langs. induction langs as [|lang langs IH]; intros keep_langs;
    [reflexivity | ].
  cbn [keep_langs_loop three_letter with_require].
  destruct (if three_letter a then _ else _); auto.
Qed.


(** What the rename stage does once the new name differs from the file's
    and the confidence is an integer. *)
Lemma rename_stage_spec (file : string) (summary dry_run verbose : bool) (a : args)
  (new_lang_name : Py.value) (conf : float) (new_filename : string) (confidence : Z)
  (w : world) :
  Py.int_of_float conf = Py.Ok confidence ->
  new_filename <> file ->
  exists msgs,
    rename_stage file summary dry_run verbose a new_lang_name conf new_filename w
    = (Py.Ok true,
       {| disk := if negb dry_run && (require_lang_confidence a <=? confidence)%Z
                     && negb (Py.value_eqb new_lang_name unknown)
                  then new_filename
                       :: filter (fun p => negb (p =? file) && negb (p =? new_filename))
                                 (disk w)
                  else disk w;
          stdout := (stdout w ++ msgs)%list;
          syscalls := if negb dry_run && (require_lang_confidence a <=? confidence)%Z
                         && negb (Py.value_eqb new_lang_name unknown)
                      then (syscalls w ++ [Rename file new_filename])%list
                      else syscalls w |})
    /\ (dry_run = true ->
        (In (WouldRename file new_filename) msgs
         <-> (require_lang_confidence a <= confidence)%Z)).
Proof.
  intros Hint Hne. unfold rename_stage.
  apply String.eqb_neq in Hne. rewrite Hne.
  unfold bind at 1, lift. rewrite Hint.
  destruct (Z.leb_spec (require_lang_confidence a) confidence) as [Hle | Hlt].
  - destruct w as [d out calls].
    destruct dry_run, verbose, summary, (Py.value_eqb new_lang_name unknown); cbn;
      first [ exists []; rewrite app_nil_r; split; [reflexivity | ]
            | eexists; split; [rewrite <- ?app_assoc; reflexivity | ] ];
      intros; try discriminate; split; intros; cbn; auto.
  - exists []. destruct w. cbn. rewrite andb_false_r, app_nil_r. cbn.
    split; [reflexivity | ].
    intros _. split; [intros [] | lia].
Qed.

(** C4, as amended.  A file that passes the keep-only filter and whose new
    name differs from its own.  With [--rename-files], [os.rename] is called
    iff the truncated confidence is at or above the threshold and the
    language name is not ["Unknown"]; an unknown language or a lower
    confidence leave the file as it is.  In a dry run nothing is renamed; for
    a known language the rename is reported iff the confidence is at or
    above the threshold.  A higher threshold never turns a file that was not
    renamed into a renamed one. *)
Theorem C4_rename_gate (file : string) (summary dry_run verbose : bool) (a : args)
  (new_language new_lang_name : Py.value) (conf : float) (new_filename : string)
  (confidence : Z) (w : world) :
  Py.int_of_float conf = Py.Ok confidence ->
  passes_keep_only a new_language confidence = true ->
  new_filename <> file ->
  exists w' msgs,
    keep_only_stage file summary dry_run verbose a new_language new_lang_name conf
                    new_filename w = (Py.Ok true, w')
    /\ stdout w' = (stdout w ++ msgs)%list
    /\ (if dry_run
        then syscalls w' = syscalls w
             /\ (Py.value_eqb new_lang_name unknown = false ->
                 (In (WouldRename file new_filename) msgs
                  <-> (require_lang_confidence a <= confidence)%Z))
        else syscalls w'
             = if (require_lang_confidence a <=? confidence)%Z
                  && negb (Py.value_eqb new_lang_name unknown)
               then (syscalls w ++ [Rename file new_filename])%list
               else syscalls w)
    /\ forall r,
         (require_lang_confidence a <= r)%Z ->
         syscalls (snd (keep_only_stage file summary dry_run verbose (with_require a r)
                          new_language new_lang_name conf new_filename w))
         = (syscalls w ++ [Rename file new_filename])%list ->
         syscalls w' = (syscalls w ++ [Rename file new_filename])%list.
Proof.
  intros Hint Hpass Hne.
  destruct (rename_stage_spec file summary dry_run verbose a new_lang_name conf
              new_filename confidence w Hint Hne) as (msgs & Hrun & Hmsgs).
  assert (Hstage :
    keep_only_stage file summary dry_run verbose a new_language new_lang_name conf
                    new_filename w
    = rename_stage file summary dry_run verbose a new_lang_name conf new_filename w).
  { unfold keep_only_stage, passes_keep_only in *.
    destruct (keep_only a) as [|lang langs]; [reflexivity | ].
    destruct (keep_langs_loop a (lang :: langs) []) as [keep_langs | e | ];
      try discriminate.
    unfold bind at 1. unfold lift at 1.
    destruct (Py.value_in new_language keep_langs); cbn [negb]; [reflexivity | ].
    cbn [orb] in Hpass. apply Z.ltb_lt in Hpass.
    unfold bind at 1, lift. rewrite Hint.
    destruct (Z.leb_spec (require_lang_confidence a) confidence); [lia | reflexivity]. }
  rewrite Hstage, Hrun. eexists. exists msgs.
  split; [reflexivity | ]. cbn [stdout syscalls]. split; [reflexivity | ]. split.
  - destruct dry_run; cbn [negb andb]; [ | reflexivity].
    split; [reflexivity | ]. intros _. now apply Hmsgs.
  - intros r Hr Hrenamed.
    (* the run with the higher threshold *)
    assert (Hlive : dry_run = false
                    /\ (r <= confidence)%Z
                    /\ Py.value_eqb new_lang_name unknown = false).
    { revert Hrenamed. unfold keep_only_stage. cbn [keep_only with_require].
      assert (Hno : forall (l : list syscall) x y, (l ++ [x])%list = (l ++ [y])%list -> x = y).
      { intros l x y E. apply app_inv_head in E. now injection E. }
      assert (Hlen : forall (l : list syscall) x, l <> (l ++ [x])%list).
      { intros l x E. apply (f_equal (@List.length _)) in E.
        rewrite length_app in E. simpl in E. lia. }
      destruct (rename_stage_spec file summary dry_run verbose (with_require a r)
                  new_lang_name conf new_filename confidence w Hint Hne)
        as (msgs' & Hrun' & _).
      cbn [require_lang_confidence with_require] in Hrun'.
      assert (Hren :
        syscalls (snd (rename_stage file summary dry_run verbose (with_require a r)
                         new_lang_name conf new_filename w))
        = (syscalls w ++ [Rename file new_filename])%list ->
        dry_run = false /\ (r <= confidence)%Z
        /\ Py.value_eqb new_lang_name unknown = false).
      { rewrite Hrun'. cbn [snd syscalls].
        destruct dry_run, (Z.leb_spec r confidence),
          (Py.value_eqb new_lang_name unknown); cbn [negb andb]; intros E;
          auto; exfalso; exact (Hlen _ _ E). }
      destruct (keep_only a) as [|lang langs]; [exact Hren | ].
      rewrite keep_langs_loop_with_require.
      destruct (keep_langs_loop a (lang :: langs) []) as [keep_langs | e | ];
        unfold bind at 1; unfold lift at 1;
        [ | cbn [snd]; intros E; exfalso; exact (Hlen _ _ E)
          | cbn [snd]; intros E; exfalso; exact (Hlen _ _ E)].
      destruct (Py.value_in new_language keep_langs); cbn [negb]; [exact Hren | ].
      unfold bind at 1, lift. rewrite Hint.
      cbn [require_lang_confidence with_require].
      destruct (Z.leb_spec r confidence); [ | exact Hren].
      destruct dry_run, verbose, summary; cbn; intros E; exfalso;
        first [ exact (Hlen _ _ E) | apply Hno in E; discriminate ]. }
    destruct Hlive as (-> & Hle & ->). cbn [negb andb].
    destruct (Z.leb_spec (require_lang_confidence a) confidence); [reflexivity | lia].
Qed.

End Decision.



(** In that run the new name is the file's own: the file is deleted although
    its name would not have changed. *)
Example keep_only_deletes_unchanged_name :
  get_new_filename "Show.fr.srt" (Py.VStr "fr") "fr" "" false false
    (Sample.empty_world ["Show.fr.srt"])
  = (Py.Ok "Show.fr.srt", Sample.empty_world ["Show.fr.srt"])
  /\ lang_detect_srt (iso := Sample.iso639) (lid := Sample.langid "fr" (PrimFloat.div 7 10))
       "Show.fr.srt" false false false false Sample.keep_english (Parsed ["Bonjour"])
       (Sample.empty_world ["Show.fr.srt"])
     = (Py.Ok true, {| disk := []; stdout := []; syscalls := [Remove "Show.fr.srt"] |}).
Proof. split; vm_compute; reflexivity. Qed.

(** A French file with [--rename-files]: the conditions of C4 hold. *)
Lemma C4_rename_gate_witness :
  exists w' msgs,
    keep_only_stage (iso := Sample.iso639) "Show.S01E01.srt" false false false
      Sample.rename_files (Py.VStr "fr") (Py.VStr "French") 92 "Show.S01E01.fr.srt"
      (Sample.empty_world ["Show.S01E01.srt"])
    = (Py.Ok true, w')
    /\ stdout w' = msgs
    /\ syscalls w' = [Rename "Show.S01E01.srt" "Show.S01E01.fr.srt"]
    /\ forall r,
         (50 <= r)%Z ->
         syscalls (snd (keep_only_stage (iso := Sample.iso639) "Show.S01E01.srt" false false
                          false (with_require Sample.rename_files r) (Py.VStr "fr")
                          (Py.VStr "French") 92 "Show.S01E01.fr.srt"
                          (Sample.empty_world ["Show.S01E01.srt"])))
         = [Rename "Show.S01E01.srt" "Show.S01E01.fr.srt"] ->
         syscalls w' = [Rename "Show.S01E01.srt" "Show.S01E01.fr.srt"].
Proof.
  apply (C4_rename_gate (iso := Sample.iso639) "Show.S01E01.srt" false false false
           Sample.rename_files (Py.VStr "fr") (Py.VStr "French") 92 "Show.S01E01.fr.srt"
           92 (Sample.empty_world ["Show.S01E01.srt"])).
  - vm_compute. reflexivity.
  - reflexivity.
  - discriminate.
Defined.

(** C4 as stated fails in a dry run, the default.  The file of the first
    run passes the filter, would change its name, has a confidence of 92
    against a threshold of 50 and a known language: it is not renamed, the
    rename is only reported.  In the second run the language name is
    ["Unknown"] and the rename is reported all the same. *)
Lemma C4_dry_run_counterexample :
  lang_detect_srt (iso := Sample.iso639) (lid := Sample.langid "fr" (PrimFloat.div 92 100))
    "Show.S01E01.srt" false true false false Sample.default_args (Parsed ["Bonjour"])
    (Sample.empty_world ["Show.S01E01.srt"])
  = (Py.Ok true,
     {| disk := ["Show.S01E01.srt"];
        stdout := [Parsing "Show.S01E01.srt";
                   WouldRename "Show.S01E01.srt" "Show.S01E01.fr.srt"];
        syscalls := [] |})
  /\ Py.int_of_float (PrimFloat.mul (PrimFloat.div 92 100) 100) = Py.Ok 92%Z
  /\ to_lang_name (iso := Sample.iso639) "fr" = Py.Ok (Py.VStr "French")
  /\ keep_only_stage (iso := Sample.iso639) "Show.S01E01.srt" false true false
       Sample.default_args (Py.VStr "un") unknown 92 "Show.S01E01.un.srt"
       (Sample.empty_world ["Show.S01E01.srt"])
     = (Py.Ok true,
        {| disk := ["Show.S01E01.srt"];
           stdout := [WouldRename "Show.S01E01.srt" "Show.S01E01.un.srt"];
           syscalls := [] |}).
Proof. repeat split; vm_compute; reflexivity. Qed.

(* ===================================================================== *)
(** * [get_new_filename] never proposes the path of another file *)
(* ===================================================================== *)

(** C5.  For a language that is a string, [get_new_filename] returns: the
    loop ends within the rounds it is given, leaves the disk as it is, and
    the name it returns is the one assembled at some ordinal [i] (no ordinal
    part at 0, then [1], [2], ...), which is the path of the file itself or
    a path that does not exist; the names assembled at every lower ordinal
    are paths that exist and are not that of the file. *)
Theorem C5_get_new_filename_is_safe (full_path language file_language special : string)
  (forced verbose : bool) (w : world) :
  exists title i new_filename w',
    kept_parts full_path (Py.VStr language) file_language = Py.Ok title
    /\ get_new_filename full_path (Py.VStr language) file_language special forced verbose w
       = (Py.Ok new_filename, w')
    /\ disk w' = disk w /\ syscalls w' = syscalls w
    /\ (new_filename = full_path \/ on_disk (disk w) new_filename = false)
    /\ assemble (OsPath.dirname full_path) title i (Py.VStr language) special forced
       = Py.Ok new_filename
    /\ new_filename
       = OsPath.join (OsPath.dirname full_path)
           (Py.join "." (title ++ ordinal_token i
                               ++ suffix_tokens language special forced))
    /\ forall k, (k < i)%nat ->
         exists taken,
           assemble (OsPath.dirname full_path) title k (Py.VStr language) special forced
           = Py.Ok taken
           /\ taken <> full_path /\ on_disk (disk w) taken = true.
Proof.
  destruct (BuilderFacts.get_new_filename_spec full_path language file_language special
              forced verbose w) as (i & w' & Hrun & Hstop & Hleast & Hd & Hs).
  eexists. exists i. eexists. exists w'.
  split; [apply BuilderFacts.kept_parts_spec | ].
  split; [exact Hrun | ]. split; [exact Hd | ]. split; [exact Hs | ].
  split.
  { unfold stops in Hstop. apply orb_prop in Hstop as [H | H].
    - left. apply String.eqb_eq in H. now symmetry.
    - right. now apply negb_true_iff in H. }
  split; [apply BuilderFacts.assemble_str | ].
  split; [reflexivity | ].
  intros k Hk. eexists. split; [apply BuilderFacts.assemble_str | ].
  specialize (Hleast k Hk). unfold stops in Hleast.
  apply orb_false_elim in Hleast as [Hsame Hdisk].
  split.
  - apply String.eqb_neq in Hsame. congruence.
  - now apply negb_false_iff in Hdisk.
Qed.

(** The second of two Spanish files of the same title gets ordinal 1. *)
Example second_file_gets_ordinal :
  get_new_filename "/media/movie.srt" (Py.VStr "es") "Unknown" "" false false
    (Sample.empty_world ["/media/movie.srt"; "/media/movie.es.srt"])
  = (Py.Ok "/media/movie.1.es.srt",
     Sample.empty_world ["/media/movie.srt"; "/media/movie.es.srt"]).
Proof. vm_compute. reflexivity. Qed.

(* ===================================================================== *)
(** * The scan of [get_filename_language] (lines 297-323) *)
(* ===================================================================== *)

(** C7 (a defect of the code).  [re.match(r"\d+", part)] is
    anchored at the start only, so a part that merely begins with a digit is
    skipped like a number: the scan goes past ["1080p"], which is not purely
    numeric, and records the ["fr"] on its left. *)
Theorem C7_digit_prefix_is_skipped :
  purely_numeric "1080p" = false
  /\ scan_part scan_init "1080p" = Some scan_init
  /\ title_tokens "Movie.fr.1080p.srt" = ["Movie"]
  /\ get_filename_language (iso := Sample.iso639) "Movie.fr.1080p.srt"
     = ("fr", "", false).
Proof. repeat split; vm_compute; reflexivity. Qed.

(** The rule as the code has it: a part no earlier rule applies to is
    skipped iff it begins with a digit. *)
Lemma numeric_rule (st : scan_state) (part : string) :
  keyword part = false ->
  Py.len part <> 2 -> Py.len part <> 3 ->
  (scan_part st part <> None <-> starts_with_digit part = true).
Proof.
  intros Hk H2 H3.
  pose proof (TokenizerFacts.scan_part_break st part) as Hbreak.
  unfold recognized in Hbreak. rewrite Hk in Hbreak.
  apply Nat.eqb_neq in H2, H3. rewrite H2, H3 in Hbreak. cbn [orb] in Hbreak.
  destruct (starts_with_digit part); split; intros H; try congruence.
  - intros E. apply Hbreak in E. discriminate.
  - exfalso. apply H. now apply Hbreak.
Qed.

(** Where the scan stops: the parts of the name are the title tokens
    followed by the parts the scan went past, each of them recognized by
    some rule; the last title token, if any, is recognized by none. *)
Lemma title_tokens_spec (full_path : string) :
  exists visited,
    Py.split "." (OsPath.basename full_path) = (title_tokens full_path ++ visited)%list
    /\ Forall (fun p => recognized p = true) visited
    /\ title_ends (title_tokens full_path) = true
    /\ fst (scan_loop scan_init (reversed_parts full_path))
       = fold_left scan_step (rev visited) scan_init.
Proof.
  destruct (TokenizerFacts.scan_loop_spec scan_init (reversed_parts full_path))
    as (visited & Hparts & Hvisited & Hst & Hrest).
  exists (rev visited). unfold title_tokens, title_ends.
  rewrite !rev_involutive. repeat split.
  - rewrite <- rev_app_distr, <- Hparts. unfold reversed_parts.
    now rewrite rev_involutive.
  - now apply Forall_rev.
  - destruct (snd (scan_loop scan_init (reversed_parts full_path)));
      [reflexivity | now rewrite Hrest].
  - exact Hst.
Qed.

Section ParsedLanguage.

Context {iso : Iso639}.

Lemma lang_shaped_len (part : string) :
  lang_shaped part = true -> Py.len part = 2 \/ Py.len part = 3.
Proof.
  unfold lang_shaped. intros H. apply andb_prop in H as [_ H].
  apply orb_prop in H as [H | H]; apply Nat.eqb_eq in H; auto.
Qed.

(** C8.  The language [get_filename_language] returns is ["Unknown"], or
    the lowered form of a part of two or three characters that
    [is_valid639_1] or [is_valid639_2] accepts.  A recorded code that both
    reject yields ["Unknown"].  The recorded part is one the scan went past:
    the title tokens are fixed by the scan alone and do not hold it. *)
Theorem C8_language_is_unknown_or_valid (full_path : string) :
  let st := fst (scan_loop scan_init (reversed_parts full_path)) in
  let lang := fst (fst (get_filename_language full_path)) in
  (lang = "Unknown"
   \/ ((Py.len lang = 2 \/ Py.len lang = 3)
       /\ (is_valid639_1 lang = true \/ is_valid639_2 lang = true)
       /\ exists part,
            In part (Py.split "." (OsPath.basename full_path))
            /\ lang_shaped part = true /\ lang = Py.lower part))
  /\ ((Py.len (sub_lang st) = 2 \/ Py.len (sub_lang st) = 3) ->
      is_valid639_1 (sub_lang st) = false ->
      is_valid639_2 (sub_lang st) = false ->
      lang = "Unknown")
  /\ exists visited,
       Py.split "." (OsPath.basename full_path)
       = (title_tokens full_path ++ visited)%list
       /\ Forall (fun p => recognized p = true) visited
       /\ (sub_lang st = "Unknown"
           \/ exists part, In part visited /\ sub_lang st = Py.lower part).
Proof.
  intros st lang.
  destruct (title_tokens_spec full_path) as (visited & Hsplit & Hvisited & _ & Hst).
  fold st in Hst.
  pose proof (TokenizerFacts.fold_sub_lang (rev visited) scan_init) as Hsub.
  rewrite <- Hst in Hsub. cbn [sub_lang scan_init] in Hsub.
  assert (Hlang : lang = validate_sub_lang (sub_lang st)) by reflexivity.
  repeat split.
  - destruct Hsub as [Hu | (t & Ht & Hshape & Hu)].
    + left. rewrite Hlang, Hu. reflexivity.
    + assert (Hin : In t (Py.split "." (OsPath.basename full_path))).
      { rewrite Hsplit. apply in_or_app. right. now apply in_rev. }
      pose proof (lang_shaped_len t Hshape) as Hlen.
      rewrite <- (CharFacts.len_lower t) in Hlen.
      rewrite Hlang, Hu. unfold validate_sub_lang.
      replace ((Py.len (Py.lower t) =? 2)%nat || (Py.len (Py.lower t) =? 3)%nat)
        with true by (destruct Hlen as [-> | ->]; reflexivity).
      destruct (is_valid639_1 (Py.lower t)) eqn:V1, (is_valid639_2 (Py.lower t)) eqn:V2;
        cbn [negb andb]; [right | right | right | now left];
        (split; [exact Hlen | ]); (split; [rewrite ?V1, ?V2; auto | ]);
        exists t; auto.
  - intros Hlen V1 V2. rewrite Hlang. unfold validate_sub_lang. rewrite V1, V2.
    destruct ((Py.len (sub_lang st) =? 2)%nat || (Py.len (sub_lang st) =? 3)%nat);
      reflexivity.
  - exists visited. split; [exact Hsplit | ]. split; [exact Hvisited | ].
    destruct Hsub as [Hu | (t & Ht & _ & Hu)]; [now left | ].
    right. exists t. split; [now apply in_rev | exact Hu].
Qed.

End ParsedLanguage.

(** A part of two characters that is no language code: the scan goes past
    it, the language is unknown, the title stops before it. *)
Example invalid_code_is_not_title :
  get_filename_language (iso := Sample.iso639) "Movie.xx.srt" = ("Unknown", "", false)
  /\ title_tokens "Movie.xx.srt" = ["Movie"].
Proof. split; vm_compute; reflexivity. Qed.

(* ===================================================================== *)
(** * From a canonical name to its attributes and back *)
(* ===================================================================== *)

Module RoundTripFacts.

Lemma scan_loop_cons (st st' : scan_state) (p : string) (rest : list string) :
  scan_part st p = Some st' -> scan_loop st (p :: rest) = scan_loop st' rest.
Proof. intros H. cbn [scan_loop]. now rewrite H. Qed.

(** An ordinal of one digit is a number to the scan and to the stripping
    loop. *)
Lemma scan_ordinal (st : scan_state) (k : nat) (rest : list string) :
  (k <= 9)%nat ->
  scan_loop st (rev (ordinal_token k) ++ rest) = scan_loop st rest.
Proof.
  intros Hk.
  do 10 (destruct k as [|k]; [try reflexivity; apply scan_loop_cons; reflexivity | ]).
  lia.
Qed.

Lemma strip_ordinal (language : Py.value) (file_language : string) (k : nat) :
  (k <= 9)%nat ->
  Forall (fun p => removable language file_language p = true) (rev (ordinal_token k)).
Proof.
  intros Hk.
  do 10 (destruct k as [|k]; [repeat constructor | ]).
  lia.
Qed.

(** The scan stops where the title ends. *)
Lemma scan_title (st : scan_state) (title : list string) :
  title_ends title = true -> scan_loop st (rev title) = (st, rev title).
Proof.
  unfold title_ends. destruct (rev title) as [|t r]; [reflexivity | ].
  intros H. apply negb_true_iff in H. now apply TokenizerFacts.scan_loop_stop.
Qed.

(** The scan of the parts a canonical name ends with. *)
Lemma scan_suffix (lang marker : string) (is_forced : bool) (rest : list string) :
  lang_shaped lang = true ->
  marker = "" \/ marker = "sdh" \/ marker = "cc" ->
  scan_loop scan_init (rev (suffix_tokens lang marker is_forced) ++ rest)
  = scan_loop {| forced := is_forced; special := marker; sub_lang := Py.lower lang |}
              rest.
Proof.
  intros Hshape [-> | [-> | ->]]; destruct is_forced;
    cbv [suffix_tokens Py.truthy String.eqb Ascii.eqb Bool.eqb negb app rev];
    repeat (erewrite scan_loop_cons by reflexivity);
    erewrite scan_loop_cons by (apply TokenizerFacts.scan_part_lang; exact Hshape);
    reflexivity.
Qed.

Lemma language_is_removable (lang : string) :
  removable (Py.VStr lang) lang lang = true.
Proof.
  unfold removable. rewrite String.eqb_refl.
  repeat match goal with |- context [if ?b then _ else _] => destruct b end;
    reflexivity.
Qed.

Lemma strip_suffix (lang special : string) (forced : bool) :
  special = "" \/ special = "sdh" \/ special = "cc" ->
  Forall (fun p => removable (Py.VStr lang) lang p = true)
         (rev (suffix_tokens lang special forced)).
Proof.
  intros [-> | [-> | ->]]; destruct forced;
    cbv [suffix_tokens Py.truthy String.eqb Ascii.eqb Bool.eqb negb app rev];
    repeat (constructor; [first [reflexivity | apply language_is_removable] | ]);
    constructor.
Qed.

(** A part the scan stops at is not removable either. *)
Lemma title_end_is_kept (lang t : string) :
  lang_shaped lang = true ->
  recognized t = false ->
  removable (Py.VStr lang) lang t = false.
Proof.
  intros Hshape Hrec. unfold recognized, keyword in Hrec.
  apply orb_false_elim in Hrec as [Hrec Hdigit].
  apply orb_false_elim in Hrec as [Hrec H3].
  apply orb_false_elim in Hrec as [Hk H2].
  apply orb_false_elim in Hk as [Hk Hsdh].
  apply orb_false_elim in Hk as [Hk Hcc].
  apply orb_false_elim in Hk as [Hsrt Hforced].
  unfold removable. rewrite Hsrt, Hforced, Hsdh, Hcc.
  rewrite ReFacts.one_or_two_digits_spec.
  assert (Hn : short_number t = false).
  { destruct t as [|c r]; [reflexivity | ]. cbn in Hdigit |- *. now rewrite Hdigit. }
  rewrite Hn. cbn [Py.value_eqb].
  destruct (String.eqb_spec t lang) as [E | _]; [ | reflexivity].
  subst t. apply Nat.eqb_neq in H2, H3.
  destruct (lang_shaped_len lang Hshape); congruence.
Qed.

Lemma strip_title (lang : string) (title : list string) :
  lang_shaped lang = true ->
  title_ends title = true ->
  skip_removable (Py.VStr lang) lang (rev title) = rev title.
Proof.
  unfold title_ends. intros Hshape H. destruct (rev title) as [|t r]; [reflexivity | ].
  apply negb_true_iff in H. cbn [skip_removable].
  now rewrite (title_end_is_kept lang t Hshape H).
Qed.

End RoundTripFacts.

Section RoundTrip.

Context {iso : Iso639}.

(** C6, as amended.  A name of the form title[.ordinal].lang[.special]
    [.forced].srt in which: the scan of [get_filename_language], going on
    from the language into the title, changes none of the three attributes
    (it stops at the last title part, or the parts it goes past are numbers
    and the like: a year, a resolution); the last title part is not one the
    stripping loop removes (a keyword, one or two digits, the language
    itself); the ordinal is a single digit and every lower ordinal is taken
    on disk; the language is a valid code in lower case; the special marker
    is [sdh] or [cc].  [get_filename_language] returns its attributes, and
    [get_new_filename] with them and the parsed language returns the path
    itself. *)
Theorem C6_round_trip (full_path : string) (title : list string) (k : nat)
  (lang special : string) (forced verbose : bool) (w : world) :
  Py.split "." (OsPath.basename full_path)
  = (title ++ ordinal_token k ++ suffix_tokens lang special forced)%list ->
  OsPath.join (OsPath.dirname full_path) (OsPath.basename full_path) = full_path ->
  title_reads_through title lang special forced = true ->
  title_is_kept title lang = true ->
  (k <= 9)%nat ->
  (forall j, (j < k)%nat ->
     on_disk (disk w)
             (proposal (OsPath.dirname full_path) title j lang special forced) = true) ->
  lang_shaped lang = true ->
  Py.lower lang = lang ->
  is_valid639_1 lang || is_valid639_2 lang = true ->
  special = "" \/ special = "sdh" \/ special = "cc" ->
  get_filename_language full_path = (lang, special, forced)
  /\ exists w',
       get_new_filename full_path (Py.VStr lang) lang special forced verbose w
       = (Py.Ok full_path, w')
       /\ disk w' = disk w /\ syscalls w' = syscalls w.
Proof.
  intros Hsplit Hjoin Hthrough Hkept Hk Htaken Hshape Hlow Hvalid Hspecial.
  assert (Hparts : reversed_parts full_path
                   = (rev (suffix_tokens lang special forced)
                      ++ rev (ordinal_token k) ++ rev title)%list).
  { unfold reversed_parts. now rewrite Hsplit, !rev_app_distr, app_assoc. }
  split.
  - unfold get_filename_language.
    rewrite Hparts, RoundTripFacts.scan_suffix, RoundTripFacts.scan_ordinal
      by assumption.
    rewrite Hlow. unfold title_reads_through in Hthrough. cbv zeta in Hthrough.
    apply andb_prop in Hthrough as [Hthrough Hf].
    apply andb_prop in Hthrough as [Hl Hs].
    apply String.eqb_eq in Hl, Hs. apply Bool.eqb_prop in Hf.
    rewrite Hl, Hs, Hf.
    unfold validate_sub_lang.
    destruct (lang_shaped_len lang Hshape) as [Hlen | Hlen]; rewrite Hlen;
      cbn [Nat.eqb orb];
      destruct (is_valid639_1 lang), (is_valid639_2 lang); try discriminate; reflexivity.
  - destruct (BuilderFacts.get_new_filename_spec full_path lang lang special forced
                verbose w) as (i & w' & Hrun & Hstop & Hleast & Hd & Hs).
    assert (Hkeep : rev (skip_removable (Py.VStr lang) lang (reversed_parts full_path))
                    = title).
    { rewrite Hparts, BuilderFacts.skip_removable_run
        by now apply RoundTripFacts.strip_suffix.
      rewrite BuilderFacts.skip_removable_run by now apply RoundTripFacts.strip_ordinal.
      unfold title_is_kept in Hkept. rewrite <- (rev_involutive title) at 2.
      destruct (rev title) as [|t rest]; [reflexivity | ].
      apply negb_true_iff in Hkept. cbn [skip_removable]. now rewrite Hkept. }
    rewrite Hkeep in *.
    assert (Hself : proposal (OsPath.dirname full_path) title k lang special forced
                    = full_path).
    { unfold proposal. rewrite <- Hsplit.
      change (Py.join "." ?l) with (Py.join (String "." "") l).
      now rewrite StringFacts.join_split. }
    assert (Hi : i = k).
    { destruct (Nat.lt_trichotomy i k) as [Hlt | [Heq | Hgt]]; [ | exact Heq | ].
      - exfalso. unfold stops in Hstop. rewrite (Htaken i Hlt) in Hstop.
        cbn [negb] in Hstop. rewrite orb_false_r in Hstop.
        apply String.eqb_eq in Hstop. rewrite <- Hself in Hstop at 1.
        apply BuilderFacts.proposal_inj in Hstop. lia.
      - exfalso. specialize (Hleast k Hgt). unfold stops in Hleast.
        rewrite Hself, String.eqb_refl in Hleast. discriminate. }
    subst i. rewrite Hself in Hrun. exists w'. auto.
Qed.

(** The condition on the title holds whenever the title is empty or ends
    with a part no rule of the scan applies to. *)
Lemma title_ends_suffices (title : list string) (lang special : string) (forced : bool) :
  lang_shaped lang = true ->
  title_ends title = true ->
  title_reads_through title lang special forced = true
  /\ title_is_kept title lang = true.
Proof.
  intros Hshape Htitle. split.
  - unfold title_reads_through. rewrite RoundTripFacts.scan_title by exact Htitle.
    cbn. now rewrite !String.eqb_refl, Bool.eqb_reflx.
  - unfold title_is_kept. unfold title_ends in Htitle.
    destruct (rev title) as [|t rest]; [reflexivity | ].
    apply negb_true_iff in Htitle.
    now rewrite (RoundTripFacts.title_end_is_kept lang t Hshape Htitle).
Qed.

End RoundTrip.

(** A second English SDH file of an episode, with the resolution in its
    name: the scan goes past [720p] and stops at [S01E01]. *)
Lemma C6_round_trip_witness :
  get_filename_language (iso := Sample.iso639) "/media/Show.S01E01.720p.1.en.sdh.srt"
  = ("en", "sdh", false)
  /\ exists w',
       get_new_filename "/media/Show.S01E01.720p.1.en.sdh.srt" (Py.VStr "en") "en" "sdh"
         false false
         (Sample.empty_world ["/media/Show.S01E01.720p.en.sdh.srt";
                              "/media/Show.S01E01.720p.1.en.sdh.srt"])
       = (Py.Ok "/media/Show.S01E01.720p.1.en.sdh.srt", w')
       /\ disk w' = ["/media/Show.S01E01.720p.en.sdh.srt";
                     "/media/Show.S01E01.720p.1.en.sdh.srt"]
       /\ syscalls w' = [].
Proof.
  apply (C6_round_trip (iso := Sample.iso639) "/media/Show.S01E01.720p.1.en.sdh.srt"
           ["Show"; "S01E01"; "720p"] 1 "en" "sdh" false false
           (Sample.empty_world ["/media/Show.S01E01.720p.en.sdh.srt";
                                "/media/Show.S01E01.720p.1.en.sdh.srt"])).
  - reflexivity.
  - reflexivity.
  - reflexivity.
  - reflexivity.
  - lia.
  - intros j Hj. assert (j = 0)%nat as -> by lia. reflexivity.
  - reflexivity.
  - reflexivity.
  - reflexivity.
  - right. left. reflexivity.
Defined.

(** Names with a year or a resolution before the language come back. *)
Example year_and_resolution_round_trip :
  get_filename_language (iso := Sample.iso639) "Movie.2019.en.srt" = ("en", "", false)
  /\ fst (get_new_filename "Movie.2019.en.srt" (Py.VStr "en") "en" "" false false
            (Sample.empty_world ["Movie.2019.en.srt"]))
     = Py.Ok "Movie.2019.en.srt"
  /\ get_filename_language (iso := Sample.iso639) "Show.S01E01.720p.en.sdh.srt"
     = ("en", "sdh", false)
  /\ fst (get_new_filename "Show.S01E01.720p.en.sdh.srt" (Py.VStr "en") "en" "sdh" false
            false (Sample.empty_world ["Show.S01E01.720p.en.sdh.srt"]))
     = Py.Ok "Show.S01E01.720p.en.sdh.srt".
Proof. repeat split; vm_compute; reflexivity. Qed.

(** Each condition on the title excludes names that do not come back: a
    title part taken for another language, one that sets the flag, one the
    stripping loop removes. *)
Example title_conditions_are_needed :
  title_reads_through ["Das"; "Boot"] "de" "" false = true
  /\ title_reads_through ["It"] "en" "" false = false
  /\ fst (get_new_filename "It.en.srt" (Py.VStr "it") "it" "" false false
            (Sample.empty_world ["It.en.srt"]))
     = Py.Ok "It.en.it.srt"
  /\ title_reads_through ["Movie"; "Forced"] "en" "" false = false
  /\ get_filename_language (iso := Sample.iso639) "Movie.Forced.en.srt" = ("en", "", true)
  /\ title_is_kept ["Movie"; "12"] "en" = false
  /\ fst (get_new_filename "Movie.12.en.srt" (Py.VStr "en") "en" "" false false
            (Sample.empty_world ["Movie.12.en.srt"]))
     = Py.Ok "Movie.en.srt".
Proof. repeat split; vm_compute; reflexivity. Qed.

(** C6 as stated fails on canonical names.  ["It.en.srt"]: the title is
    taken for the language ([it] is a valid code), and the new name is
    ["It.en.it.srt"].  ["Movie.1.en.srt"] with no ["Movie.en.srt"] on disk:
    the attributes are right, and the new name drops the ordinal. *)
Lemma C6_round_trip_counterexample :
  get_filename_language (iso := Sample.iso639) "It.en.srt" = ("it", "", false)
  /\ get_new_filename "It.en.srt" (Py.VStr "it") "it" "" false false
       (Sample.empty_world ["It.en.srt"])
     = (Py.Ok "It.en.it.srt", Sample.empty_world ["It.en.srt"])
  /\ get_filename_language (iso := Sample.iso639) "Movie.1.en.srt" = ("en", "", false)
  /\ get_new_filename "Movie.1.en.srt" (Py.VStr "en") "en" "" false false
       (Sample.empty_world ["Movie.1.en.srt"])
     = (Py.Ok "Movie.en.srt", Sample.empty_world ["Movie.1.en.srt"]).
Proof. repeat split; vm_compute; reflexivity. Qed.

(* ===================================================================== *)
(** * Case: the scan ignores it, the stripping loop does not *)
(* ===================================================================== *)

Module CaseFacts.

Lemma lower_empty (s : string) : Py.lower s = "" <-> s = "".
Proof. destruct s; simpl; split; congruence. Qed.

Lemma rsplit_lower (p : string) :
  OsPath.rsplit (Py.lower p)
  = (Py.lower (fst (OsPath.rsplit p)), Py.lower (snd (OsPath.rsplit p))).
Proof.
  induction p as [|c p IH]; [reflexivity | ].
  cbn [Py.lower OsPath.rsplit]. rewrite IH.
  destruct (OsPath.rsplit p) as [head tail]. cbn [fst snd].
  destruct head as [|h head]; cbn [Py.lower].
  - unfold OsPath.sep. rewrite CharFacts.lower_char_is_sep by auto.
    destruct (Ascii.eqb c "/") eqn:E; [ | reflexivity].
    apply Ascii.eqb_eq in E. subst c. reflexivity.
  - reflexivity.
Qed.

Lemma basename_lower (p : string) :
  OsPath.basename (Py.lower p) = Py.lower (OsPath.basename p).
Proof. unfold OsPath.basename. now rewrite rsplit_lower. Qed.

Lemma split_lower (s : string) :
  Py.split "." (Py.lower s) = map Py.lower (Py.split "." s).
Proof.
  induction s as [|c s IH]; [reflexivity | ].
  cbn [Py.lower Py.split]. rewrite IH, CharFacts.lower_char_is_sep by auto.
  destruct (Ascii.eqb c "."); [reflexivity | ].
  destruct (Py.split "." s); reflexivity.
Qed.

Lemma reversed_parts_lower (p : string) :
  reversed_parts (Py.lower p) = map Py.lower (reversed_parts p).
Proof.
  unfold reversed_parts. now rewrite basename_lower, split_lower, map_rev.
Qed.

(** Every test of the scan reads the part lowered, its length, or whether
    it begins with a digit. *)
Lemma scan_part_lower (st : scan_state) (part : string) :
  scan_part st (Py.lower part) = scan_part st part.
Proof.
  unfold scan_part.
  rewrite !ReFacts.digits_spec, CharFacts.lower_idem, CharFacts.len_lower,
    CharFacts.starts_with_digit_lower.
  reflexivity.
Qed.

Lemma scan_loop_lower (st : scan_state) (parts : list string) :
  fst (scan_loop st (map Py.lower parts)) = fst (scan_loop st parts).
Proof.
  revert st. induction parts as [|p parts IH]; intros st; [reflexivity | ].
  cbn [map scan_loop]. rewrite scan_part_lower.
  destruct (scan_part st p); [apply IH | reflexivity].
Qed.

End CaseFacts.

Section Case.

Context {iso : Iso639}.

(** The tests of the stripping loop fail on a part taken for a language
    code that has a capital, for a language in lower case. *)
Lemma capital_code_is_kept (language t : string) :
  lang_shaped t = true ->
  Py.lower t <> t ->
  Py.lower language = language ->
  removable (Py.VStr language) (validate_sub_lang (Py.lower t)) t = false.
Proof.
  intros Hshape Hcap Hlow.
  pose proof Hshape as Hk. unfold lang_shaped in Hk.
  apply andb_prop in Hk as [Hk _]. apply negb_true_iff in Hk.
  unfold keyword in Hk.
  apply orb_false_elim in Hk as [Hk Hsdh].
  apply orb_false_elim in Hk as [Hk Hcc].
  apply orb_false_elim in Hk as [Hsrt Hforced].
  unfold removable. rewrite Hsrt, Hforced, Hsdh, Hcc.
  rewrite ReFacts.one_or_two_digits_spec.
  destruct (short_number t) eqn:Hn.
  { apply CharFacts.short_number_is_lower in Hn. congruence. }
  assert (Hfile : (t =? validate_sub_lang (Py.lower t)) = false).
  { apply String.eqb_neq. unfold validate_sub_lang.
    rewrite CharFacts.len_lower.
    destruct (lang_shaped_len t Hshape) as [Hl | Hl]; rewrite Hl; cbn [Nat.eqb orb];
      destruct (negb (is_valid639_1 (Py.lower t)) && negb (is_valid639_2 (Py.lower t)));
      try congruence; intros E; rewrite E in Hl; discriminate. }
  rewrite Hfile. cbn [Py.value_eqb].
  destruct (String.eqb_spec t language) as [E | _]; [ | reflexivity].
  subst t. congruence.
Qed.

(** C10.  [get_filename_language] reads a path as it reads the path in
    lower case.  In a name whose parts are a title the scan stops at, then
    parts it goes past without taking them for a language, then a part [t]
    it takes for the language, then parts it recognizes: when [t] has a
    capital, [get_filename_language] reports [t] lowered as the language if
    that is a valid code, while the stripping loop of [get_new_filename],
    which compares with [==], stops at [t] for a language in lower case:
    the parts it keeps begin with all the parts before [t], then [t]. *)
Theorem C10_capital_language_token (full_path : string) (title mid : list string)
  (t : string) (post : list string) (language : string) :
  Py.split "." (OsPath.basename full_path) = (title ++ mid ++ t :: post)%list ->
  title_ends title = true ->
  Forall (fun p => recognized p = true) mid ->
  Forall (fun p => lang_shaped p = false) mid ->
  lang_shaped t = true ->
  Forall (fun p => recognized p = true) post ->
  Py.lower t <> t ->
  Py.lower language = language ->
  get_filename_language full_path = get_filename_language (Py.lower full_path)
  /\ fst (fst (get_filename_language full_path))
     = (if is_valid639_1 (Py.lower t) || is_valid639_2 (Py.lower t)
        then Py.lower t else "Unknown")
  /\ exists kept,
       kept_parts full_path (Py.VStr language) (fst (fst (get_filename_language full_path)))
       = Py.Ok (title ++ mid ++ t :: kept)%list.
Proof.
  intros Hsplit Htitle Hmid Hmid' Hshape Hpost Hcap Hlow.
  assert (Hparts : reversed_parts full_path
                   = (rev post ++ t :: rev mid ++ rev title)%list).
  { unfold reversed_parts. rewrite Hsplit, !rev_app_distr. cbn [rev].
    now rewrite <- !app_assoc. }
  assert (Hsub : sub_lang (fst (scan_loop scan_init (reversed_parts full_path)))
                 = Py.lower t).
  { rewrite Hparts, TokenizerFacts.scan_loop_app by now apply Forall_rev.
    cbn [scan_loop]. rewrite (TokenizerFacts.scan_part_lang _ t Hshape).
    rewrite TokenizerFacts.scan_loop_app by now apply Forall_rev.
    rewrite RoundTripFacts.scan_title by exact Htitle. cbn [fst].
    now rewrite TokenizerFacts.fold_sub_lang_kept by now apply Forall_rev. }
  assert (Hlang : fst (fst (get_filename_language full_path))
                  = validate_sub_lang (Py.lower t)).
  { unfold get_filename_language. cbn [fst]. now rewrite Hsub. }
  split; [ | split].
  - unfold get_filename_language.
    now rewrite CaseFacts.reversed_parts_lower, CaseFacts.scan_loop_lower.
  - rewrite Hlang. unfold validate_sub_lang. rewrite CharFacts.len_lower.
    destruct (lang_shaped_len t Hshape) as [Hl | Hl]; rewrite Hl; cbn [Nat.eqb orb];
      destruct (is_valid639_1 (Py.lower t)), (is_valid639_2 (Py.lower t)); reflexivity.
  - rewrite Hlang, BuilderFacts.kept_parts_spec, Hparts.
    destruct (BuilderFacts.skip_removable_app (Py.VStr language)
                (validate_sub_lang (Py.lower t)) (rev post) t (rev mid ++ rev title)
                (capital_code_is_kept language t Hshape Hcap Hlow)) as (a' & Ha).
    rewrite Ha. exists (rev a').
    rewrite rev_app_distr. cbn [rev]. rewrite rev_app_distr, !rev_involutive.
    now rewrite <- !app_assoc.
Qed.

End Case.

(** ["The.Movie.1.EN.srt"]: the scan reports [en], the stripping loop keeps
    [EN] and what precedes it. *)
Lemma C10_capital_language_token_witness :
  get_filename_language (iso := Sample.iso639) "The.Movie.1.EN.srt"
  = get_filename_language (iso := Sample.iso639) (Py.lower "The.Movie.1.EN.srt")
  /\ fst (fst (get_filename_language (iso := Sample.iso639) "The.Movie.1.EN.srt")) = "en"
  /\ exists kept,
       kept_parts "The.Movie.1.EN.srt" (Py.VStr "en")
         (fst (fst (get_filename_language (iso := Sample.iso639) "The.Movie.1.EN.srt")))
       = Py.Ok (["The"; "Movie"] ++ ["1"] ++ "EN" :: kept)%list.
Proof.
  apply (C10_capital_language_token (iso := Sample.iso639) "The.Movie.1.EN.srt"
           ["The"; "Movie"] ["1"] "EN" ["srt"] "en").
  - reflexivity.
  - reflexivity.
  - repeat constructor.
  - repeat constructor.
  - reflexivity.
  - repeat constructor.
  - discriminate.
  - reflexivity.
Defined.

Example capital_language_is_doubled :
  get_new_filename "Movie.EN.srt" (Py.VStr "en") "en" "" false false
    (Sample.empty_world ["Movie.EN.srt"])
  = (Py.Ok "Movie.EN.en.srt", Sample.empty_world ["Movie.EN.srt"]).
Proof. vm_compute. reflexivity. Qed.

(* ===================================================================== *)
(** * [percent_sdh] (lines 397-411) *)
(* ===================================================================== *)

Module BlankLineFacts.

Import StringFacts.

Lemma not_space_not_linefeed (c : ascii) :
  Py.is_space c = false -> Ascii.eqb c Py.LF = false.
Proof. CharFacts.by_cases c. Qed.

Lemma star_space_then_linefeed (s : string) :
  Re.star Py.is_space
    (fun t => match t with
              | String x r => if Ascii.eqb x Py.LF then Some r else None
              | EmptyString => None
              end) s
  = after_blank s.
Proof.
  induction s as [|c r IH]; [reflexivity | ].
  cbn [Re.star after_blank]. rewrite IH.
  destruct (Py.is_space c) eqn:Hc; [reflexivity | ].
  now rewrite not_space_not_linefeed.
Qed.

(** Where [r"\n\s*\n"] matches at the head of [s], and what it leaves. *)
Lemma blank_lines_match (bol : bool) (s : string) :
  Re.exec Re.blank_lines bol s (fun _ rest => Some rest)
  = match s with
    | String c r => if Ascii.eqb c Py.LF then after_blank r else None
    | EmptyString => None
    end.
Proof.
  destruct s as [|c r]; [reflexivity | ].
  unfold Re.blank_lines. cbn [Re.exec].
  destruct (Ascii.eqb c Py.LF); [ | reflexivity].
  rewrite <- star_space_then_linefeed.
  destruct r as [|c' r']; reflexivity.
Qed.

(** The match takes white space only, and at least the line feed it ends
    with. *)
Lemma after_blank_prefix (s t : string) :
  after_blank s = Some t ->
  exists pre, s = pre ++ t /\ visible pre = "" /\ (1 <= String.length pre)%nat.
Proof.
  revert t. induction s as [|c r IH]; intros t; cbn [after_blank]; [discriminate | ].
  destruct (Py.is_space c) eqn:Hc; [ | discriminate].
  destruct (after_blank r) as [t' | ] eqn:E.
  - intros H. injection H as <-. destruct (IH t' eq_refl) as (pre & -> & Hv & Hl).
    exists (String c pre). cbn. rewrite Hc. repeat split; auto; lia.
  - destruct (Ascii.eqb c Py.LF); [ | discriminate].
    intros H. injection H as <-. exists (String c ""). cbn. rewrite Hc. auto.
Qed.

Lemma after_blank_none (s : string) : after_blank s = None <-> blank_ahead s = false.
Proof.
  induction s as [|c r IH]; cbn [after_blank blank_ahead]; [tauto | ].
  destruct (Py.is_space c); cbn [andb]; [ | tauto].
  destruct (after_blank r) eqn:E.
  - split; [discriminate | ]. intros H. apply orb_false_elim in H as [_ H].
    apply IH in H. discriminate.
  - destruct (Ascii.eqb c Py.LF); cbn [orb]; [split; discriminate | ].
    split; intros _; [now apply IH | reflexivity].
Qed.

(** After the last line feed of the white space, no further one. *)
Lemma after_blank_done (s t : string) :
  after_blank s = Some t -> blank_ahead t = false.
Proof.
  revert t. induction s as [|c r IH]; intros t; cbn [after_blank]; [discriminate | ].
  destruct (Py.is_space c); [ | discriminate].
  destruct (after_blank r) as [t' | ] eqn:E.
  - intros H. injection H as <-. now apply IH.
  - destruct (Ascii.eqb c Py.LF); [ | discriminate].
    intros H. injection H as <-. now apply after_blank_none.
Qed.

(** Passing over the rest of a match. *)
Lemma sub_from_skip (r : Re.regex) (repl pre t : string) :
  Re.sub_from r repl false (String.length pre) (pre ++ t) = Re.sub_from r repl false 0 t.
Proof.
  induction pre as [|c pre IH]; [reflexivity | ].
  cbn [String.length append]. destruct t as [|c' t']; cbn [Re.sub_from]; exact IH.
Qed.

(** [re.sub(r"\n\s*\n", "\n", s)], one step at a time. *)
Lemma remove_step (bol : bool) (c : ascii) (r : string) :
  Re.sub_from Re.blank_lines (String Py.LF "") bol 0 (String c r)
  = match (if Ascii.eqb c Py.LF then after_blank r else None) with
    | Some t => String Py.LF (Re.sub_from Re.blank_lines (String Py.LF "") false 0 t)
    | None => String c (Re.sub_from Re.blank_lines (String Py.LF "") false 0 r)
    end.
Proof.
  cbn [Re.sub_from]. rewrite blank_lines_match.
  destruct (Ascii.eqb c Py.LF); [ | reflexivity].
  destruct (after_blank r) as [t | ] eqn:E; [ | reflexivity].
  destruct (after_blank_prefix r t E) as (pre & -> & _ & Hl).
  cbn [String.length]. rewrite length_append.
  replace (S (String.length pre + String.length t) - String.length t)
    with (S (String.length pre)) by lia.
  now rewrite sub_from_skip.
Qed.

Lemma visible_append (a b : string) : visible (a ++ b) = visible a ++ visible b.
Proof.
  induction a as [|c a IH]; [reflexivity | ].
  cbn. destruct (Py.is_space c); cbn; now rewrite IH.
Qed.

(** What the substitution leaves: no blank line, and every character that
    is not white space. *)
Lemma remove_spec (n : nat) (s : string) (bol : bool) :
  (String.length s <= n)%nat ->
  let out := Re.sub_from Re.blank_lines (String Py.LF "") bol 0 s in
  no_blank_line out = true
  /\ (blank_ahead s = false -> blank_ahead out = false)
  /\ visible out = visible s.
Proof.
  revert s bol. induction n as [|n IH]; intros s bol Hn.
  - destruct s; [cbn; auto | cbn in Hn; lia].
  - destruct s as [|c r]; [cbn; auto | ].
    cbn zeta. rewrite remove_step. cbn [String.length] in Hn.
    destruct (Ascii.eqb c Py.LF) eqn:Hc.
    + destruct (after_blank r) as [t | ] eqn:E.
      * destruct (after_blank_prefix r t E) as (pre & -> & Hv & Hl).
        rewrite length_append in Hn.
        destruct (IH t false ltac:(lia)) as (H1 & H2 & H3).
        pose proof (after_blank_done _ _ E) as Hdone.
        repeat split.
        -- cbn [no_blank_line]. rewrite (H2 Hdone), H1. now rewrite orb_true_r.
        -- cbn [blank_ahead]. apply Ascii.eqb_eq in Hc. subst c. discriminate.
        -- apply Ascii.eqb_eq in Hc. subst c. cbn [visible].
           change (Py.is_space Py.LF) with true. cbn iota.
           now rewrite H3, visible_append, Hv.
      * destruct (IH r false ltac:(lia)) as (H1 & H2 & H3).
        apply after_blank_none in E.
        repeat split.
        -- cbn [no_blank_line]. rewrite (H2 E), H1. now rewrite orb_true_r.
        -- cbn [blank_ahead]. apply Ascii.eqb_eq in Hc. subst c. discriminate.
        -- cbn [visible]. now rewrite H3.
    + destruct (IH r false ltac:(lia)) as (H1 & H2 & H3).
      repeat split.
      * cbn [no_blank_line]. now rewrite Hc, H1.
      * cbn [blank_ahead]. rewrite Hc. cbn [orb].
        destruct (Py.is_space c); cbn [andb]; [exact H2 | reflexivity].
      * cbn [visible]. now rewrite H3.
Qed.

End BlankLineFacts.

Lemma split_parts_have_no_sep (sep : ascii) (s : string) :
  Forall (fun part => count_char sep part = 0) (Py.split sep s).
Proof.
  induction s as [|c s IH]; cbn [Py.split]; [repeat constructor | ].
  destruct (Ascii.eqb c sep) eqn:E; [constructor; [reflexivity | exact IH] | ].
  destruct (Py.split sep s) as [|h t]; cbn [count_char]; [repeat constructor; cbn; now rewrite E | ].
  inversion IH as [|? ? Hh Ht]; subst.
  constructor; [cbn; now rewrite E, Hh | exact Ht].
Qed.

Module CollapseFacts.

Lemma drop_blank_nonempty (rest : list string) : rest <> [] -> drop_blank rest <> [].
Proof.
  induction rest as [|line more IH]; [congruence | ]. intros _.
  cbn [drop_blank]. destruct more as [|line' more']; [discriminate | ].
  destruct (blank line); [apply IH | ]; discriminate.
Qed.

Lemma drop_blank_cons (line : string) (more : list string) :
  more <> [] ->
  drop_blank (line :: more) = if blank line then drop_blank more else line :: drop_blank more.
Proof. destruct more; [congruence | reflexivity]. Qed.

(** The first line of a text whose leading white space holds no line feed
    is not blank, unless it is the only line. *)
Lemma first_line_not_blank (s h : string) (rest : list string) :
  after_blank s = None -> Py.split Py.LF s = h :: rest -> rest <> [] -> blank h = false.
Proof.
  revert h rest. induction s as [|c s IH]; intros h rest Hnone Hsplit Hrest.
  - cbn in Hsplit. injection Hsplit as <- <-. congruence.
  - cbn [after_blank Py.split] in *. unfold blank.
    destruct (Py.is_space c) eqn:Hc.
    + destruct (after_blank s) as [t | ] eqn:E; [discriminate | ].
      destruct (Ascii.eqb c Py.LF); [discriminate | ].
      pose proof (StringFacts.split_nonempty Py.LF s) as Hn.
      destruct (Py.split Py.LF s) as [|h' rest']; [congruence | ].
      injection Hsplit as <- <-. cbn [list_ascii_of_string forallb]. rewrite Hc.
      apply (IH h' rest' eq_refl eq_refl Hrest).
    + rewrite (BlankLineFacts.not_space_not_linefeed c Hc) in Hsplit.
      pose proof (StringFacts.split_nonempty Py.LF s) as Hn.
      destruct (Py.split Py.LF s) as [|h' rest']; [congruence | ].
      injection Hsplit as <- <-. cbn [list_ascii_of_string forallb]. now rewrite Hc.
Qed.

(** The first line of a text whose leading white space holds a line feed
    is blank, and not the only one. *)
Lemma first_line_blank (s t : string) :
  after_blank s = Some t ->
  exists h rest, Py.split Py.LF s = h :: rest /\ blank h = true /\ rest <> [].
Proof.
  revert t. induction s as [|c s IH]; intros t; cbn [after_blank]; [discriminate | ].
  destruct (Py.is_space c) eqn:Hc; [ | discriminate].
  cbn [Py.split]. destruct (Ascii.eqb c Py.LF) eqn:Elf.
  - intros _. exists "", (Py.split Py.LF s).
    split; [reflexivity | ]. split; [reflexivity | apply StringFacts.split_nonempty].
  - destruct (after_blank s) as [t' | ] eqn:E; [ | discriminate].
    intros _. destruct (IH t' eq_refl) as (h & rest & Hsplit & Hblank & Hrest).
    rewrite Hsplit. exists (String c h), rest.
    split; [reflexivity | ]. split; [ | exact Hrest].
    unfold blank in *. cbn [list_ascii_of_string forallb]. now rewrite Hc, Hblank.
Qed.

Lemma drop_blank_first (s : string) :
  after_blank s = None -> drop_blank (Py.split Py.LF s) = kept_lines (Py.split Py.LF s).
Proof.
  intros Hnone. destruct (Py.split Py.LF s) as [|h rest] eqn:Hsplit; [reflexivity | ].
  cbn [kept_lines]. destruct rest as [|line rest]; [reflexivity | ].
  rewrite drop_blank_cons by discriminate.
  now rewrite (first_line_not_blank s h (line :: rest) Hnone Hsplit) by discriminate.
Qed.

(** The blank lines up to the last line feed of the leading white space
    are dropped. *)
Lemma drop_blank_skip (s t : string) :
  after_blank s = Some t -> drop_blank (Py.split Py.LF s) = kept_lines (Py.split Py.LF t).
Proof.
  revert t. induction s as [|c s IH]; intros t; cbn [after_blank]; [discriminate | ].
  destruct (Py.is_space c) eqn:Hc; [ | discriminate].
  cbn [Py.split]. destruct (after_blank s) as [t' | ] eqn:E.
  - intros [= <-]. specialize (IH t' eq_refl).
    destruct (Ascii.eqb c Py.LF).
    + rewrite drop_blank_cons by apply StringFacts.split_nonempty. exact IH.
    + destruct (first_line_blank s t' E) as (h & rest & Hsplit & Hblank & Hrest).
      rewrite Hsplit in *. rewrite drop_blank_cons by exact Hrest.
      rewrite drop_blank_cons in IH by exact Hrest. rewrite Hblank in IH.
      unfold blank in *. cbn [list_ascii_of_string forallb]. now rewrite Hc, Hblank.
  - destruct (Ascii.eqb c Py.LF); [ | discriminate].
    intros [= <-]. rewrite drop_blank_cons by apply StringFacts.split_nonempty.
    now apply drop_blank_first.
Qed.

Lemma join_first_char (c : ascii) (h : string) (l : list string) :
  Py.join (String Py.LF "") (String c h :: l) = String c (Py.join (String Py.LF "") (h :: l)).
Proof. destruct l; reflexivity. Qed.

(** The substitution collapses the runs of blank lines. *)
Lemma removed_collapses (n : nat) (s : string) (bol : bool) :
  (String.length s <= n)%nat -> removed bol s = collapse_blank_lines s.
Proof.
  unfold removed, collapse_blank_lines. revert s bol.
  induction n as [|n IH]; intros s bol Hn.
  { destruct s; [reflexivity | cbn in Hn; lia]. }
  destruct s as [|c r]; [reflexivity | ].
  cbn [String.length] in Hn. rewrite BlankLineFacts.remove_step.
  cbn [Py.split]. destruct (Ascii.eqb c Py.LF) eqn:Elf.
  - apply Ascii.eqb_eq in Elf. subst c. cbn [kept_lines].
    rewrite StringFacts.join_cons
      by (apply drop_blank_nonempty, StringFacts.split_nonempty).
    cbn [append]. f_equal.
    destruct (after_blank r) as [t | ] eqn:E.
    + destruct (BlankLineFacts.after_blank_prefix r t E) as (pre & Hr & _ & Hl).
      rewrite IH by (rewrite Hr, StringFacts.length_append in Hn; lia).
      now rewrite (drop_blank_skip r t E).
    + rewrite IH by lia. now rewrite (drop_blank_first r E).
  - rewrite IH by lia.
    pose proof (StringFacts.split_nonempty Py.LF r) as Hne.
    destruct (Py.split Py.LF r) as [|h t]; [congruence | ].
    cbn [kept_lines]. now rewrite join_first_char.
Qed.

Lemma split_one (sep : ascii) (x : string) :
  count_char sep x = 0 -> Py.split sep x = [x].
Proof.
  induction x as [|c x IH]; [reflexivity | ]. cbn [count_char Py.split].
  destruct (Ascii.eqb c sep); [discriminate | ]. intros H. now rewrite (IH H).
Qed.

Lemma split_more (sep : ascii) (x rest : string) :
  count_char sep x = 0 ->
  Py.split sep (x ++ String sep rest) = x :: Py.split sep rest.
Proof.
  induction x as [|c x IH].
  - intros _. cbn [append Py.split]. now rewrite Ascii.eqb_refl.
  - cbn [count_char append Py.split].
    destruct (Ascii.eqb c sep); [discriminate | ]. intros H. now rewrite (IH H).
Qed.

(** Splitting what was joined gives the parts back, when none holds the
    separator. *)
Lemma split_of_join (sep : ascii) (l : list string) :
  Forall (fun part => count_char sep part = 0) l -> l <> [] ->
  Py.split sep (Py.join (String sep "") l) = l.
Proof.
  induction 1 as [|x l Hx Hl IH]; [congruence | ]. intros _.
  destruct l as [|y l]; [now apply split_one | ].
  rewrite StringFacts.join_cons by discriminate.
  cbn [append]. rewrite split_more by exact Hx. now rewrite IH.
Qed.

Lemma drop_blank_Forall (P : string -> Prop) (rest : list string) :
  Forall P rest -> Forall P (drop_blank rest).
Proof.
  induction 1 as [|line more Hline Hmore IH]; [constructor | ].
  cbn [drop_blank]. destruct more as [|line' more']; [now repeat constructor | ].
  destruct (blank line); [exact IH | now constructor].
Qed.

End CollapseFacts.

(** C9.  For every input text, [percent_sdh]: works on the text left by
    the substitution, which is the text with its runs of blank lines
    collapsed to single line breaks (of its lines, the blank ones that are
    neither the first nor the last are gone, the others are untouched);
    counts one line per part of the split at line feeds, that is one more
    than there are line feeds, so at least one and with a final empty line
    after a final line feed; counts as SDH the lines that open with [[],
    [<] or [(] and hold the closing bracket further on; and returns, without
    raising, the quotient of the two counts rounded to two decimals.  The
    caller multiplies the result by 100 (line 90): the SDH confidence a
    verbose run of [lang_detect_srt] prints is that product. *)
Theorem C9_percent_sdh (input_text : string) :
  let text := remove_empty_lines input_text in
  let lines := Py.split Py.LF text in
  let sdh_count := List.length (filter bracketed lines) in
  let total_count := List.length lines in
  no_blank_line text = true
  /\ visible text = visible input_text
  /\ sdh_counts input_text = (sdh_count, total_count)
  /\ (forall line, Re.matches Re.sdh_regex line = bracketed line)
  /\ Forall (fun line => count_char Py.LF line = 0) lines
  /\ total_count = S (count_char Py.LF text)
  /\ (1 <= total_count)%nat
  /\ (sdh_count <= total_count)%nat
  /\ (forall body, text = body ++ String Py.LF "" ->
      exists before, lines = (before ++ [""])%list)
  /\ percent_sdh input_text
     = Py.Ok (Py.round2 (PrimFloat.div (Py.float_of_Z (Z.of_nat sdh_count))
                                       (Py.float_of_Z (Z.of_nat total_count))))
  /\ text = collapse_blank_lines input_text
  /\ lines = kept_lines (Py.split Py.LF input_text)
  /\ (forall (iso : Iso639) (lid : LangId) (file : string) (summary dry_run quiet : bool)
        (a : args) (subtitles : list string) (w : world) (percent : float),
        subtitles <> [] ->
        fst (classify (subtitles_text subtitles)) <> "" ->
        percent_sdh (subtitles_text subtitles) = Py.Ok percent ->
        In (SdhConfidence (PrimFloat.mul percent 100))
           (stdout (snd (lang_detect_srt file summary dry_run quiet true a
                           (Parsed subtitles) w)))).
Proof.
  intros text lines sdh_count total_count.
  destruct (BlankLineFacts.remove_spec (String.length input_text) input_text true
              (le_n _)) as (Hblank & _ & Hvisible).
  assert (Hcounts : sdh_counts input_text = (sdh_count, total_count))
    by apply SdhFacts.sdh_counts_spec.
  assert (Hcollapse : text = collapse_blank_lines input_text)
    by apply (CollapseFacts.removed_collapses _ input_text true (le_n _)).
  split; [exact Hblank | ]. split; [exact Hvisible | ]. split; [exact Hcounts | ].
  split; [exact ReFacts.sdh_regex_spec | ].
  split; [apply split_parts_have_no_sep | ].
  split; [apply SdhFacts.length_split | ].
  split; [unfold total_count, lines; rewrite SdhFacts.length_split; lia | ].
  split; [apply filter_length_le | ].
  split.
  { intros body Hbody. exists (Py.split Py.LF body).
    unfold lines. rewrite Hbody. apply SdhFacts.split_final_sep. }
  split; [rewrite SdhFacts.percent_sdh_spec, Hcounts; reflexivity | ].
  split; [exact Hcollapse | ]. split.
  - unfold lines. rewrite Hcollapse. unfold collapse_blank_lines.
    pose proof (split_parts_have_no_sep Py.LF input_text) as Hparts.
    pose proof (StringFacts.split_nonempty Py.LF input_text) as Hne.
    destruct (Py.split Py.LF input_text) as [|first rest]; [congruence | ].
    inversion Hparts as [|? ? Hfirst Hrest]; subst.
    apply CollapseFacts.split_of_join; [ | discriminate].
    constructor; [exact Hfirst | now apply CollapseFacts.drop_blank_Forall].
  - intros iso lid file summary dry_run quiet a subtitles w percent Hsubs Hcode Hpercent.
    destruct (PipelineFacts.resolved_language_ok a _ Hcode)
      as (new_lang_name & new_language & _ & Hlang).
    destruct (PipelineFacts.lang_detect_srt_builds file summary dry_run quiet true a
                subtitles new_language w Hsubs Hlang)
      as (name & w1 & _ & E & _ & _ & _ & Hprinted).
    rewrite SdhFacts.percent_sdh_spec in Hpercent. injection Hpercent as <-.
    rewrite E.
    apply PipelineFacts.keeps_bind;
      [apply PipelineFacts.get_new_filename_keeps
      | intros new_filename; apply PipelineFacts.keep_only_stage_keeps | ].
    now apply Hprinted.
Qed.

(** A verbose run on two subtitles, one of them SDH: [percent_sdh] gives
    0.5 and the run prints an SDH confidence of 50. *)
Example sdh_confidence_is_a_percentage :
  percent_sdh (subtitles_text ["[music]"; "Hello"]) = Py.Ok (PrimFloat.div 1 2)
  /\ In (SdhConfidence 50)
        (stdout (snd (lang_detect_srt (iso := Sample.iso639)
                        (lid := Sample.langid "en" (PrimFloat.div 9 10))
                        "Show.en.srt" false true false true Sample.default_args
                        (Parsed ["[music]"; "Hello"])
                        (Sample.empty_world ["Show.en.srt"])))).
Proof. split; vm_compute; [reflexivity | tauto]. Qed.

(** The lines that are counted: the blank ones between the first and the
    last line are gone, a blank first or last line stays. *)
Example counted_lines_of_a_text :
  let LF := String Py.LF "" in
  kept_lines [" "; "one"; ""; "  "; "two"; ""] = [" "; "one"; "two"; ""]
  /\ remove_empty_lines (" " ++ LF ++ "one" ++ LF ++ LF ++ "  " ++ LF ++ "two" ++ LF)
     = " " ++ LF ++ "one" ++ LF ++ "two" ++ LF.
Proof. split; vm_compute; reflexivity. Qed.

(** Four counted lines, two of them SDH: 0.5, which the caller turns into
    50 (line 90). *)
Example percent_sdh_half :
  let LF := String Py.LF "" in
  let input_text := "[music]" ++ LF ++ LF ++ "Hello" ++ LF ++ "  " ++ LF ++ LF
                    ++ "(door) x" ++ LF in
  remove_empty_lines input_text = "[music]" ++ LF ++ "Hello" ++ LF ++ "(door) x" ++ LF
  /\ sdh_counts input_text = (2, 4)
  /\ percent_sdh input_text = Py.Ok (PrimFloat.div 1 2)
  /\ PrimFloat.mul (PrimFloat.div 1 2) 100 = 50%float.
Proof. repeat split; vm_compute; reflexivity. Qed.

(** The empty text: one empty line, no division by zero. *)
Example percent_sdh_empty :
  sdh_counts "" = (0, 1) /\ percent_sdh "" = Py.Ok 0%float.
Proof. split; vm_compute; reflexivity. Qed.

(* ===================================================================== *)
(** * Further properties *)
(* ===================================================================== *)

(** A float at or above [a] and at or below [b] lies between them. *)
Lemma float_between (x : float) (a b : Z) :
  Py.float_ge x a = true -> Py.float_le x b = true -> (a <= b)%Z.
Proof.
  unfold Py.float_ge, Py.float_le, Py.float_compare_Z.
  destruct (Prim2SF x) as [s | s | | s m e].
  - destruct (Z.compare_spec 0 a), (Z.compare_spec 0 b); intros; try discriminate; lia.
  - destruct s; intros; discriminate.
  - intros; discriminate.
  - set (v := if s then Z.neg m else Z.pos m).
    destruct (Z.leb_spec 0 e).
    + destruct (Z.compare_spec (v * 2 ^ e) a), (Z.compare_spec (v * 2 ^ e) b);
        intros; try discriminate; lia.
    + assert (Hpow : (0 < 2 ^ (- e))%Z) by (apply Z.pow_pos_nonneg; lia).
      destruct (Z.compare_spec v (a * 2 ^ (- e))), (Z.compare_spec v (b * 2 ^ (- e)));
        intros; try discriminate; nia.
Qed.

(** X3.  Under [--verbose], and with the reject threshold below the minimum (as
    with the defaults), lines 132-140 compute the marker the specification
    asks for. *)
Theorem sdh_marker_under_verbose (a : args) (score : float) (special_subs : string)
  (w : world) :
  (reject_sdh_confidence a < min_sdh_confidence a)%Z ->
  fst (sdh_hysteresis true a score special_subs w)
  = Py.Ok (hysteresis_spec a score special_subs).
Proof.
  intros Hlt.
  destruct (PipelineFacts.sdh_hysteresis_quiet true a score special_subs w)
    as (w' & Hrun & _). rewrite Hrun. cbn [fst]. f_equal.
  unfold unmarked, marked, hysteresis_spec. rewrite !andb_true_r.
  destruct (Py.float_ge score (min_sdh_confidence a)) eqn:Hge,
    (Py.float_le score (max_sdh_confidence a)) eqn:Hle,
    (special_subs =? "sdh") eqn:Hs;
    cbn [andb negb]; rewrite ?Hs; try reflexivity.
  destruct (Py.float_le score (reject_sdh_confidence a)) eqn:Hrej; [ | reflexivity].
  pose proof (float_between score _ _ Hge Hrej). lia.
Qed.

(** The defaults, a score of 80, no marker: [sdh] under [--verbose]. *)
Lemma sdh_marker_under_verbose_witness :
  fst (sdh_hysteresis true Sample.default_args 80 "" (Sample.empty_world []))
  = Py.Ok (hysteresis_spec Sample.default_args 80 "").
Proof.
  apply (sdh_marker_under_verbose Sample.default_args 80 "" (Sample.empty_world [])).
  reflexivity.
Defined.

(** X2.  The scan breaks at a part iff no rule applies to it: it is no keyword,
    is not two or three characters long, and does not begin with a digit. *)
Theorem scan_breaks_iff_unrecognized (st : scan_state) (part : string) :
  scan_part st part = None <-> recognized part = false.
Proof. apply TokenizerFacts.scan_part_break. Qed.

(** X1.  The title tokens are the parts the scan did not go past, in the
    order of the name: every part to their right is recognized by some rule, and
    the last of them, if any, by none. *)
Theorem title_is_what_the_scan_leaves (full_path : string) :
  exists visited,
    Py.split "." (OsPath.basename full_path) = (title_tokens full_path ++ visited)%list
    /\ Forall (fun p => recognized p = true) visited
    /\ title_ends (title_tokens full_path) = true.
Proof.
  destruct (title_tokens_spec full_path) as (visited & H1 & H2 & H3 & _).
  exists visited. auto.
Qed.

(** X4.  When the conversion of the classifier's code fails, the language is
    [False] and [get_new_filename] raises [TypeError] at its first [join],
    before it looks at the disk. *)
Theorem false_language_raises (full_path file_language special : string)
  (forced verbose : bool) (w : world) :
  get_new_filename full_path Py.VFalse file_language special forced verbose w
  = (Py.Raise Py.TypeError, w).
Proof. apply BuilderFacts.get_new_filename_false. Qed.

(** ** The built-ins at work *)

Example str_12 : Py.str 12 = "12".
Proof. reflexivity. Qed.

Example split_dots : Py.split "." "Show.S01E01.en.srt" = ["Show"; "S01E01"; "en"; "srt"].
Proof. reflexivity. Qed.

Example split_empty : Py.split "." "" = [""].
Proof. reflexivity. Qed.

Example dirname_basename :
  OsPath.dirname "/media/tv//Show.srt" = "/media/tv"
  /\ OsPath.basename "/media/tv//Show.srt" = "Show.srt"
  /\ OsPath.dirname "Show.srt" = ""
  /\ OsPath.join "" "Show.srt" = "Show.srt"
  /\ OsPath.join "/media/tv" "Show.srt" = "/media/tv/Show.srt".
Proof. repeat split. Qed.

(** [round(1/3, 2) == 0.33], [round(0.125, 2) == 0.12] (half to even),
    [0.29 * 100 == 28.999999999999996], [int(97.5) == 97]. *)
Example round2_third : Py.round2 (PrimFloat.div 1 3) = PrimFloat.div 33 100.
Proof. vm_compute. reflexivity. Qed.

Example round2_eighth : Py.round2 (PrimFloat.div 1 8) = PrimFloat.div 12 100.
Proof. vm_compute. reflexivity. Qed.

Example percent_29 :
  Py.float_ge (PrimFloat.mul (PrimFloat.div 29 100) 100) 29 = false.
Proof. vm_compute. reflexivity. Qed.

Example int_of_97_5 : Py.int_of_float (PrimFloat.div 195 2) = Py.Ok 97%Z.
Proof. vm_compute. reflexivity. Qed.

(** ** Scenarios of the specification *)

(** ["Show.S01E01.en.srt"] with English text: the new name is the file's own
    and nothing is done. *)
Example english_file_is_left_alone :
  lang_detect_srt (iso := Sample.iso639) (lid := Sample.langid "en" (PrimFloat.div 97 100))
    "Show.S01E01.en.srt" true false false false Sample.rename_files (Parsed ["Hello"])
    (Sample.empty_world ["Show.S01E01.en.srt"])
  = (Py.Ok true,
     {| disk := ["Show.S01E01.en.srt"];
        stdout := [NoChangesNecessary "Show.S01E01.en.srt"];
        syscalls := [] |}).
Proof. vm_compute. reflexivity. Qed.

(** ["Show.S01E01.srt"] with French text and [--rename-files]: renamed to
    ["Show.S01E01.fr.srt"]. *)
Example french_file_is_renamed :
  lang_detect_srt (iso := Sample.iso639) (lid := Sample.langid "fr" (PrimFloat.div 92 100))
    "Show.S01E01.srt" true false false false Sample.rename_files (Parsed ["Bonjour"])
    (Sample.empty_world ["Show.S01E01.srt"])
  = (Py.Ok true,
     {| disk := ["Show.S01E01.fr.srt"];
        stdout := [Renamed "Show.S01E01.srt" "Show.S01E01.fr.srt"];
        syscalls := [Rename "Show.S01E01.srt" "Show.S01E01.fr.srt"] |}).
Proof. vm_compute. reflexivity. Qed.

(** A file that cannot be decoded, or without subtitles, is left alone. *)
Example unreadable_or_empty_file :
  lang_detect_srt (iso := Sample.iso639) (lid := Sample.langid "fr" 1)
    "Show.srt" false false false false Sample.rename_files CannotOpen
    (Sample.empty_world ["Show.srt"])
  = (Py.Ok false,
     {| disk := ["Show.srt"]; stdout := [Blank; CouldNotOpen "Show.srt"];
        syscalls := [] |})
  /\ lang_detect_srt (iso := Sample.iso639) (lid := Sample.langid "fr" 1)
       "Show.srt" false false false false Sample.rename_files (Parsed [])
       (Sample.empty_world ["Show.srt"])
     = (Py.Ok true, Sample.empty_world ["Show.srt"]).
Proof. split; vm_compute; reflexivity. Qed.

(** A file that is not there: [open] raises at line 61.  A classifier that
    answers with an empty code: [iso639] raises at line 94. *)
Example missing_file_empty_code :
  lang_detect_srt (iso := Sample.iso639) (lid := Sample.langid "fr" 1)
    "Gone.srt" false true false false Sample.default_args Unreadable
    (Sample.empty_world [])
  = (Py.Raise Py.OSError,
     {| disk := []; stdout := [Parsing "Gone.srt"]; syscalls := [] |})
  /\ lang_detect_srt (iso := Sample.iso639) (lid := Sample.langid "" 1)
       "Show.srt" false false false false Sample.rename_files (Parsed ["Bonjour"])
       (Sample.empty_world ["Show.srt"])
     = (Py.Raise Py.ValueError, Sample.empty_world ["Show.srt"]).
Proof. split; vm_compute; reflexivity. Qed.

(* ===================================================================== *)
(** * What a run leaves as it is *)
(* ===================================================================== *)

Module FrameFacts.

Lemma preserves_ret {A B} (f : world -> B) (v : A) : preserves f (ret v).
Proof. intros w. reflexivity. Qed.

Lemma preserves_lift {A B} (f : world -> B) (o : Py.outcome A) : preserves f (lift o).
Proof. intros w. reflexivity. Qed.

Lemma preserves_bind {A B C} (f : world -> C) (c : M A) (k : A -> M B) :
  preserves f c -> (forall v, preserves f (k v)) -> preserves f (bind c k).
Proof.
  intros Hc Hk w. unfold bind. specialize (Hc w).
  destruct (c w) as [[v | e | ] w1]; cbn [snd] in *; [ | exact Hc | exact Hc].
  rewrite <- Hc. apply Hk.
Qed.

Lemma preserves_when {B} (f : world -> B) (b : bool) (c : M unit) :
  preserves f c -> preserves f (when b c).
Proof. intros H. destruct b; [exact H | apply preserves_ret]. Qed.

Lemma print_effects (m : message) : preserves effects (print m).
Proof. intros w. reflexivity. Qed.

Lemma exists_effects (path : string) : preserves effects (os_path_exists path).
Proof. intros w. reflexivity. Qed.

Lemma exists_stdout (path : string) : preserves stdout (os_path_exists path).
Proof. intros w. reflexivity. Qed.

Lemma remove_stdout (file : string) : preserves stdout (os_remove file).
Proof. intros w. reflexivity. Qed.

Lemma rename_stdout (file new_filename : string) :
  preserves stdout (os_rename file new_filename).
Proof. intros w. reflexivity. Qed.

(** Breaks a run into its steps. *)
Ltac frame :=
  repeat first
    [ apply preserves_ret
    | apply preserves_lift
    | apply print_effects
    | apply exists_effects
    | apply exists_stdout
    | apply remove_stdout
    | apply rename_stdout
    | apply preserves_when
    | apply preserves_bind; [ | intros ? ]
    | match goal with
      | |- preserves _ (if ?b then _ else _) => destruct b
      | |- preserves _ (match ?x with _ => _ end) => destruct x
      end ].

(** The probing loop reads the disk and, under [--verbose], prints. *)
Lemma probe_loop_effects (fuel : nat) (full_path directory : string)
  (filename : list string) (language : Py.value) (special : string)
  (forced verbose : bool) (i : nat) :
  preserves effects
    (probe_loop fuel full_path directory filename language special forced verbose i).
Proof.
  revert i. induction fuel as [|fuel IH]; intros i; cbn [probe_loop]; frame.
  apply IH.
Qed.

Lemma probe_loop_stdout (fuel : nat) (full_path directory : string)
  (filename : list string) (language : Py.value) (special : string)
  (forced : bool) (i : nat) :
  preserves stdout
    (probe_loop fuel full_path directory filename language special forced false i).
Proof.
  revert i. induction fuel as [|fuel IH]; intros i; cbn [probe_loop]; frame.
  apply IH.
Qed.

Lemma get_new_filename_effects (full_path : string) (language : Py.value)
  (file_language special : string) (forced verbose : bool) :
  preserves effects
    (get_new_filename full_path language file_language special forced verbose).
Proof.
  unfold get_new_filename. apply preserves_bind; [apply preserves_lift | intros filename].
  intros w. apply probe_loop_effects.
Qed.

Lemma get_new_filename_stdout (full_path : string) (language : Py.value)
  (file_language special : string) (forced : bool) :
  preserves stdout
    (get_new_filename full_path language file_language special forced false).
Proof.
  unfold get_new_filename. apply preserves_bind; [apply preserves_lift | intros filename].
  intros w. apply probe_loop_stdout.
Qed.

Section WithServices.

Context {iso : Iso639} {lid : LangId}.

Lemma detect_langs_pretty_effects (results : list (Py.value * float)) :
  preserves effects (detect_langs_pretty results).
Proof. induction results as [|[n c] results IH]; cbn [detect_langs_pretty]; frame. exact IH. Qed.

Lemma sdh_hysteresis_effects (verbose : bool) (a : args) (score : float)
  (special_subs : string) :
  preserves effects (sdh_hysteresis verbose a score special_subs).
Proof. unfold sdh_hysteresis, mark_sdh, unmark_sdh. frame. Qed.

Lemma sdh_hysteresis_stdout (a : args) (score : float) (special_subs : string) :
  preserves stdout (sdh_hysteresis false a score special_subs).
Proof. unfold sdh_hysteresis, mark_sdh, unmark_sdh. frame. Qed.

Lemma resolve_language_effects (file : string) (summary verbose : bool) (a : args)
  (new_lang_code : string) (new_lang_name : Py.value) :
  preserves effects (resolve_language file summary verbose a new_lang_code new_lang_name).
Proof. unfold resolve_language. frame. Qed.

Lemma resolve_language_stdout (file : string) (a : args)
  (new_lang_code : string) (new_lang_name : Py.value) :
  preserves stdout (resolve_language file false false a new_lang_code new_lang_name).
Proof. unfold resolve_language. cbn [orb]. frame. Qed.

(** In a dry run the decision reports and does nothing. *)
Lemma keep_only_stage_dry (file : string) (summary verbose : bool) (a : args)
  (new_language new_lang_name : Py.value) (conf : float) (new_filename : string) :
  preserves effects
    (keep_only_stage file summary true verbose a new_language new_lang_name conf
                     new_filename).
Proof. unfold keep_only_stage, rename_stage. cbn [negb]. frame. Qed.

(** With [--rename-files] and neither [--verbose] nor [--summary] it does
    and says nothing. *)
Lemma keep_only_stage_silent (file : string) (a : args)
  (new_language new_lang_name : Py.value) (conf : float) (new_filename : string) :
  preserves stdout
    (keep_only_stage file false false false a new_language new_lang_name conf
                     new_filename).
Proof. unfold keep_only_stage, rename_stage. cbn [negb orb]. frame. Qed.

End WithServices.

End FrameFacts.

Section Frame.

Context {iso : Iso639} {lid : LangId}.

(** X6.  Without [--rename-files], [lang_detect_srt] changes nothing: for
    every file, content, classifier answer and flags, whether it returns or
    raises, the disk is as it was and no [os.remove] or [os.rename] has been
    called. *)
Theorem dry_run_changes_nothing (file : string) (summary quiet verbose : bool)
  (a : args) (input : read_result) (w : world) :
  let w' := snd (lang_detect_srt file summary true quiet verbose a input w) in
  disk w' = disk w /\ syscalls w' = syscalls w.
Proof.
  assert (H : preserves effects (lang_detect_srt file summary true quiet verbose a input)).
  { unfold lang_detect_srt, get_filename_language. cbv zeta.
    apply FrameFacts.preserves_bind; [FrameFacts.frame | intros _].
    destruct input as [ | | | subtitles];
      [FrameFacts.frame | FrameFacts.frame | FrameFacts.frame | ].
    destruct (List.length subtitles =? 0)%nat; [FrameFacts.frame | ].
    apply FrameFacts.preserves_bind; [FrameFacts.frame | intros percent].
    apply FrameFacts.preserves_bind; [FrameFacts.frame | intros new_lang_name].
    apply FrameFacts.preserves_bind.
    { apply FrameFacts.preserves_when.
      apply FrameFacts.preserves_bind; [FrameFacts.frame | intros file_language_long].
      apply FrameFacts.preserves_when.
      apply FrameFacts.preserves_bind; [apply FrameFacts.print_effects | intros _].
      apply FrameFacts.preserves_bind; [apply FrameFacts.print_effects | intros _].
      apply FrameFacts.preserves_bind;
        [apply FrameFacts.detect_langs_pretty_effects | intros _].
      apply FrameFacts.print_effects. }
    intros _.
    apply FrameFacts.preserves_bind;
      [apply FrameFacts.resolve_language_effects | intros new_language].
    apply FrameFacts.preserves_bind;
      [apply FrameFacts.sdh_hysteresis_effects | intros special_subs].
    apply FrameFacts.preserves_bind;
      [apply FrameFacts.get_new_filename_effects | intros new_filename].
    apply FrameFacts.keep_only_stage_dry. }
  cbv zeta. specialize (H w). unfold effects in H. now injection H.
Qed.

(** X7.  With [--rename-files] and neither [--verbose] nor [--summary],
    [lang_detect_srt] prints nothing for a file it could read and parse,
    whatever it does with it. *)
Theorem quiet_run_prints_nothing (file : string) (quiet : bool) (a : args)
  (subtitles : list string) (w : world) :
  stdout (snd (lang_detect_srt file false false quiet false a (Parsed subtitles) w))
  = stdout w.
Proof.
  assert (H : preserves stdout
                (lang_detect_srt file false false quiet false a (Parsed subtitles))).
  { unfold lang_detect_srt, get_filename_language. cbv zeta. cbn [orb].
    apply FrameFacts.preserves_bind; [FrameFacts.frame | intros _].
    destruct (List.length subtitles =? 0)%nat; [FrameFacts.frame | ].
    apply FrameFacts.preserves_bind; [FrameFacts.frame | intros percent].
    apply FrameFacts.preserves_bind; [FrameFacts.frame | intros new_lang_name].
    apply FrameFacts.preserves_bind; [FrameFacts.frame | intros _].
    apply FrameFacts.preserves_bind;
      [apply FrameFacts.resolve_language_stdout | intros new_language].
    apply FrameFacts.preserves_bind;
      [apply FrameFacts.sdh_hysteresis_stdout | intros special_subs].
    apply FrameFacts.preserves_bind;
      [apply FrameFacts.get_new_filename_stdout | intros new_filename].
    apply FrameFacts.keep_only_stage_silent. }
  apply H.
Qed.

End Frame.

(* ===================================================================== *)
(** * What a run does at most *)
(* ===================================================================== *)

Module FootprintFacts.

Lemma footprint_same (file : string) (w : world) (r : Py.outcome bool * world) :
  effects (snd r) = effects w -> footprint file w r.
Proof. unfold effects. intros H. left. now injection H. Qed.

Lemma footprint_shift (file : string) (w w1 : world) (r : Py.outcome bool * world) :
  effects w1 = effects w -> footprint file w1 r -> footprint file w r.
Proof.
  unfold effects, footprint. intros H. injection H as Hd Hs. now rewrite Hd, Hs.
Qed.

(** Steps that touch nothing come first. *)
Lemma footprint_bind {A} (file : string) (c : M A) (k : A -> M bool) (w : world) :
  preserves effects c ->
  (forall v, fst (c w) = Py.Ok v -> footprint file (snd (c w)) (k v (snd (c w)))) ->
  footprint file w (bind c k w).
Proof.
  intros Hc Hk. specialize (Hc w). unfold bind.
  destruct (c w) as [[v | e | ] w1]; cbn [fst snd] in *;
    [ | now apply footprint_same | now apply footprint_same].
  apply (footprint_shift file w w1); [exact Hc | now apply Hk].
Qed.

Section WithServices.

Context {iso : Iso639} {lid : LangId}.

Lemma rename_stage_footprint (file : string) (summary dry_run verbose : bool) (a : args)
  (new_lang_name : Py.value) (conf : float) (new_filename : string) (w : world) :
  stops (disk w) file new_filename = true ->
  footprint file w
    (rename_stage file summary dry_run verbose a new_lang_name conf new_filename w).
Proof.
  intros Hstop. unfold rename_stage.
  destruct (new_filename =? file) eqn:Esame.
  { apply footprint_same. apply (FrameFacts.preserves_bind effects); intros;
      FrameFacts.frame. }
  assert (Hne : new_filename <> file) by now apply String.eqb_neq.
  assert (Hfree : on_disk (disk w) new_filename = false).
  { unfold stops in Hstop. rewrite String.eqb_sym, Esame in Hstop. cbn [orb] in Hstop.
    now destruct (on_disk (disk w) new_filename). }
  unfold bind at 1, lift.
  destruct (Py.int_of_float conf) as [confidence | e | ];
    [ | now apply footprint_same | now apply footprint_same].
  destruct (require_lang_confidence a <=? confidence)%Z;
    [ | now apply footprint_same].
  destruct dry_run; cbn [negb].
  { apply footprint_same. apply (FrameFacts.preserves_bind effects); intros;
      FrameFacts.frame. }
  destruct (Py.value_eqb new_lang_name unknown); cbn [negb].
  { apply footprint_same. apply (FrameFacts.preserves_bind effects); intros;
      FrameFacts.frame. }
  right. right. exists new_filename.
  unfold bind, when, os_rename, print, ret.
  destruct (verbose || summary); cbn [fst snd disk syscalls]; auto.
Qed.

Lemma keep_only_stage_footprint (file : string) (summary dry_run verbose : bool)
  (a : args) (new_language new_lang_name : Py.value) (conf : float)
  (new_filename : string) (w : world) :
  stops (disk w) file new_filename = true ->
  footprint file w
    (keep_only_stage file summary dry_run verbose a new_language new_lang_name conf
                     new_filename w).
Proof.
  intros Hstop. unfold keep_only_stage.
  pose proof (rename_stage_footprint file summary dry_run verbose a new_lang_name conf
                new_filename w Hstop) as Hrename.
  destruct (keep_only a) as [|lang langs]; [exact Hrename | ].
  unfold bind at 1. unfold lift at 1.
  destruct (keep_langs_loop a (lang :: langs) []) as [keep_langs | e | ];
    [ | now apply footprint_same | now apply footprint_same].
  destruct (negb (Py.value_in new_language keep_langs)); [ | exact Hrename].
  unfold bind at 1, lift.
  destruct (Py.int_of_float conf) as [confidence | e | ];
    [ | now apply footprint_same | now apply footprint_same].
  destruct (require_lang_confidence a <=? confidence)%Z; [ | exact Hrename].
  destruct dry_run; cbn [negb].
  { apply footprint_same. apply (FrameFacts.preserves_bind effects); intros;
      FrameFacts.frame. }
  right. left.
  unfold bind, when, os_remove, print, ret.
  destruct (verbose || summary); cbn [fst snd disk syscalls]; auto.
Qed.

(** The name [get_new_filename] returns is the file's own or that of no
    file, whatever the language is. *)
Lemma get_new_filename_stops (full_path : string) (language : Py.value)
  (file_language special : string) (forced verbose : bool) (w : world)
  (new_filename : string) :
  fst (get_new_filename full_path language file_language special forced verbose w)
  = Py.Ok new_filename ->
  stops (disk w) full_path new_filename = true.
Proof.
  destruct language as [ | language].
  - now rewrite BuilderFacts.get_new_filename_false.
  - destruct (BuilderFacts.get_new_filename_spec full_path language file_language
                special forced verbose w) as (i & w' & E & Hstop & _).
    rewrite E. cbn [fst]. intros [= <-]. exact Hstop.
Qed.

End WithServices.

End FootprintFacts.

Section Footprint.

Context {iso : Iso639} {lid : LangId}.

(** X8.  Whatever the file, its content, the classifier's answer and the
    flags, one run of [lang_detect_srt] does one of three things to the
    file system: nothing (this is so whenever it raises or returns [False]);
    one [os.remove] of the file itself; or one [os.rename] of the file
    itself to a different path at which nothing existed when the run began.
    No other path is removed and no existing file is replaced. *)
Theorem run_never_overwrites (file : string) (summary dry_run quiet verbose : bool)
  (a : args) (input : read_result) (w : world) :
  let r := fst (lang_detect_srt file summary dry_run quiet verbose a input w) in
  let w' := snd (lang_detect_srt file summary dry_run quiet verbose a input w) in
  (disk w' = disk w /\ syscalls w' = syscalls w)
  \/ (r = Py.Ok true
      /\ syscalls w' = (syscalls w ++ [Remove file])%list
      /\ disk w' = filter (fun p => negb (p =? file)) (disk w))
  \/ (exists new_filename,
        r = Py.Ok true
        /\ syscalls w' = (syscalls w ++ [Rename file new_filename])%list
        /\ new_filename <> file
        /\ on_disk (disk w) new_filename = false
        /\ disk w'
           = new_filename
             :: filter (fun p => negb (p =? file) && negb (p =? new_filename)) (disk w)).
Proof.
  cbv zeta.
  change (footprint file w (lang_detect_srt file summary dry_run quiet verbose a input w)).
  unfold lang_detect_srt, get_filename_language. cbv zeta.
  apply FootprintFacts.footprint_bind; [FrameFacts.frame | intros _ _].
  generalize (snd (when (dry_run || verbose) (print (Parsing file)) w)). clear w.
  intros w.
  destruct input as [ | | | subtitles].
  { now apply FootprintFacts.footprint_same. }
  { apply FootprintFacts.footprint_same.
    apply (FrameFacts.preserves_bind effects); intros; FrameFacts.frame. }
  { apply FootprintFacts.footprint_same.
    apply (FrameFacts.preserves_bind effects); intros; FrameFacts.frame. }
  destruct (List.length subtitles =? 0)%nat.
  { apply FootprintFacts.footprint_same.
    apply (FrameFacts.preserves_bind effects); intros; FrameFacts.frame. }
  apply FootprintFacts.footprint_bind; [FrameFacts.frame | intros percent _].
  generalize (snd (lift (percent_sdh (Py.join (String Py.LF (String Py.LF EmptyString))
                                              subtitles)) w)).
  clear w. intros w.
  apply FootprintFacts.footprint_bind; [FrameFacts.frame | intros new_lang_name _].
  match goal with |- footprint _ (snd (?c w)) _ => generalize (snd (c w)) end.
  clear w. intros w.
  apply FootprintFacts.footprint_bind.
  { apply FrameFacts.preserves_when.
    apply FrameFacts.preserves_bind; [FrameFacts.frame | intros file_language_long].
    apply FrameFacts.preserves_when.
    apply FrameFacts.preserves_bind; [apply FrameFacts.print_effects | intros _].
    apply FrameFacts.preserves_bind; [apply FrameFacts.print_effects | intros _].
    apply FrameFacts.preserves_bind;
      [apply FrameFacts.detect_langs_pretty_effects | intros _].
    apply FrameFacts.print_effects. }
  intros _ _.
  match goal with |- footprint _ (snd (?c w)) _ => generalize (snd (c w)) end.
  clear w. intros w.
  apply FootprintFacts.footprint_bind;
    [apply FrameFacts.resolve_language_effects | intros new_language _].
  match goal with |- footprint _ (snd (?c w)) _ => generalize (snd (c w)) end.
  clear w. intros w.
  apply FootprintFacts.footprint_bind;
    [apply FrameFacts.sdh_hysteresis_effects | intros special_subs _].
  match goal with |- footprint _ (snd (?c w)) _ => generalize (snd (c w)) end.
  clear w. intros w.
  apply FootprintFacts.footprint_bind;
    [apply FrameFacts.get_new_filename_effects | intros new_filename Hname].
  apply FootprintFacts.keep_only_stage_footprint.
  apply FootprintFacts.get_new_filename_stops in Hname.
  pose proof (FrameFacts.get_new_filename_effects file new_language
                (validate_sub_lang (sub_lang (fst (scan_loop scan_init (reversed_parts file)))))
                special_subs
                (forced (fst (scan_loop scan_init (reversed_parts file)))) verbose w) as He.
  unfold effects in He. injection He as Hd _. rewrite Hd. exact Hname.
Qed.

End Footprint.

(* ===================================================================== *)
(** * How a run ends *)
(* ===================================================================== *)

Module ResultFacts.

Section WithServices.

Context {iso : Iso639} {lid : LangId}.




End WithServices.

End ResultFacts.

Section Result.

Context {iso : Iso639} {lid : LangId}.


End Result.

(* ===================================================================== *)
(** * The attributes read from a name *)
(* ===================================================================== *)

Module AttributeFacts.

Lemma scan_step_forced (st : scan_state) (part : string) :
  forced (scan_step st part) = forced_token part || forced st.
Proof.
  unfold scan_step, scan_part, forced_token.
  destruct (Py.lower part =? "srt") eqn:E1.
  { apply String.eqb_eq in E1. now rewrite E1. }
  destruct (Py.lower part =? "forced"); [reflexivity | ].
  destruct (Py.lower part =? "cc"); [reflexivity | ].
  destruct (Py.lower part =? "sdh"); [reflexivity | ].
  destruct ((Py.len part =? 2)%nat || (Py.len part =? 3)%nat); [reflexivity | ].
  destruct (Re.matches Re.digits part); reflexivity.
Qed.

Lemma scan_step_special (st : scan_state) (part : string) :
  special (scan_step st part) = if marker_token part then Py.lower part else special st.
Proof.
  unfold scan_step, scan_part, marker_token.
  destruct (Py.lower part =? "srt") eqn:E1.
  { apply String.eqb_eq in E1. now rewrite E1. }
  destruct (Py.lower part =? "forced") eqn:E2.
  { apply String.eqb_eq in E2. now rewrite E2. }
  destruct (Py.lower part =? "cc") eqn:E3.
  { apply String.eqb_eq in E3. now rewrite E3. }
  destruct (Py.lower part =? "sdh") eqn:E4.
  { apply String.eqb_eq in E4. now rewrite E4. }
  destruct ((Py.len part =? 2)%nat || (Py.len part =? 3)%nat); [reflexivity | ].
  destruct (Re.matches Re.digits part); reflexivity.
Qed.

(** The scan runs from the right, and every part that sets an attribute
    overwrites it: the state at the end holds, for each attribute, what the
    leftmost such part set. *)
Lemma fold_scan_rev (visited : list string) (st : scan_state) :
  let st' := fold_left scan_step (rev visited) st in
  sub_lang st' = first_lowered lang_shaped (sub_lang st) visited
  /\ special st' = first_lowered marker_token (special st) visited
  /\ forced st' = existsb forced_token visited || forced st.
Proof.
  induction visited as [|p visited IH]; [cbn; auto | ].
  cbn [rev]. rewrite fold_left_app. cbn [fold_left].
  destruct IH as (IH1 & IH2 & IH3).
  rewrite TokenizerFacts.scan_step_sub_lang, scan_step_special, scan_step_forced,
    IH1, IH2, IH3.
  unfold first_lowered. cbn [find existsb].
  destruct (lang_shaped p), (marker_token p), (forced_token p); cbn [orb]; auto.
Qed.

End AttributeFacts.

Section Attributes.

Context {iso : Iso639}.

(** X10.  What [get_filename_language] returns, in terms of the name: with
    the parts to the right of the title tokens (those the scan went past),
    the language is the leftmost part of two or three characters that is no
    keyword, lowered, and then validated (["Unknown"] without such a part);
    the marker is the leftmost [cc] or [sdh], lowered ([""] without one);
    the flag tells whether some part is [forced].  With several candidates
    the one furthest from the extension wins. *)
Theorem leftmost_token_wins (full_path : string) :
  exists visited,
    Py.split "." (OsPath.basename full_path) = (title_tokens full_path ++ visited)%list
    /\ get_filename_language full_path
       = (validate_sub_lang (first_lowered lang_shaped "Unknown" visited),
          first_lowered marker_token "" visited,
          existsb forced_token visited).
Proof.
  destruct (title_tokens_spec full_path) as (visited & Hsplit & _ & _ & Hst).
  exists visited. split; [exact Hsplit | ].
  unfold get_filename_language. cbv zeta. rewrite Hst.
  destruct (AttributeFacts.fold_scan_rev visited scan_init) as (H1 & H2 & H3).
  rewrite H1, H2, H3. cbn [scan_init sub_lang special forced].
  now rewrite orb_false_r.
Qed.

End Attributes.

(** Two codes and two markers: the left ones are reported. *)
Example two_codes_two_markers :
  get_filename_language (iso := Sample.iso639) "Movie.fr.sdh.en.cc.srt"
  = ("fr", "sdh", false).
Proof. vm_compute. reflexivity. Qed.

(* ===================================================================== *)
(** * Where the new name lies *)
(* ===================================================================== *)

Module PathFacts.

Lemma count_char_append (c : ascii) (a b : string) :
  count_char c (a ++ b) = count_char c a + count_char c b.
Proof. induction a as [|x a IH]; [reflexivity | ]. cbn. rewrite IH. lia. Qed.

Lemma rsplit_no_sep (t : string) :
  count_char OsPath.sep t = 0 -> OsPath.rsplit t = ("", t).
Proof.
  induction t as [|c t IH]; [reflexivity | ].
  cbn [count_char OsPath.rsplit].
  destruct (Ascii.eqb c OsPath.sep) eqn:E; [discriminate | ].
  intros H. now rewrite (IH H).
Qed.

Lemma rsplit_app (a t : string) :
  OsPath.endswith_sep a = true -> count_char OsPath.sep t = 0 ->
  OsPath.rsplit (a ++ t) = (a, t).
Proof.
  intros Ha Ht. induction a as [|c a IH]; [discriminate | ].
  cbn [append OsPath.rsplit]. destruct a as [|c' a].
  - cbn [OsPath.endswith_sep] in Ha. cbn [append].
    now rewrite (rsplit_no_sep t Ht), Ha.
  - rewrite IH by exact Ha. reflexivity.
Qed.

Lemma basename_no_sep (p : string) : count_char OsPath.sep (OsPath.basename p) = 0.
Proof.
  unfold OsPath.basename. induction p as [|c p IH]; [reflexivity | ].
  cbn [OsPath.rsplit]. destruct (OsPath.rsplit p) as [head tail]. cbn [snd] in IH.
  destruct head; [ | exact IH].
  destruct (Ascii.eqb c OsPath.sep) eqn:E; cbn [snd count_char]; [exact IH | ].
  now rewrite E, IH.
Qed.

Lemma split_no_sep (s : string) :
  count_char OsPath.sep s = 0 ->
  Forall (fun part => count_char OsPath.sep part = 0) (Py.split "." s).
Proof.
  induction s as [|c s IH]; [repeat constructor | ].
  cbn [count_char Py.split].
  destruct (Ascii.eqb c OsPath.sep) eqn:E; [discriminate | ].
  intros H. specialize (IH H).
  destruct (Ascii.eqb c "."); [now constructor | ].
  destruct (Py.split "." s) as [|h t]; [repeat constructor; cbn; now rewrite E | ].
  inversion IH as [|? ? Hh Ht]; subst.
  constructor; [ | exact Ht]. cbn [count_char]. now rewrite E, Hh.
Qed.

Lemma skip_removable_Forall (P : string -> Prop) (language : Py.value)
  (file_language : string) (parts : list string) :
  Forall P parts -> Forall P (skip_removable language file_language parts).
Proof.
  induction 1 as [|p parts Hp Hparts IH]; [constructor | ].
  cbn [skip_removable]. destruct (removable language file_language p); [exact IH | ].
  now constructor.
Qed.

Lemma digits_no_sep (d : Decimal.uint) :
  count_char OsPath.sep (NilEmpty.string_of_uint d) = 0.
Proof. induction d; cbn; auto. Qed.

Lemma str_no_sep (i : nat) : count_char OsPath.sep (Py.str i) = 0.
Proof.
  unfold Py.str, NilZero.string_of_uint.
  destruct (Nat.to_uint i) eqn:E; try (rewrite <- E; apply digits_no_sep).
  reflexivity.
Qed.

Lemma join_no_sep (l : list string) :
  Forall (fun part => count_char OsPath.sep part = 0) l ->
  count_char OsPath.sep (Py.join "." l) = 0.
Proof.
  induction 1 as [|x l Hx Hl IH]; [reflexivity | ].
  destruct l as [|y l]; [exact Hx | ].
  rewrite StringFacts.join_cons by discriminate.
  rewrite !count_char_append, Hx, IH. reflexivity.
Qed.

(** ** [dirname] after [join] *)

Lemma all_sep_ends (d : string) :
  OsPath.all_sep d = true -> d <> "" -> OsPath.endswith_sep d = true.
Proof.
  induction d as [|c d IH]; [congruence | ].
  cbn [OsPath.all_sep]. intros H _. apply andb_prop in H as [Hc Hd].
  destruct d as [|c' d]; [exact Hc | ]. apply IH; [exact Hd | discriminate].
Qed.

Lemma rstrip_sep_fixed (d : string) :
  OsPath.rstrip_sep d = d -> d <> "" ->
  OsPath.endswith_sep d = false /\ OsPath.all_sep d = false.
Proof.
  induction d as [|c d IH]; [congruence | ].
  cbn [OsPath.rstrip_sep]. intros H _.
  destruct (OsPath.rstrip_sep d) as [|c' r] eqn:E.
  - destruct (Ascii.eqb c OsPath.sep) eqn:Ec; [discriminate | ].
    injection H as <-. cbn. now rewrite Ec.
  - injection H as H. destruct (IH H ltac:(rewrite <- H; discriminate)) as [H1 H2].
    split.
    + rewrite <- H in *. exact H1.
    + cbn [OsPath.all_sep]. rewrite H2. apply andb_false_r.
Qed.

Lemma rstrip_sep_idem (s : string) :
  OsPath.rstrip_sep (OsPath.rstrip_sep s) = OsPath.rstrip_sep s.
Proof.
  induction s as [|c s IH]; [reflexivity | ].
  cbn [OsPath.rstrip_sep]. destruct (OsPath.rstrip_sep s) as [|c' r] eqn:E.
  - destruct (Ascii.eqb c OsPath.sep) eqn:Ec; [reflexivity | ].
    cbn. now rewrite Ec.
  - cbn [OsPath.rstrip_sep]. cbn [OsPath.rstrip_sep] in IH. now rewrite IH.
Qed.

Lemma rstrip_sep_glued (d : string) :
  OsPath.rstrip_sep (d ++ String OsPath.sep "") = OsPath.rstrip_sep d.
Proof.
  induction d as [|c d IH]; [reflexivity | ].
  cbn [append OsPath.rstrip_sep]. now rewrite IH.
Qed.

Lemma endswith_sep_glued (d : string) :
  OsPath.endswith_sep (d ++ String OsPath.sep "") = true.
Proof.
  induction d as [|c d IH]; [reflexivity | ].
  cbn [append OsPath.endswith_sep]. destruct d; [reflexivity | exact IH].
Qed.

Lemma all_sep_glued (d : string) :
  OsPath.all_sep (d ++ String OsPath.sep "") = OsPath.all_sep d.
Proof.
  induction d as [|c d IH]; [reflexivity | ].
  cbn [append OsPath.all_sep]. now rewrite IH.
Qed.

(** What [dirname] returns: slashes only, or a path that ends with none. *)
Lemma dirname_shape (p : string) :
  OsPath.all_sep (OsPath.dirname p) = true
  \/ OsPath.rstrip_sep (OsPath.dirname p) = OsPath.dirname p.
Proof.
  unfold OsPath.dirname. destruct (fst (OsPath.rsplit p)) as [|c head] eqn:E.
  - now left.
  - cbn [String.eqb negb andb].
    destruct (OsPath.all_sep (String c head)) eqn:A; cbn [negb]; [now left | ].
    right. apply rstrip_sep_idem.
Qed.

(** Joining such a directory and a name without slash can be undone. *)
Lemma split_join (d name : string) :
  OsPath.all_sep d = true \/ OsPath.rstrip_sep d = d ->
  count_char OsPath.sep name = 0 ->
  OsPath.dirname (OsPath.join d name) = d
  /\ OsPath.basename (OsPath.join d name) = name.
Proof.
  intros Hd Hname.
  assert (Hstart : OsPath.startswith_sep name = false).
  { destruct name as [|c name]; [reflexivity | ]. cbn in *.
    now destruct (Ascii.eqb c OsPath.sep). }
  rewrite BuilderFacts.os_path_join_spec, Hstart. unfold glue.
  destruct d as [|c d].
  { cbn [String.eqb orb append]. unfold OsPath.dirname, OsPath.basename.
    now rewrite (rsplit_no_sep name Hname). }
  cbn [String.eqb orb].
  destruct Hd as [Hd | Hd].
  - rewrite (all_sep_ends _ Hd) by discriminate.
    unfold OsPath.dirname, OsPath.basename.
    rewrite rsplit_app;
      [ | apply all_sep_ends; [exact Hd | discriminate] | exact Hname].
    cbn [fst snd]. now rewrite Hd.
  - destruct (rstrip_sep_fixed _ Hd) as [He Ha]; [discriminate | ].
    rewrite He. unfold OsPath.dirname, OsPath.basename.
    rewrite rsplit_app; [ | apply endswith_sep_glued | exact Hname].
    cbn [fst snd]. rewrite all_sep_glued, Ha, rstrip_sep_glued, Hd.
    split; [ | reflexivity].
    destruct (String c d ++ String OsPath.sep "") eqn:E; [discriminate | reflexivity].
Qed.

End PathFacts.

(** X11.  For a language and a marker without a slash, the name
    [get_new_filename] returns lies in the directory of the file:
    [os.path.dirname] of the new name is that of the old one, and its base
    name is the dotted name assembled from the kept parts, the ordinal, the
    language, the marker, the flag and [srt].  A rename never moves a file to
    another directory. *)
Theorem new_name_stays_in_directory (full_path language file_language special : string)
  (forced verbose : bool) (w : world) :
  count_char OsPath.sep language = 0 ->
  count_char OsPath.sep special = 0 ->
  exists new_filename w' title i,
    get_new_filename full_path (Py.VStr language) file_language special forced verbose w
    = (Py.Ok new_filename, w')
    /\ kept_parts full_path (Py.VStr language) file_language = Py.Ok title
    /\ OsPath.dirname new_filename = OsPath.dirname full_path
    /\ OsPath.basename new_filename
       = Py.join "." (title ++ ordinal_token i ++ suffix_tokens language special forced).
Proof.
  intros Hlanguage Hspecial.
  destruct (BuilderFacts.get_new_filename_spec full_path language file_language special
              forced verbose w) as (i & w' & Hrun & _).
  eexists. exists w'. eexists. exists i.
  split; [exact Hrun | ]. split; [apply BuilderFacts.kept_parts_spec | ].
  unfold proposal. apply PathFacts.split_join; [apply PathFacts.dirname_shape | ].
  apply PathFacts.join_no_sep. apply Forall_app. split; [ | apply Forall_app; split].
  - apply Forall_rev, PathFacts.skip_removable_Forall. unfold reversed_parts.
    apply Forall_rev, PathFacts.split_no_sep, PathFacts.basename_no_sep.
  - unfold ordinal_token. destruct (1 <=? i)%nat; repeat constructor.
    apply PathFacts.str_no_sep.
  - unfold suffix_tokens.
    destruct (Py.truthy (Py.VStr special)), forced; repeat constructor; assumption.
Qed.

(** A second English file in [/media/tv]: the name with ordinal 1, in
    [/media/tv]. *)
Lemma new_name_stays_in_directory_witness :
  exists new_filename w' title i,
    get_new_filename "/media/tv/Show.srt" (Py.VStr "en") "Unknown" "" false false
      (Sample.empty_world ["/media/tv/Show.srt"; "/media/tv/Show.en.srt"])
    = (Py.Ok new_filename, w')
    /\ kept_parts "/media/tv/Show.srt" (Py.VStr "en") "Unknown" = Py.Ok title
    /\ OsPath.dirname new_filename = OsPath.dirname "/media/tv/Show.srt"
    /\ OsPath.basename new_filename
       = Py.join "." (title ++ ordinal_token i ++ suffix_tokens "en" "" false).
Proof.
  apply (new_name_stays_in_directory "/media/tv/Show.srt" "en" "Unknown" "" false false
           (Sample.empty_world ["/media/tv/Show.srt"; "/media/tv/Show.en.srt"]));
    reflexivity.
Defined.

(** A language with a slash in it takes the new name elsewhere: the
    hypothesis on the language is needed. *)
Example slash_in_language :
  fst (get_new_filename "/media/tv/Show.srt" (Py.VStr "x/y") "Unknown" "" false false
         (Sample.empty_world ["/media/tv/Show.srt"]))
  = Py.Ok "/media/tv/Show.x/y.srt"
  /\ OsPath.dirname "/media/tv/Show.x/y.srt" = "/media/tv/Show.x".
Proof. vm_compute. auto. Qed.

(* ===================================================================== *)
(** * The title the builder keeps *)
(* ===================================================================== *)

Module TitleFacts.

(** The stripping loop removes a part the scan stops at only when the part
    is one of the two codes. *)
Lemma removable_unrecognized (language file_language part : string) :
  removable (Py.VStr language) file_language part = true ->
  recognized part = false ->
  part = file_language \/ part = language.
Proof.
  unfold removable, recognized, keyword. rewrite ReFacts.one_or_two_digits_spec.
  destruct (Py.lower part =? "srt"); [discriminate | ].
  destruct (Py.lower part =? "forced"); [discriminate | ].
  destruct (Py.lower part =? "cc"); [cbn; discriminate | ].
  destruct (Py.lower part =? "sdh"); [cbn; discriminate | ].
  cbn [orb]. intros H R.
  apply orb_false_elim in R as [_ R].
  assert (Hn : short_number part = false).
  { destruct part as [|c part]; [reflexivity | ]. cbn in R. cbn [short_number].
    now rewrite R. }
  rewrite Hn in H.
  destruct (String.eqb_spec part file_language) as [E | _]; [now left | ].
  cbn [Py.value_eqb] in H.
  destruct (String.eqb_spec part language) as [E | _]; [now right | discriminate].
Qed.

(** What the loop leaves ends with what the scan left. *)
Lemma skip_keeps_scan_rest (language file_language : string) (parts : list string)
  (st : scan_state) :
  match snd (scan_loop st parts) with
  | [] => True
  | t :: _ => t <> language /\ t <> file_language
  end ->
  exists more,
    skip_removable (Py.VStr language) file_language parts
    = (more ++ snd (scan_loop st parts))%list
    /\ Forall (fun p => recognized p = true) more.
Proof.
  revert st. induction parts as [|p parts IH]; intros st Hguard.
  { exists []. auto. }
  cbn [skip_removable].
  destruct (removable (Py.VStr language) file_language p) eqn:Hrem.
  - destruct (recognized p) eqn:Hrec.
    + cbn [scan_loop] in Hguard |- *.
      rewrite (TokenizerFacts.scan_part_continue st p Hrec) in Hguard |- *.
      apply IH, Hguard.
    + rewrite (TokenizerFacts.scan_loop_stop st p parts Hrec) in Hguard.
      cbn [snd] in Hguard.
      destruct (removable_unrecognized _ _ _ Hrem Hrec); tauto.
  - destruct (TokenizerFacts.scan_loop_spec st (p :: parts))
      as (visited & Hparts & Hvisited & _).
    exists visited. split; [exact Hparts | exact Hvisited].
Qed.

End TitleFacts.

(** X12.  [get_new_filename] keeps at least the title
    [get_filename_language] saw: when the last title token is neither the
    language to write nor the language read, the parts the stripping loop
    keeps are the title tokens, followed by parts the scan went past that
    the loop does not remove (a code other than the two, a number of three
    digits or more, a part that begins with a digit). *)
Theorem builder_keeps_the_title (full_path language file_language : string) :
  title_is_neither (title_tokens full_path) language file_language = true ->
  exists more,
    kept_parts full_path (Py.VStr language) file_language
    = Py.Ok (title_tokens full_path ++ more)%list
    /\ Forall (fun p => recognized p = true) more.
Proof.
  unfold title_is_neither, title_tokens. rewrite rev_involutive. intros Hguard.
  destruct (TitleFacts.skip_keeps_scan_rest language file_language
              (reversed_parts full_path) scan_init) as (more & Hskip & Hmore).
  { destruct (snd (scan_loop scan_init (reversed_parts full_path))) as [|t rest];
      [exact I | ].
    apply andb_prop in Hguard as [H1 H2].
    apply negb_true_iff in H1, H2. now apply String.eqb_neq in H1, H2. }
  exists (rev more). split; [ | now apply Forall_rev].
  now rewrite BuilderFacts.kept_parts_spec, Hskip, rev_app_distr.
Qed.

(** A release year stays in the name although the scan went past it. *)
Lemma builder_keeps_the_title_witness :
  exists more,
    kept_parts "Movie.2019.en.srt" (Py.VStr "fr") "en"
    = Py.Ok (title_tokens "Movie.2019.en.srt" ++ more)%list
    /\ Forall (fun p => recognized p = true) more.
Proof.
  apply (builder_keeps_the_title "Movie.2019.en.srt" "fr" "en"). reflexivity.
Defined.

(** Without the condition the title is cut: a file without a language has
    ["Unknown"] for one, and a title that ends with that word loses it. *)
Example title_unknown_is_cut :
  title_tokens "The.Unknown.srt" = ["The"; "Unknown"]
  /\ get_filename_language (iso := Sample.iso639) "The.Unknown.srt" = ("Unknown", "", false)
  /\ kept_parts "The.Unknown.srt" (Py.VStr "en") "Unknown" = Py.Ok ["The"]
  /\ fst (get_new_filename "The.Unknown.srt" (Py.VStr "en") "Unknown" "" false false
            (Sample.empty_world ["The.Unknown.srt"]))
     = Py.Ok "The.en.srt".
Proof. vm_compute. auto. Qed.

(* ===================================================================== *)
(** * Names in the form the builder writes *)
(* ===================================================================== *)

Module CanonicalFacts.

Lemma split_dot_free (x : string) : count_char "." x = 0 -> Py.split "." x = [x].
Proof.
  induction x as [|c x IH]; [reflexivity | ]. cbn [count_char Py.split].
  destruct (Ascii.eqb c "."); [discriminate | ]. intros H. now rewrite (IH H).
Qed.

Lemma split_app (x rest : string) :
  count_char "." x = 0 ->
  Py.split "." (x ++ String "." rest) = x :: Py.split "." rest.
Proof.
  induction x as [|c x IH]; [reflexivity | ]. cbn [count_char append Py.split].
  destruct (Ascii.eqb c "."); [discriminate | ]. intros H. now rewrite (IH H).
Qed.

(** Splitting what was joined gives the parts back, when none holds a
    dot. *)
Lemma split_join_parts (l : list string) :
  Forall (fun p => count_char "." p = 0) l -> l <> [] ->
  Py.split "." (Py.join "." l) = l.
Proof.
  induction 1 as [|x l Hx Hl IH]; [congruence | ]. intros _.
  destruct l as [|y l]; [now apply split_dot_free | ].
  rewrite StringFacts.join_cons by discriminate.
  cbn [append]. rewrite split_app by exact Hx. now rewrite IH.
Qed.

Lemma basename_join (d name : string) :
  count_char OsPath.sep name = 0 -> OsPath.basename (OsPath.join d name) = name.
Proof.
  intros Hname.
  assert (Hstart : OsPath.startswith_sep name = false).
  { destruct name as [|c name]; [reflexivity | ]. cbn in *.
    now destruct (Ascii.eqb c OsPath.sep). }
  rewrite BuilderFacts.os_path_join_spec, Hstart. unfold glue, OsPath.basename.
  destruct (String.eqb_spec d "") as [-> | Hd]; cbn [orb].
  - cbn [append]. now rewrite PathFacts.rsplit_no_sep.
  - destruct (OsPath.endswith_sep d) eqn:E.
    + now rewrite PathFacts.rsplit_app.
    + rewrite PathFacts.rsplit_app; [reflexivity | | exact Hname].
      apply PathFacts.endswith_sep_glued.
Qed.

Lemma ordinal_token_plain (k : nat) :
  (k <= 9)%nat ->
  Forall (fun p => count_char "." p = 0 /\ count_char OsPath.sep p = 0) (ordinal_token k).
Proof.
  intros Hk. do 10 (destruct k as [|k]; [repeat constructor | ]). lia.
Qed.

Lemma suffix_tokens_plain (lang special : string) (forced : bool) :
  count_char "." lang = 0 /\ count_char OsPath.sep lang = 0 ->
  special = "" \/ special = "sdh" \/ special = "cc" ->
  Forall (fun p => count_char "." p = 0 /\ count_char OsPath.sep p = 0)
         (suffix_tokens lang special forced).
Proof.
  intros Hlang [-> | [-> | ->]]; destruct forced;
    cbv [suffix_tokens Py.truthy String.eqb Ascii.eqb Bool.eqb negb app];
    repeat (constructor; [first [exact Hlang | split; reflexivity] | ]);
    constructor.
Qed.

Section WithIso639.

Context {iso : Iso639}.

(** A name whose parts are a title the scan stops at, a one-digit ordinal
    and the parts the builder appends is read as it was written. *)
Lemma canonical_name_is_read (full_path : string) (title : list string) (k : nat)
  (lang special : string) (forced : bool) :
  Py.split "." (OsPath.basename full_path)
  = (title ++ ordinal_token k ++ suffix_tokens lang special forced)%list ->
  title_ends title = true ->
  (k <= 9)%nat ->
  lang_shaped lang = true ->
  Py.lower lang = lang ->
  is_valid639_1 lang || is_valid639_2 lang = true ->
  special = "" \/ special = "sdh" \/ special = "cc" ->
  title_tokens full_path = title
  /\ get_filename_language full_path = (lang, special, forced).
Proof.
  intros Hsplit Htitle Hk Hshape Hlow Hvalid Hspecial.
  assert (Hparts : reversed_parts full_path
                   = (rev (suffix_tokens lang special forced)
                      ++ rev (ordinal_token k) ++ rev title)%list).
  { unfold reversed_parts. now rewrite Hsplit, !rev_app_distr, app_assoc. }
  unfold title_tokens, get_filename_language.
  rewrite Hparts, RoundTripFacts.scan_suffix, RoundTripFacts.scan_ordinal,
    RoundTripFacts.scan_title by assumption.
  cbn. rewrite Hlow, rev_involutive.
  split; [reflexivity | ].
  unfold validate_sub_lang.
  destruct (lang_shaped_len lang Hshape) as [Hl | Hl]; rewrite Hl; cbn [Nat.eqb orb];
    destruct (is_valid639_1 lang), (is_valid639_2 lang); try discriminate; reflexivity.
Qed.

End WithIso639.

End CanonicalFacts.

Section WrittenNames.

Context {iso : Iso639}.

(** X13.  What the builder writes, the parser reads back.  Take parts
    without dot or slash: a title that is empty or ends with a part no rule
    of the scan applies to, and a language of two or three characters, in
    lower case, that is a valid code; an ordinal below 10; a marker that is
    empty, [sdh] or [cc].  The name assembled from them in any directory is
    split by [get_filename_language] into the same title, and read with the
    same language, marker and flag. *)
Theorem written_name_is_read_back (directory : string) (title : list string) (i : nat)
  (lang special : string) (forced : bool) :
  Forall (fun p => count_char "." p = 0 /\ count_char OsPath.sep p = 0) (lang :: title) ->
  title_ends title = true ->
  (i <= 9)%nat ->
  lang_shaped lang = true ->
  Py.lower lang = lang ->
  is_valid639_1 lang || is_valid639_2 lang = true ->
  special = "" \/ special = "sdh" \/ special = "cc" ->
  exists name,
    assemble directory title i (Py.VStr lang) special forced = Py.Ok name
    /\ title_tokens name = title
    /\ get_filename_language name = (lang, special, forced).
Proof.
  intros Hplain Htitle Hi Hshape Hlow Hvalid Hspecial.
  inversion Hplain as [|? ? Hlang Hparts]; subst.
  exists (proposal directory title i lang special forced).
  split; [apply BuilderFacts.assemble_str | ].
  assert (Hall : Forall (fun p => count_char "." p = 0 /\ count_char OsPath.sep p = 0)
                   (title ++ ordinal_token i ++ suffix_tokens lang special forced)).
  { apply Forall_app. split; [exact Hparts | ]. apply Forall_app. split.
    - now apply CanonicalFacts.ordinal_token_plain.
    - now apply CanonicalFacts.suffix_tokens_plain. }
  apply (CanonicalFacts.canonical_name_is_read _ title i); try assumption.
  unfold proposal. rewrite CanonicalFacts.basename_join.
  - apply CanonicalFacts.split_join_parts.
    + eapply Forall_impl; [ | exact Hall]. now intros p [H _].
    + intros E. apply app_eq_nil in E as [_ E]. apply app_eq_nil in E as [_ E].
      now apply BuilderFacts.suffix_tokens_nonempty in E.
  - apply PathFacts.join_no_sep.
    eapply Forall_impl; [ | exact Hall]. now intros p [_ H].
Qed.

End WrittenNames.

(** The third Spanish file of a directory. *)
Lemma written_name_is_read_back_witness :
  exists name,
    assemble "/media/tv" ["Show"; "S01E02"] 2 (Py.VStr "es") "sdh" true = Py.Ok name
    /\ title_tokens name = ["Show"; "S01E02"]
    /\ get_filename_language (iso := Sample.iso639) name = ("es", "sdh", true).
Proof.
  apply (written_name_is_read_back (iso := Sample.iso639) "/media/tv" ["Show"; "S01E02"]
           2 "es" "sdh" true).
  - repeat constructor.
  - reflexivity.
  - lia.
  - reflexivity.
  - reflexivity.
  - reflexivity.
  - right. left. reflexivity.
Defined.

(** From the tenth name on the ordinal has two digits, and is read as the
    language. *)
Example ordinal_ten_is_read_as_language :
  assemble "" ["Show"] 10 (Py.VStr "es") "" false = Py.Ok "Show.10.es.srt"
  /\ title_tokens "Show.10.es.srt" = ["Show"]
  /\ get_filename_language (iso := Sample.iso639) "Show.10.es.srt" = ("Unknown", "", false).
Proof. vm_compute. auto. Qed.

(* ===================================================================== *)
(** * A second run *)
(* ===================================================================== *)

Module SecondRunFacts.

(** For a name in the form the builder writes, with the language it
    carries, the builder proposes the name itself. *)
Lemma canonical_name_is_kept (full_path : string) (title : list string) (k : nat)
  (lang special : string) (forced verbose : bool) (w : world) :
  Py.split "." (OsPath.basename full_path)
  = (title ++ ordinal_token k ++ suffix_tokens lang special forced)%list ->
  OsPath.join (OsPath.dirname full_path) (OsPath.basename full_path) = full_path ->
  title_ends title = true ->
  (k <= 9)%nat ->
  (forall j, (j < k)%nat ->
     on_disk (disk w)
             (proposal (OsPath.dirname full_path) title j lang special forced) = true) ->
  lang_shaped lang = true ->
  special = "" \/ special = "sdh" \/ special = "cc" ->
  exists w',
    get_new_filename full_path (Py.VStr lang) lang special forced verbose w
    = (Py.Ok full_path, w')
    /\ disk w' = disk w /\ syscalls w' = syscalls w
    /\ (verbose = false -> stdout w' = stdout w).
Proof.
  intros Hsplit Hjoin Htitle Hk Htaken Hshape Hspecial.
  assert (Hparts : reversed_parts full_path
                   = (rev (suffix_tokens lang special forced)
                      ++ rev (ordinal_token k) ++ rev title)%list).
  { unfold reversed_parts. now rewrite Hsplit, !rev_app_distr, app_assoc. }
  destruct (BuilderFacts.get_new_filename_spec full_path lang lang special forced
              verbose w) as (i & w' & Hrun & Hstop & Hleast & Hd & Hs).
  assert (Hkept : rev (skip_removable (Py.VStr lang) lang (reversed_parts full_path))
                  = title).
  { rewrite Hparts, BuilderFacts.skip_removable_run
      by now apply RoundTripFacts.strip_suffix.
    rewrite BuilderFacts.skip_removable_run by now apply RoundTripFacts.strip_ordinal.
    rewrite RoundTripFacts.strip_title by assumption. apply rev_involutive. }
  rewrite Hkept in *.
  assert (Hself : proposal (OsPath.dirname full_path) title k lang special forced
                  = full_path).
  { unfold proposal. rewrite <- Hsplit.
    change (Py.join "." ?l) with (Py.join (String "." "") l).
    now rewrite StringFacts.join_split. }
  assert (Hi : i = k).
  { destruct (Nat.lt_trichotomy i k) as [Hlt | [Heq | Hgt]]; [ | exact Heq | ].
    - exfalso. unfold stops in Hstop. rewrite (Htaken i Hlt) in Hstop.
      cbn [negb] in Hstop. rewrite orb_false_r in Hstop.
      apply String.eqb_eq in Hstop. rewrite <- Hself in Hstop at 1.
      apply BuilderFacts.proposal_inj in Hstop. lia.
    - exfalso. specialize (Hleast k Hgt). unfold stops in Hleast.
      rewrite Hself, String.eqb_refl in Hleast. discriminate. }
  subst i. rewrite Hself in Hrun. exists w'.
  split; [exact Hrun | ]. split; [exact Hd | ]. split; [exact Hs | ].
  intros ->.
  pose proof (FrameFacts.get_new_filename_stdout full_path (Py.VStr lang) lang special
                forced w) as Hout.
  now rewrite Hrun in Hout.
Qed.

End SecondRunFacts.

Section SecondRun.

Context {iso : Iso639} {lid : LangId}.

(** X14.  A file that already carries the name the builder would give it is
    left alone.  Without [--verbose], for a name of the form
    title[.ordinal].lang[.marker][.forced].srt (title empty or ending with a
    part no rule of the scan applies to, one-digit ordinal with every lower
    one taken on disk, valid lower-case code, marker [sdh] or [cc]) whose
    language is the one the classifier resolves to, and which [--keep-only]
    does not exclude: [lang_detect_srt] returns [True] without calling
    [os.rename] or [os.remove], and without reaching [int()] of the
    confidence. *)
Theorem second_run_changes_nothing (file : string) (title : list string) (k : nat)
  (lang special : string) (forced summary dry_run quiet : bool) (a : args)
  (subtitles : list string) (w : world) :
  Py.split "." (OsPath.basename file)
  = (title ++ ordinal_token k ++ suffix_tokens lang special forced)%list ->
  OsPath.join (OsPath.dirname file) (OsPath.basename file) = file ->
  title_ends title = true ->
  (k <= 9)%nat ->
  (forall j, (j < k)%nat ->
     on_disk (disk w) (proposal (OsPath.dirname file) title j lang special forced) = true) ->
  lang_shaped lang = true ->
  Py.lower lang = lang ->
  is_valid639_1 lang || is_valid639_2 lang = true ->
  special = "" \/ special = "sdh" \/ special = "cc" ->
  subtitles <> [] ->
  resolved_language a (fst (classify (subtitles_text subtitles)))
  = Py.Ok (Py.VStr lang) ->
  keep_only a = []
  \/ (exists keep_langs,
        keep_langs_loop a (keep_only a) [] = Py.Ok keep_langs
        /\ Py.value_in (Py.VStr lang) keep_langs = true) ->
  exists w',
    lang_detect_srt file summary dry_run quiet false a (Parsed subtitles) w
    = (Py.Ok true, w')
    /\ disk w' = disk w /\ syscalls w' = syscalls w.
Proof.
  intros Hsplit Hjoin Htitle Hk Htaken Hshape Hlow Hvalid Hspecial Hsubs Hlang Hkeep.
  destruct (CanonicalFacts.canonical_name_is_read file title k lang special forced
              Hsplit Htitle Hk Hshape Hlow Hvalid Hspecial) as [_ Hread].
  unfold get_filename_language in Hread. cbv zeta in Hread.
  injection Hread as Hread1 Hread2 Hread3.
  destruct (PipelineFacts.lang_detect_srt_builds file summary dry_run quiet false a
              subtitles (Py.VStr lang) w Hsubs Hlang)
    as (new_lang_name & w1 & _ & E & Hd1 & Hs1 & _).
  rewrite E, Hread1, Hread2, Hread3, PipelineFacts.hysteresis_not_verbose.
  clear E.
  destruct (SecondRunFacts.canonical_name_is_kept file title k lang special forced false
              w1 Hsplit Hjoin Htitle Hk) as (w2 & E & Hd2 & Hs2 & _); try assumption.
  { intros j Hj. rewrite Hd1. now apply Htaken. }
  unfold bind at 1. rewrite E.
  assert (Hstage : quiet_run
                     (rename_stage file summary dry_run false a new_lang_name
                        (PrimFloat.mul (snd (classify (subtitles_text subtitles))) 100)
                        file) true).
  { unfold rename_stage. rewrite String.eqb_refl.
    apply (PipelineFacts.quiet_bind _ _ tt);
      [apply PipelineFacts.quiet_when, PipelineFacts.quiet_print
      | apply PipelineFacts.quiet_ret]. }
  destruct (Hstage w2) as (w3 & E3 & Hd3 & Hs3).
  exists w3. split; [ | split; congruence].
  unfold keep_only_stage.
  destruct Hkeep as [Hkeep | (keep_langs & Hloop & Hkeep)].
  - rewrite Hkeep. exact E3.
  - destruct (keep_only a) as [|l ls]; [exact E3 | ].
    unfold bind at 1. unfold lift at 1. rewrite Hloop, Hkeep. cbn [negb]. exact E3.
Qed.

End SecondRun.

(** The second English file of [/media], [--rename-files --keep-only en]. *)
Lemma second_run_changes_nothing_witness :
  exists w',
    lang_detect_srt (iso := Sample.iso639) (lid := Sample.langid "en" (PrimFloat.div 9 10))
      "/media/movie.1.en.sdh.srt" false false false false Sample.keep_english
      (Parsed ["Hello"; "[door slams]"])
      (Sample.empty_world ["/media/movie.en.sdh.srt"; "/media/movie.1.en.sdh.srt"])
    = (Py.Ok true, w')
    /\ disk w' = ["/media/movie.en.sdh.srt"; "/media/movie.1.en.sdh.srt"]
    /\ syscalls w' = [].
Proof.
  apply (second_run_changes_nothing (iso := Sample.iso639)
           (lid := Sample.langid "en" (PrimFloat.div 9 10))
           "/media/movie.1.en.sdh.srt" ["movie"] 1 "en" "sdh" false false false false
           Sample.keep_english ["Hello"; "[door slams]"]
           (Sample.empty_world ["/media/movie.en.sdh.srt"; "/media/movie.1.en.sdh.srt"])).
  - reflexivity.
  - reflexivity.
  - reflexivity.
  - lia.
  - intros j Hj. assert (j = 0)%nat as -> by lia. reflexivity.
  - reflexivity.
  - reflexivity.
  - reflexivity.
  - right. left. reflexivity.
  - discriminate.
  - reflexivity.
  - right. exists [Py.VStr "en"]. split; reflexivity.
Defined.

(* ===================================================================== *)
(** * Blank lines and the count of [percent_sdh] *)
(* ===================================================================== *)

Module SeparatorFacts.

(** A text without blank line is left as it is. *)
Lemma removed_fixed (bol : bool) (s : string) :
  no_blank_line s = true -> removed bol s = s.
Proof.
  unfold removed. revert bol. induction s as [|c r IH]; intros bol; [reflexivity | ].
  cbn [no_blank_line]. intros H. apply andb_prop in H as [Hc Hr].
  rewrite BlankLineFacts.remove_step.
  destruct (Ascii.eqb c Py.LF); cbn [negb orb] in Hc.
  - apply negb_true_iff, BlankLineFacts.after_blank_none in Hc. rewrite Hc.
    now rewrite IH.
  - now rewrite IH.
Qed.

Lemma after_blank_linefeed (b : string) :
  after_blank (String Py.LF b)
  = Some match after_blank b with Some t => t | None => b end.
Proof.
  cbn [after_blank]. change (Py.is_space Py.LF) with true.
  change (Ascii.eqb Py.LF Py.LF) with true. cbn iota.
  destruct (after_blank b); reflexivity.
Qed.

(** Through white space, up to a line feed. *)
Lemma after_blank_spaces (sp b : string) :
  forallb Py.is_space (list_ascii_of_string sp) = true ->
  after_blank (sp ++ String Py.LF b)
  = Some match after_blank b with Some t => t | None => b end.
Proof.
  induction sp as [|c sp IH]; [intros _; apply after_blank_linefeed | ].
  cbn [list_ascii_of_string forallb append after_blank]. intros H.
  apply andb_prop in H as [Hc Hsp]. now rewrite Hc, (IH Hsp).
Qed.

(** Past a visible character nothing of what follows is looked at. *)
Lemma after_blank_visible (a rest : string) :
  forallb Py.is_space (list_ascii_of_string a) = false ->
  after_blank (a ++ rest) = option_map (fun t => t ++ rest) (after_blank a).
Proof.
  induction a as [|c a IH]; [discriminate | ].
  cbn [list_ascii_of_string forallb append after_blank].
  destruct (Py.is_space c); [ | reflexivity]. cbn [andb]. intros H.
  rewrite (IH H). destruct (after_blank a); cbn [option_map]; [reflexivity | ].
  destruct (Ascii.eqb c Py.LF); reflexivity.
Qed.

(** Two line feeds in a row count as one. *)
Lemma removed_doubled (n : nat) (a b : string) (bol : bool) :
  (String.length a <= n)%nat ->
  removed bol (a ++ String Py.LF (String Py.LF b)) = removed bol (a ++ String Py.LF b).
Proof.
  unfold removed. revert a bol. induction n as [|n IH]; intros a bol Hn.
  - destruct a; [ | cbn in Hn; lia]. cbn [append].
    rewrite !BlankLineFacts.remove_step. change (Ascii.eqb Py.LF Py.LF) with true.
    cbn iota. rewrite after_blank_linefeed. destruct (after_blank b); reflexivity.
  - destruct a as [|c a].
    { cbn [append].
      rewrite !BlankLineFacts.remove_step. change (Ascii.eqb Py.LF Py.LF) with true.
      cbn iota. rewrite after_blank_linefeed. destruct (after_blank b); reflexivity. }
    cbn [String.length] in Hn. cbn [append].
    rewrite !BlankLineFacts.remove_step.
    destruct (Ascii.eqb c Py.LF); [ | now rewrite IH by lia].
    destruct (forallb Py.is_space (list_ascii_of_string a)) eqn:Hsp.
    + rewrite !after_blank_spaces by exact Hsp. now rewrite after_blank_linefeed.
    + rewrite !after_blank_visible by exact Hsp.
      destruct (after_blank a) as [t | ] eqn:E; cbn [option_map].
      * destruct (BlankLineFacts.after_blank_prefix a t E) as (pre & Ha & _ & Hl).
        rewrite IH; [reflexivity | ].
        rewrite Ha, StringFacts.length_append in Hn. lia.
      * now rewrite IH by lia.
Qed.

(** The contents joined with one line feed or with two. *)
Lemma removed_joined (subtitles : list string) (pre : string) :
  removed true (pre ++ Py.join (String Py.LF (String Py.LF "")) subtitles)
  = removed true (pre ++ Py.join (String Py.LF "") subtitles).
Proof.
  revert pre. induction subtitles as [|x l IH]; intros pre; [reflexivity | ].
  destruct l as [|y l]; [reflexivity | ].
  rewrite !StringFacts.join_cons by discriminate.
  cbn [append].
  replace (pre ++ x ++ String Py.LF (String Py.LF (Py.join (String Py.LF (String Py.LF "")) (y :: l))))
    with ((pre ++ x) ++ String Py.LF (String Py.LF (Py.join (String Py.LF (String Py.LF "")) (y :: l))))
    by (now rewrite StringFacts.append_assoc).
  rewrite (removed_doubled _ _ _ true (le_n _)).
  replace ((pre ++ x) ++ String Py.LF (Py.join (String Py.LF (String Py.LF "")) (y :: l)))
    with ((pre ++ x ++ String Py.LF "") ++ Py.join (String Py.LF (String Py.LF "")) (y :: l))
    by (now rewrite !StringFacts.append_assoc).
  rewrite IH. now rewrite !StringFacts.append_assoc.
Qed.

End SeparatorFacts.

(** X15.  [re.sub(r"\n\s*\n", "\n", text)] returns the text itself exactly
    when no line feed of it is followed by white space up to another line
    feed; so removing the empty lines twice is removing them once, and
    [percent_sdh] of a cleaned text is [percent_sdh] of the text. *)
Theorem remove_empty_lines_fixed_points (input_text : string) :
  (remove_empty_lines input_text = input_text <-> no_blank_line input_text = true)
  /\ remove_empty_lines (remove_empty_lines input_text) = remove_empty_lines input_text
  /\ percent_sdh (remove_empty_lines input_text) = percent_sdh input_text.
Proof.
  destruct (BlankLineFacts.remove_spec (String.length input_text) input_text true
              (le_n _)) as (Hclean & _).
  fold (Re.sub Re.blank_lines (String Py.LF "") input_text) in Hclean.
  fold (remove_empty_lines input_text) in Hclean.
  assert (Hidem : remove_empty_lines (remove_empty_lines input_text)
                  = remove_empty_lines input_text)
    by apply (SeparatorFacts.removed_fixed true _ Hclean).
  split; [split | split; [exact Hidem | ]].
  - intros E. now rewrite E in Hclean.
  - apply (SeparatorFacts.removed_fixed true).
  - unfold percent_sdh, sdh_counts. now rewrite Hidem.
Qed.

(** X16.  The blank line [lang_detect_srt] puts between two subtitles is
    not counted: [percent_sdh] of the contents joined with two line feeds,
    as line 86 joins them, counts the lines of the contents joined with
    one, and returns the same score. *)
Theorem separator_lines_are_not_counted (subtitles : list string) :
  sdh_counts (subtitles_text subtitles) = sdh_counts (Py.join (String Py.LF "") subtitles)
  /\ percent_sdh (subtitles_text subtitles)
     = percent_sdh (Py.join (String Py.LF "") subtitles).
Proof.
  assert (H : remove_empty_lines (subtitles_text subtitles)
              = remove_empty_lines (Py.join (String Py.LF "") subtitles))
    by apply (SeparatorFacts.removed_joined subtitles "").
  unfold percent_sdh, sdh_counts. now rewrite H.
Qed.

(** A blank line inside a subtitle is removed as well; the white space
    before the first line feed and after the last one stays. *)
Example blank_lines_removed :
  remove_empty_lines ("one" ++ String Py.LF (" " ++ String Py.LF (String Py.LF " two")))
  = "one" ++ String Py.LF " two".
Proof. vm_compute. reflexivity. Qed.

(* ===================================================================== *)
(** * The confidence threshold *)
(* ===================================================================== *)

Module ThresholdFacts.

Section WithServices.

Context {iso : Iso639} {lid : LangId}.

(** Every call of the decision stands behind the comparison with the
    threshold. *)
Lemma keep_only_stage_gated (file : string) (summary dry_run verbose : bool) (a : args)
  (new_language new_lang_name : Py.value) (conf : float) (new_filename : string)
  (confidence : Z) :
  Py.int_of_float conf = Py.Ok confidence ->
  (confidence < require_lang_confidence a)%Z ->
  preserves effects
    (keep_only_stage file summary dry_run verbose a new_language new_lang_name conf
                     new_filename).
Proof.
  intros Hint Hlow. apply Z.leb_gt in Hlow.
  assert (Hrename : preserves effects
                      (rename_stage file summary dry_run verbose a new_lang_name conf
                                    new_filename)).
  { unfold rename_stage. rewrite Hint.
    destruct (new_filename =? file); [FrameFacts.frame | ].
    intros w. unfold bind at 1, lift. rewrite Hlow. reflexivity. }
  unfold keep_only_stage. cbv zeta. rewrite Hint.
  destruct (keep_only a) as [|l ls]; [exact Hrename | ].
  apply FrameFacts.preserves_bind; [apply FrameFacts.preserves_lift | intros keep_langs].
  destruct (negb (Py.value_in new_language keep_langs)); [ | exact Hrename].
  intros w. unfold bind at 1, lift. rewrite Hlow. apply Hrename.
Qed.

(** The steps before the decision touch nothing. *)
Lemma lang_detect_srt_effects (file : string) (summary dry_run quiet verbose : bool)
  (a : args) (subtitles : list string) :
  (forall new_language new_lang_name new_filename,
     preserves effects
       (keep_only_stage file summary dry_run verbose a new_language new_lang_name
          (PrimFloat.mul (snd (classify (subtitles_text subtitles))) 100)
          new_filename)) ->
  preserves effects (lang_detect_srt file summary dry_run quiet verbose a (Parsed subtitles)).
Proof.
  intros Hstage.
  unfold lang_detect_srt, get_filename_language. cbv zeta.
  fold (subtitles_text subtitles).
  apply FrameFacts.preserves_bind; [FrameFacts.frame | intros _].
  destruct (List.length subtitles =? 0)%nat; [FrameFacts.frame | ].
  apply FrameFacts.preserves_bind; [FrameFacts.frame | intros percent].
  apply FrameFacts.preserves_bind; [FrameFacts.frame | intros new_lang_name].
  apply FrameFacts.preserves_bind.
  { apply FrameFacts.preserves_when.
    apply FrameFacts.preserves_bind; [FrameFacts.frame | intros file_language_long].
    apply FrameFacts.preserves_when.
    apply FrameFacts.preserves_bind; [apply FrameFacts.print_effects | intros _].
    apply FrameFacts.preserves_bind; [apply FrameFacts.print_effects | intros _].
    apply FrameFacts.preserves_bind;
      [apply FrameFacts.detect_langs_pretty_effects | intros _].
    apply FrameFacts.print_effects. }
  intros _.
  apply FrameFacts.preserves_bind;
    [apply FrameFacts.resolve_language_effects | intros new_language].
  apply FrameFacts.preserves_bind;
    [apply FrameFacts.sdh_hysteresis_effects | intros special_subs].
  apply FrameFacts.preserves_bind;
    [apply FrameFacts.get_new_filename_effects | intros new_filename].
  apply Hstage.
Qed.

End WithServices.

End ThresholdFacts.

Section Threshold.

Context {iso : Iso639} {lid : LangId}.

(** X17.  Below the threshold nothing happens to the file: when the
    classifier's confidence, as a percentage truncated by [int()], is below
    [--require-lang-confidence], [lang_detect_srt] calls neither [os.remove]
    nor [os.rename], with or without [--rename-files] and [--keep-only] and
    whatever the file is called. *)
Theorem no_call_below_threshold (file : string) (summary dry_run quiet verbose : bool)
  (a : args) (subtitles : list string) (confidence : Z) (w : world) :
  Py.int_of_float (PrimFloat.mul (snd (classify (subtitles_text subtitles))) 100)
  = Py.Ok confidence ->
  (confidence < require_lang_confidence a)%Z ->
  let w' := snd (lang_detect_srt file summary dry_run quiet verbose a (Parsed subtitles) w) in
  disk w' = disk w /\ syscalls w' = syscalls w.
Proof.
  intros Hint Hlow. cbv zeta.
  pose proof (ThresholdFacts.lang_detect_srt_effects file summary dry_run quiet verbose a
                subtitles) as H.
  specialize (H (fun new_language new_lang_name new_filename =>
                   ThresholdFacts.keep_only_stage_gated file summary dry_run verbose a
                     new_language new_lang_name _ new_filename confidence Hint Hlow) w).
  unfold effects in H. now injection H.
Qed.

End Threshold.

(** A French file, [--rename-files --keep-only en], but the classifier is
    40 % sure: the file stays. *)
Lemma no_call_below_threshold_witness :
  let w := Sample.empty_world ["Show.fr.srt"] in
  let w' := snd (lang_detect_srt (iso := Sample.iso639)
                   (lid := Sample.langid "fr" (PrimFloat.div 2 5))
                   "Show.fr.srt" false false false false Sample.keep_english
                   (Parsed ["Bonjour"]) w) in
  disk w' = disk w /\ syscalls w' = syscalls w.
Proof.
  apply (no_call_below_threshold (iso := Sample.iso639)
           (lid := Sample.langid "fr" (PrimFloat.div 2 5))
           "Show.fr.srt" false false false false Sample.keep_english ["Bonjour"] 40
           (Sample.empty_world ["Show.fr.srt"])).
  - vm_compute. reflexivity.
  - reflexivity.
Defined.

(* ===================================================================== *)
(** * The directory of the file *)
(* ===================================================================== *)

Module DirectoryFacts.

Lemma basename_basename (p : string) :
  OsPath.basename (OsPath.basename p) = OsPath.basename p.
Proof.
  unfold OsPath.basename at 1.
  now rewrite (PathFacts.rsplit_no_sep _ (PathFacts.basename_no_sep p)).
Qed.

Lemma reversed_parts_basename (p : string) :
  reversed_parts (OsPath.basename p) = reversed_parts p.
Proof. unfold reversed_parts. now rewrite basename_basename. Qed.

End DirectoryFacts.

Section Directory.

Context {iso : Iso639}.

(** X18.  Only the base name is read: [get_filename_language] returns for
    a path what it returns for its base name, and the stripping loop of
    [get_new_filename] keeps the same parts.  A directory called [fr] or
    [forced], or one with a dot in its name, changes nothing. *)
Theorem directory_is_not_read (full_path : string) (language : Py.value)
  (file_language : string) :
  get_filename_language full_path = get_filename_language (OsPath.basename full_path)
  /\ title_tokens full_path = title_tokens (OsPath.basename full_path)
  /\ kept_parts full_path language file_language
     = kept_parts (OsPath.basename full_path) language file_language.
Proof.
  unfold get_filename_language, title_tokens.
  rewrite !BuilderFacts.kept_parts_spec, DirectoryFacts.reversed_parts_basename.
  auto.
Qed.

End Directory.

Example dotted_directory :
  get_filename_language (iso := Sample.iso639) "/media/fr.forced/Movie.srt"
  = ("Unknown", "", false)
  /\ fst (get_new_filename "/media/fr.forced/Movie.srt" (Py.VStr "en") "Unknown" "" false
            false (Sample.empty_world ["/media/fr.forced/Movie.srt"]))
     = Py.Ok "/media/fr.forced/Movie.en.srt".
Proof. vm_compute. auto. Qed.
